(** * School management system: relational store, triggers and CRUD layers

    A shallow embedding of
    - [managementSchema.py]: the eight tables, their column constraints,
      foreign keys (ON DELETE CASCADE / RESTRICT) and BEFORE INSERT triggers;
    - [main.py]: the FastAPI handlers, each one a [with get_conn()] block;
    - [managementCrud.py]: the plain CRUD functions, each one a
      [with connect()] block.

    Tables keyed by an INTEGER PRIMARY KEY are finite maps from the rowid to
    the remaining columns; the two junction tables are keyed by their
    composite primary key.

    Integers are [Z].  The integers a caller passes in (ids, the attempt
    number given to [managementCrud.create_submission]) are taken to lie in
    the signed 64-bit range of an SQLite INTEGER, and the tables are taken
    not to run out of rowids.  The one integer the code computes before
    binding it, the attempt number of [main.create_submission], is checked
    against that range as the sqlite3 module does ([bind_int]).  A grade is
    stored as SQLite stores a REAL ([REAL]).  A role or a kind passed in is
    one of the values its CHECK constraint admits ([Role], [Kind]), and a
    text argument is a string.  Timestamps ([datetime('now')]) are passed to
    the inserting calls as [now]. *)

From stdpp Require Import gmap strings list fin_maps sorting.
From Stdlib Require Import ZArith Floats.PrimFloat.

Open Scope string_scope.
Open Scope Z_scope.

(** ** managementSchema.py *)

Module Schema.

(** [role TEXT NOT NULL CHECK (role IN ('teacher','student','admin'))] *)
Inductive Role := teacher | student | admin.

(** [kind TEXT NOT NULL CHECK (kind IN ('url','file'))] *)
Inductive Kind := url | file.

#[global] Instance Role_eq_dec : EqDecision Role.
Proof. solve_decision. Defined.

#[global] Instance Kind_eq_dec : EqDecision Kind.
Proof. solve_decision. Defined.

(** Nullable columns are options: [None] is SQL NULL. *)

Record User := {
  u_email : string;
  u_full_name : string;
  u_role : Role;
  u_created_at : string }.

Record Class := {
  c_code : string;
  c_title : string;
  c_description : option string;
  c_created_at : string }.

Record Assignment := {
  a_class_id : Z;
  a_title : string;
  a_description : option string;
  a_due_at : string;
  a_created_at : string }.

Record Submission := {
  s_assignment_id : Z;
  s_student_id : Z;
  s_attempt_number : Z;
  s_submitted_at : string;
  s_grade : option float;
  s_feedback : option string }.

Record Attachment := {
  at_submission_id : Z;
  at_kind : Kind;
  at_value : string;
  at_created_at : string }.

Record Announcement := {
  an_class_id : Z;
  an_author_id : Z;
  an_title : string;
  an_body : string;
  an_posted_at : string }.

(** The database file: one field per table of the DDL.  [TeacherClass] is
    keyed by (teacher_id, class_id), [Enrollments] by (user_id, class_id)
    and carries [enrolled_at]. *)
Record DB := {
  Users : gmap Z User;
  Classes : gmap Z Class;
  TeacherClass : gset (Z * Z);
  Enrollments : gmap (Z * Z) string;
  Assignments : gmap Z Assignment;
  Submissions : gmap Z Submission;
  SubmissionAttachments : gmap Z Attachment;
  Announcements : gmap Z Announcement }.

(** What [create_db] leaves behind on a fresh file. *)
Definition empty_db : DB :=
  {| Users := ∅; Classes := ∅; TeacherClass := ∅; Enrollments := ∅;
     Assignments := ∅; Submissions := ∅; SubmissionAttachments := ∅;
     Announcements := ∅ |}.

Definition with_Users (t : gmap Z User) (db : DB) : DB :=
  {| Users := t; Classes := Classes db; TeacherClass := TeacherClass db;
     Enrollments := Enrollments db; Assignments := Assignments db;
     Submissions := Submissions db;
     SubmissionAttachments := SubmissionAttachments db;
     Announcements := Announcements db |}.

Definition with_Classes (t : gmap Z Class) (db : DB) : DB :=
  {| Users := Users db; Classes := t; TeacherClass := TeacherClass db;
     Enrollments := Enrollments db; Assignments := Assignments db;
     Submissions := Submissions db;
     SubmissionAttachments := SubmissionAttachments db;
     Announcements := Announcements db |}.

Definition with_TeacherClass (t : gset (Z * Z)) (db : DB) : DB :=
  {| Users := Users db; Classes := Classes db; TeacherClass := t;
     Enrollments := Enrollments db; Assignments := Assignments db;
     Submissions := Submissions db;
     SubmissionAttachments := SubmissionAttachments db;
     Announcements := Announcements db |}.

Definition with_Enrollments (t : gmap (Z * Z) string) (db : DB) : DB :=
  {| Users := Users db; Classes := Classes db; TeacherClass := TeacherClass db;
     Enrollments := t; Assignments := Assignments db;
     Submissions := Submissions db;
     SubmissionAttachments := SubmissionAttachments db;
     Announcements := Announcements db |}.

Definition with_Assignments (t : gmap Z Assignment) (db : DB) : DB :=
  {| Users := Users db; Classes := Classes db; TeacherClass := TeacherClass db;
     Enrollments := Enrollments db; Assignments := t;
     Submissions := Submissions db;
     SubmissionAttachments := SubmissionAttachments db;
     Announcements := Announcements db |}.

Definition with_Submissions (t : gmap Z Submission) (db : DB) : DB :=
  {| Users := Users db; Classes := Classes db; TeacherClass := TeacherClass db;
     Enrollments := Enrollments db; Assignments := Assignments db;
     Submissions := t;
     SubmissionAttachments := SubmissionAttachments db;
     Announcements := Announcements db |}.

Definition with_SubmissionAttachments (t : gmap Z Attachment) (db : DB) : DB :=
  {| Users := Users db; Classes := Classes db; TeacherClass := TeacherClass db;
     Enrollments := Enrollments db; Assignments := Assignments db;
     Submissions := Submissions db;
     SubmissionAttachments := t;
     Announcements := Announcements db |}.

Definition with_Announcements (t : gmap Z Announcement) (db : DB) : DB :=
  {| Users := Users db; Classes := Classes db; TeacherClass := TeacherClass db;
     Enrollments := Enrollments db; Assignments := Assignments db;
     Submissions := Submissions db;
     SubmissionAttachments := SubmissionAttachments db;
     Announcements := t |}.

(** *** Errors raised by the engine and by the handlers *)

(** The constraint behind a [sqlite3.IntegrityError]. *)
Inductive ConstraintError :=
  | UniqueFailed (columns : string)
  | NotNullFailed (column : string)
  | ForeignKeyFailed
  | TriggerAbort (message : string).

(** [str(e)] for an IntegrityError, as interpolated into the 409 details. *)
Definition str (c : ConstraintError) : string :=
  match c with
  | UniqueFailed columns => "UNIQUE constraint failed: " +:+ columns
  | NotNullFailed column => "NOT NULL constraint failed: " +:+ column
  | ForeignKeyFailed => "FOREIGN KEY constraint failed"
  | TriggerAbort message => message
  end.

(** Python exceptions that leave a handler. *)
Inductive Exc :=
  | IntegrityError (c : ConstraintError)
  | OperationalError (message : string)
  | OverflowError (message : string)
  | HTTPException (status_code : Z) (detail : string).

(** A single SQL statement is atomic: it either fails, leaving the database
    as it was, or yields a result and the new database. *)
Definition Stmt (A : Type) : Type := DB → Exc + (A * DB).

(** *** Values as the engine stores them *)

(** A Python float bound to a column of type REAL: SQLite stores NaN as
    NULL, and keeps a zero as the integer 0, so that negative zero reads
    back as 0.0; every other value reads back as it was written. *)
Definition REAL (x : float) : option float :=
  if PrimFloat.is_nan x then None
  else if PrimFloat.is_zero x then Some 0%float
  else Some x.

(** The range of an SQLite INTEGER. *)
Definition int64 (n : Z) : Prop := - 2 ^ 63 ≤ n ≤ 2 ^ 63 - 1.

#[global] Instance int64_dec n : Decision (int64 n).
Proof. unfold int64. apply _. Defined.

(** *** Aggregates, rowids *)

(** The largest [col k r] over the rows of a table, [None] on no rows. *)
Definition fold_max {K A} `{Countable K} (col : K → A → Z) (t : gmap K A)
    : option Z :=
  map_fold (λ k r acc, Some (from_option (Z.max (col k r)) (col k r) acc))
           None t.

(** [MAX(col)]: NULL when no row is selected. *)
Definition sql_max {K A} `{Countable K} (col : A → Z) (t : gmap K A)
    : option Z :=
  fold_max (λ _ r, col r) t.

(** [COALESCE(x, d)] *)
Definition COALESCE {A} (x : option A) (d : A) : A := default d x.

(** The rowid SQLite picks for an INSERT that names no id: one more than the
    largest rowid in use, 1 on an empty table. *)
Definition new_rowid {A} (t : gmap Z A) : Z :=
  match fold_max (λ k _, k) t with
  | Some m => m + 1
  | None => 1
  end.

(** SQL three-valued [x <> v] for a scalar subquery [x] that may be NULL. *)
Definition sql_ne {A} `{EqDecision A} (x : option A) (v : A) : option bool :=
  (λ a, bool_decide (a ≠ v)) <$> x.

(** A trigger's WHEN clause fires only on TRUE: NULL does not fire. *)
Definition when_true (c : option bool) : bool := default false c.

(** *** Triggers

    Each function is the WHEN clause of the trigger of the same name: [true]
    means the trigger body runs and RAISE(ABORT, ...) aborts the INSERT. *)

Definition trg_teacherclass_teacher_role (db : DB) (teacher_id : Z) : bool :=
  when_true (sql_ne (u_role <$> Users db !! teacher_id) teacher).

Definition trg_enrollments_student_role (db : DB) (user_id : Z) : bool :=
  when_true (sql_ne (u_role <$> Users db !! user_id) student).

Definition trg_submissions_student_role (db : DB) (student_id : Z) : bool :=
  when_true (sql_ne (u_role <$> Users db !! student_id) student).

(** [NOT EXISTS (SELECT 1 FROM Assignments a JOIN Enrollments e
      ON e.class_id = a.class_id AND e.user_id = NEW.student_id
      WHERE a.id = NEW.assignment_id)] *)
Definition trg_submissions_student_enrolled (db : DB)
    (assignment_id student_id : Z) : bool :=
  negb match Assignments db !! assignment_id with
       | Some a =>
           bool_decide (is_Some (Enrollments db !! (student_id, a_class_id a)))
       | None => false
       end.

Definition trg_announcements_author_is_assigned_teacher (db : DB)
    (class_id author_id : Z) : bool :=
  negb (bool_decide ((author_id, class_id) ∈ TeacherClass db)).

Definition msg_teacherclass_teacher_role : string :=
  "TeacherClass.teacher_id must reference a user with role=teacher".
Definition msg_enrollments_student_role : string :=
  "Enrollments.user_id must reference a user with role=student".
Definition msg_submissions_student_role : string :=
  "Submissions.student_id must reference a user with role=student".
Definition msg_submissions_student_enrolled : string :=
  "Student must be enrolled in the class for this assignment".
Definition msg_announcements_author_is_assigned_teacher : string :=
  "Announcements.author_id must be a teacher assigned to this class".

(** The column lists SQLite prints for the composite uniqueness
    constraints. *)
Definition uq_teacherclass : string :=
  "TeacherClass.teacher_id, TeacherClass.class_id".
Definition uq_enrollments : string :=
  "Enrollments.user_id, Enrollments.class_id".
Definition uq_submissions : string :=
  "Submissions.assignment_id, Submissions.student_id, Submissions.attempt_number".

(** *** INSERT statements

    SQLite runs the BEFORE INSERT triggers first, then the NOT NULL and
    uniqueness checks, and the foreign-key check (PRAGMA foreign_keys = ON,
    immediate constraints) when the statement ends.  Every INSERT yields
    [lastrowid]. *)

Definition parent_exists {A} (t : gmap Z A) (id : Z) : bool :=
  bool_decide (is_Some (t !! id)).

Definition insert_Users (email full_name : string) (role : Role)
    (now : string) : Stmt Z := λ db,
  if bool_decide (map_Exists (λ _ u, u_email u = email) (Users db))
  then inl (IntegrityError (UniqueFailed "Users.email"))
  else
    let id := new_rowid (Users db) in
    inr (id, with_Users (<[id := {| u_email := email;
                                    u_full_name := full_name;
                                    u_role := role;
                                    u_created_at := now |}]> (Users db)) db).

Definition insert_Classes (code title : string) (description : option string)
    (now : string) : Stmt Z := λ db,
  if bool_decide (map_Exists (λ _ c, c_code c = code) (Classes db))
  then inl (IntegrityError (UniqueFailed "Classes.code"))
  else
    let id := new_rowid (Classes db) in
    inr (id, with_Classes (<[id := {| c_code := code;
                                      c_title := title;
                                      c_description := description;
                                      c_created_at := now |}]> (Classes db)) db).

Definition insert_TeacherClass (teacher_id class_id : Z) : Stmt unit := λ db,
  if trg_teacherclass_teacher_role db teacher_id
  then inl (IntegrityError (TriggerAbort msg_teacherclass_teacher_role))
  else if bool_decide ((teacher_id, class_id) ∈ TeacherClass db)
  then inl (IntegrityError (UniqueFailed uq_teacherclass))
  else if negb (parent_exists (Users db) teacher_id
                && parent_exists (Classes db) class_id)
  then inl (IntegrityError ForeignKeyFailed)
  else inr (tt, with_TeacherClass ({[ (teacher_id, class_id) ]} ∪ TeacherClass db) db).

Definition insert_Enrollments (user_id class_id : Z) (now : string)
    : Stmt unit := λ db,
  if trg_enrollments_student_role db user_id
  then inl (IntegrityError (TriggerAbort msg_enrollments_student_role))
  else if bool_decide (is_Some (Enrollments db !! (user_id, class_id)))
  then inl (IntegrityError (UniqueFailed uq_enrollments))
  else if negb (parent_exists (Users db) user_id
                && parent_exists (Classes db) class_id)
  then inl (IntegrityError ForeignKeyFailed)
  else inr (tt, with_Enrollments (<[(user_id, class_id) := now]> (Enrollments db)) db).

Definition insert_Assignments (class_id : Z) (title : string)
    (description : option string) (due_at now : string) : Stmt Z := λ db,
  if negb (parent_exists (Classes db) class_id)
  then inl (IntegrityError ForeignKeyFailed)
  else
    let id := new_rowid (Assignments db) in
    inr (id, with_Assignments
               (<[id := {| a_class_id := class_id;
                           a_title := title;
                           a_description := description;
                           a_due_at := due_at;
                           a_created_at := now |}]> (Assignments db)) db).

(** The two triggers on Submissions: SQLite keeps the triggers of a table in
    a list that it prepends to, so the one created last is tried first. *)
Definition insert_Submissions (assignment_id student_id attempt_number : Z)
    (grade : option float) (feedback : option string) (now : string)
    : Stmt Z := λ db,
  if trg_submissions_student_enrolled db assignment_id student_id
  then inl (IntegrityError (TriggerAbort msg_submissions_student_enrolled))
  else if trg_submissions_student_role db student_id
  then inl (IntegrityError (TriggerAbort msg_submissions_student_role))
  else if bool_decide (map_Exists (λ _ s, s_assignment_id s = assignment_id
                                          ∧ s_student_id s = student_id
                                          ∧ s_attempt_number s = attempt_number)
                                  (Submissions db))
  then inl (IntegrityError (UniqueFailed uq_submissions))
  else if negb (parent_exists (Assignments db) assignment_id
                && parent_exists (Users db) student_id)
  then inl (IntegrityError ForeignKeyFailed)
  else
    let id := new_rowid (Submissions db) in
    inr (id, with_Submissions
               (<[id := {| s_assignment_id := assignment_id;
                           s_student_id := student_id;
                           s_attempt_number := attempt_number;
                           s_submitted_at := now;
                           s_grade := grade ≫= REAL;
                           s_feedback := feedback |}]> (Submissions db)) db).

Definition insert_SubmissionAttachments (submission_id : Z) (kind : Kind)
    (value now : string) : Stmt Z := λ db,
  if negb (parent_exists (Submissions db) submission_id)
  then inl (IntegrityError ForeignKeyFailed)
  else
    let id := new_rowid (SubmissionAttachments db) in
    inr (id, with_SubmissionAttachments
               (<[id := {| at_submission_id := submission_id;
                           at_kind := kind;
                           at_value := value;
                           at_created_at := now |}]>
                  (SubmissionAttachments db)) db).

Definition insert_Announcements (class_id author_id : Z) (title body now : string)
    : Stmt Z := λ db,
  if trg_announcements_author_is_assigned_teacher db class_id author_id
  then inl (IntegrityError
              (TriggerAbort msg_announcements_author_is_assigned_teacher))
  else if negb (parent_exists (Classes db) class_id
                && parent_exists (Users db) author_id)
  then inl (IntegrityError ForeignKeyFailed)
  else
    let id := new_rowid (Announcements db) in
    inr (id, with_Announcements
               (<[id := {| an_class_id := class_id;
                           an_author_id := author_id;
                           an_title := title;
                           an_body := body;
                           an_posted_at := now |}]> (Announcements db)) db).

(** *** UPDATE statements

    [UPDATE t SET ... WHERE id=?] touches at most the row with that rowid and
    yields [rowcount].  A column missing from the SET list is [None]; for a
    nullable parameter the inner option is the bound value, [None] being
    NULL.  Constraints are checked only for a row that is really updated. *)

Definition assigned {A} (old : A) (new : option A) : A := default old new.

Definition update_Users (id : Z) (email full_name : option string)
    (role : option Role) : Stmt Z := λ db,
  match Users db !! id with
  | None => inr (0, db)
  | Some u =>
      if match email with
         | Some e =>
             bool_decide (map_Exists (λ k v, k ≠ id ∧ u_email v = e) (Users db))
         | None => false
         end
      then inl (IntegrityError (UniqueFailed "Users.email"))
      else inr (1, with_Users
                     (<[id := {| u_email := assigned (u_email u) email;
                                 u_full_name := assigned (u_full_name u) full_name;
                                 u_role := assigned (u_role u) role;
                                 u_created_at := u_created_at u |}]> (Users db))
                     db)
  end.

Definition update_Classes (id : Z) (code title description : option (option string))
    : Stmt Z := λ db,
  match Classes db !! id with
  | None => inr (0, db)
  | Some c =>
      match assigned (Some (c_code c)) code,
            assigned (Some (c_title c)) title with
      | None, _ => inl (IntegrityError (NotNullFailed "Classes.code"))
      | Some _, None => inl (IntegrityError (NotNullFailed "Classes.title"))
      | Some code', Some title' =>
          if match code with
             | Some _ =>
                 bool_decide (map_Exists (λ k v, k ≠ id ∧ c_code v = code')
                                         (Classes db))
             | None => false
             end
          then inl (IntegrityError (UniqueFailed "Classes.code"))
          else inr (1, with_Classes
                         (<[id := {| c_code := code';
                                     c_title := title';
                                     c_description :=
                                       assigned (c_description c) description;
                                     c_created_at := c_created_at c |}]>
                            (Classes db)) db)
      end
  end.

Definition update_Assignments (id : Z)
    (title description due_at : option (option string)) : Stmt Z := λ db,
  match Assignments db !! id with
  | None => inr (0, db)
  | Some a =>
      match assigned (Some (a_title a)) title,
            assigned (Some (a_due_at a)) due_at with
      | None, _ => inl (IntegrityError (NotNullFailed "Assignments.title"))
      | Some _, None => inl (IntegrityError (NotNullFailed "Assignments.due_at"))
      | Some title', Some due_at' =>
          inr (1, with_Assignments
                    (<[id := {| a_class_id := a_class_id a;
                                a_title := title';
                                a_description :=
                                  assigned (a_description a) description;
                                a_due_at := due_at';
                                a_created_at := a_created_at a |}]>
                       (Assignments db)) db)
      end
  end.

Definition update_Submissions (id : Z) (grade : option (option float))
    (feedback : option (option string)) : Stmt Z := λ db,
  match Submissions db !! id with
  | None => inr (0, db)
  | Some s =>
      inr (1, with_Submissions
                (<[id := {| s_assignment_id := s_assignment_id s;
                            s_student_id := s_student_id s;
                            s_attempt_number := s_attempt_number s;
                            s_submitted_at := s_submitted_at s;
                            s_grade :=
                              assigned (s_grade s) ((.≫= REAL) <$> grade);
                            s_feedback := assigned (s_feedback s) feedback |}]>
                   (Submissions db)) db)
  end.

(** *** Foreign-key actions

    ON DELETE CASCADE: when parent rows go, the child rows that reference
    them go too, and so on down the chain
    Assignments -> Submissions -> SubmissionAttachments. *)

(** Delete the Submissions selected by [gone], and with them the attachments
    that reference one of the deleted rows. *)
Definition cascade_Submissions (gone : Z → Submission → bool) (db : DB) : DB :=
  let deleted := filter (λ kr, gone kr.1 kr.2) (Submissions db) in
  with_SubmissionAttachments
    (filter (λ kr, ¬ is_Some (deleted !! at_submission_id kr.2))
            (SubmissionAttachments db))
    (with_Submissions (filter (λ kr, ¬ gone kr.1 kr.2) (Submissions db)) db).

(** Delete the Assignments selected by [gone], and cascade to the
    Submissions that reference one of the deleted rows. *)
Definition cascade_Assignments (gone : Z → Assignment → bool) (db : DB) : DB :=
  let deleted := filter (λ kr, gone kr.1 kr.2) (Assignments db) in
  cascade_Submissions
    (λ _ s, bool_decide (is_Some (deleted !! s_assignment_id s)))
    (with_Assignments (filter (λ kr, ¬ gone kr.1 kr.2) (Assignments db)) db).

(** *** DELETE statements

    Each yields [rowcount], which counts the rows the statement itself
    removed from its table: rows removed by foreign-key actions are not
    counted (sqlite3_changes). *)

(** [Announcements.author_id REFERENCES Users(id) ON DELETE RESTRICT] makes
    the statement fail while an announcement names the user as author; all
    other references to Users cascade. *)
Definition delete_Users (id : Z) : Stmt Z := λ db,
  match Users db !! id with
  | None => inr (0, db)
  | Some _ =>
      if bool_decide (map_Exists (λ _ an, an_author_id an = id)
                                 (Announcements db))
      then inl (IntegrityError ForeignKeyFailed)
      else inr (1,
        cascade_Submissions (λ _ s, bool_decide (s_student_id s = id))
          (with_Enrollments (filter (λ kr, kr.1.1 ≠ id) (Enrollments db))
          (with_TeacherClass (filter (λ p, p.1 ≠ id) (TeacherClass db))
          (with_Users (delete id (Users db)) db))))
  end.

Definition delete_Classes (id : Z) : Stmt Z := λ db,
  match Classes db !! id with
  | None => inr (0, db)
  | Some _ =>
      inr (1,
        with_Announcements
          (filter (λ kr, an_class_id kr.2 ≠ id) (Announcements db))
          (cascade_Assignments (λ _ a, bool_decide (a_class_id a = id))
          (with_Enrollments (filter (λ kr, kr.1.2 ≠ id) (Enrollments db))
          (with_TeacherClass (filter (λ p, p.2 ≠ id) (TeacherClass db))
          (with_Classes (delete id (Classes db)) db)))))
  end.

Definition delete_Assignments (id : Z) : Stmt Z := λ db,
  match Assignments db !! id with
  | None => inr (0, db)
  | Some _ => inr (1, cascade_Assignments (λ k _, bool_decide (k = id)) db)
  end.

Definition delete_Submissions (id : Z) : Stmt Z := λ db,
  match Submissions db !! id with
  | None => inr (0, db)
  | Some _ => inr (1, cascade_Submissions (λ k _, bool_decide (k = id)) db)
  end.

Definition delete_Enrollments (user_id class_id : Z) : Stmt Z := λ db,
  match Enrollments db !! (user_id, class_id) with
  | None => inr (0, db)
  | Some _ =>
      inr (1, with_Enrollments (delete (user_id, class_id) (Enrollments db)) db)
  end.

Definition delete_TeacherClass (teacher_id class_id : Z) : Stmt Z := λ db,
  if bool_decide ((teacher_id, class_id) ∈ TeacherClass db)
  then inr (1, with_TeacherClass (TeacherClass db ∖ {[ (teacher_id, class_id) ]}) db)
  else inr (0, db).

Definition delete_SubmissionAttachments (id : Z) : Stmt Z := λ db,
  match SubmissionAttachments db !! id with
  | None => inr (0, db)
  | Some _ =>
      inr (1, with_SubmissionAttachments (delete id (SubmissionAttachments db)) db)
  end.

Definition delete_Announcements (id : Z) : Stmt Z := λ db,
  match Announcements db !! id with
  | None => inr (0, db)
  | Some _ => inr (1, with_Announcements (delete id (Announcements db)) db)
  end.

(** A statement naming a table the DDL does not create. *)
Definition no_such_table {A} (name : string) : Stmt A := λ _,
  inl (OperationalError ("no such table: " +:+ name)).

(** *** Queries used by the handlers *)

(** [SELECT * FROM t WHERE id=?] followed by [one(cur)] / [fetchone_dict]. *)
Definition select_by_id {A} (t : gmap Z A) (id : Z) : option (Z * A) :=
  (λ r, (id, r)) <$> t !! id.

(** [WHERE assignment_id=? AND student_id=?] on Submissions. *)
Definition of_pair (assignment_id student_id : Z) (r : Submission) : Prop :=
  s_assignment_id r = assignment_id ∧ s_student_id r = student_id.

#[global] Instance of_pair_dec a s r : Decision (of_pair a s r).
Proof. unfold of_pair. apply _. Defined.

(** [SELECT COALESCE(MAX(attempt_number), 0) FROM Submissions
     WHERE assignment_id=? AND student_id=?] *)
Definition select_last_attempt (assignment_id student_id : Z) (db : DB) : Z :=
  COALESCE
    (sql_max s_attempt_number
       (filter (λ kr, of_pair assignment_id student_id kr.2) (Submissions db)))
    0.


End Schema.

(** ** The connection layer shared by main.py and managementCrud.py *)

Module Conn.
Import Schema.

(** The body of a [with get_conn() as con:] / [with connect() as con:]
    block: it runs against the connection's view of the database and either
    returns a value or leaves by an exception.  The view it leaves behind
    holds the changes of the statements that succeeded before. *)
Definition Tx (A : Type) : Type := DB → DB * (Exc + A).

(** A whole call of a handler: from the committed database to the committed
    database afterwards, with the value returned or the exception raised. *)
Definition Call (A : Type) : Type := DB → DB * (Exc + A).

Definition ret {A} (a : A) : Tx A := λ db, (db, inr a).

Definition bind {A B} (m : Tx A) (k : A → Tx B) : Tx B := λ db,
  match m db with
  | (db', inr a) => k a db'
  | (db', inl e) => (db', inl e)
  end.

Definition raise {A} (e : Exc) : Tx A := λ db, (db, inl e).

(** [con.execute(...)] of a data-changing statement. *)
Definition execute {A} (s : Stmt A) : Tx A := λ db,
  match s db with
  | inl e => (db, inl e)
  | inr (a, db') => (db', inr a)
  end.

(** [con.execute("SELECT ...")] and the fetch that follows. *)
Definition query {A} (q : DB → A) : Tx A := λ db, (db, inr (q db)).

(** The sqlite3 module binds a Python int as a signed 64-bit INTEGER; for an
    int that does not fit it raises OverflowError before the statement
    runs. *)
Definition bind_int (n : Z) : Tx Z :=
  if bool_decide (int64 n) then ret n
  else raise (OverflowError
                "Python int too large to convert to SQLite INTEGER").

(** [try: body except sqlite3.IntegrityError as e: handler] *)
Definition except_IntegrityError {A} (body : Tx A)
    (handler : ConstraintError → Tx A) : Tx A := λ db,
  match body db with
  | (db', inl (IntegrityError c)) => handler c db'
  | r => r
  end.

(** Both context managers have the same shape:
    [try: yield conn; conn.commit() finally: conn.close()].
    A body that returns is committed; one that raises skips the commit, and
    closing the connection discards its pending changes. *)
Definition commit_or_discard {A} (body : Tx A) : Call A := λ db,
  match body db with
  | (db', inr a) => (db', inr a)
  | (_, inl e) => (db, inl e)
  end.

(** What a caller observes of a call: the database and the exception. *)
Definition outcome {A} (r : DB * (Exc + A)) : DB * option Exc :=
  (r.1, match r.2 with inl e => Some e | inr _ => None end).

End Conn.

Notation "x <- m ;; k" := (Conn.bind m (λ x, k))
  (at level 100, m at next level, right associativity,
   format "'[v' x  <-  m  ;;  '/' k ']'").

(** ** main.py *)

Module Main.
Import Schema Conn.

(** *** Pydantic models of the request bodies *)

Module UserCreate.
Record t := { email : string; full_name : string; role : Role }.
End UserCreate.

(** The handler tests each field against None, so an unset field and an
    explicit null are the same. *)
Module UserUpdate.
Record t := { email : option string; full_name : option string;
              role : option Role }.
End UserUpdate.

Module ClassCreate.
Record t := { code : string; title : string; description : option string }.
End ClassCreate.

(** [patch.dict(exclude_unset=True)] keeps the fields the request set, an
    explicit null included: the outer option is "set", the inner one the
    value. *)
Module ClassUpdate.
Record t := { code : option (option string); title : option (option string);
              description : option (option string) }.
End ClassUpdate.

Module TeacherClassCreate.
Record t := { teacher_id : Z; class_id : Z }.
End TeacherClassCreate.

Module EnrollmentCreate.
Record t := { user_id : Z; class_id : Z }.
End EnrollmentCreate.

Module AssignmentCreate.
Record t := { class_id : Z; title : string; description : option string;
              due_at : string }.
End AssignmentCreate.

Module AssignmentUpdate.
Record t := { title : option (option string);
              description : option (option string);
              due_at : option (option string) }.
End AssignmentUpdate.

Module SubmissionCreate.
Record t := { assignment_id : Z; student_id : Z; attempt_number : Z;
              grade : option float; feedback : option string }.
End SubmissionCreate.

Module SubmissionUpdate.
Record t := { grade : option (option float);
              feedback : option (option string) }.
End SubmissionUpdate.

Module AttachmentCreate.
Record t := { submission_id : Z; kind : Kind; value : string }.
End AttachmentCreate.

Module AnnouncementCreate.
Record t := { class_id : Z; author_id : Z; title : string; body : string }.
End AnnouncementCreate.

(** *** DB helper *)

Definition get_conn {A} (body : Tx A) : Call A := commit_or_discard body.

Definition conflict {A} (prefix : string) (c : ConstraintError) : Tx A :=
  raise (HTTPException 409 (prefix +:+ str c)).

Definition found {A} (what : string) (row : option A) : Tx A :=
  match row with
  | Some r => ret r
  | None => raise (HTTPException 404 (what +:+ " not found"))
  end.

Definition no_fields {A} : Call A := λ db,
  (db, inl (HTTPException 400 "No fields to update")).

(** [if cur.rowcount == 0: raise HTTPException(404, ...)] *)
Definition deleted (what : string) (rowcount : Z) : Tx unit :=
  if bool_decide (rowcount = 0)
  then raise (HTTPException 404 (what +:+ " not found"))
  else ret tt.

(** *** Users *)

Definition create_user (user : UserCreate.t) (now : string)
    : Call (option (Z * User)) :=
  get_conn (
    uid <- except_IntegrityError
             (execute (insert_Users (UserCreate.email user)
                                    (UserCreate.full_name user)
                                    (UserCreate.role user) now))
             (conflict "User conflict: ") ;;
    query (λ db, select_by_id (Users db) uid)).

Definition update_user (user_id : Z) (patch : UserUpdate.t)
    : Call (Z * User) :=
  match UserUpdate.email patch, UserUpdate.full_name patch,
        UserUpdate.role patch with
  | None, None, None => no_fields
  | email, full_name, role =>
      get_conn (
        _ <- except_IntegrityError
               (execute (update_Users user_id email full_name role))
               (conflict "Update conflict: ") ;;
        row <- query (λ db, select_by_id (Users db) user_id) ;;
        found "User" row)
  end.

Definition delete_user (user_id : Z) : Call unit :=
  get_conn (
    rowcount <- execute (delete_Users user_id) ;;
    deleted "User" rowcount).

(** *** Classes *)

Definition create_class (payload : ClassCreate.t) (now : string)
    : Call (option (Z * Class)) :=
  get_conn (
    cid <- except_IntegrityError
             (execute (insert_Classes (ClassCreate.code payload)
                                      (ClassCreate.title payload)
                                      (ClassCreate.description payload) now))
             (conflict "Class conflict: ") ;;
    query (λ db, select_by_id (Classes db) cid)).

Definition update_class (class_id : Z) (patch : ClassUpdate.t)
    : Call (Z * Class) :=
  match ClassUpdate.code patch, ClassUpdate.title patch,
        ClassUpdate.description patch with
  | None, None, None => no_fields
  | code, title, description =>
      get_conn (
        _ <- except_IntegrityError
               (execute (update_Classes class_id code title description))
               (conflict "Update conflict: ") ;;
        row <- query (λ db, select_by_id (Classes db) class_id) ;;
        found "Class" row)
  end.

Definition delete_class (class_id : Z) : Call unit :=
  get_conn (
    rowcount <- execute (delete_Classes class_id) ;;
    deleted "Class" rowcount).

(** *** Enrollments *)

Definition enroll (payload : EnrollmentCreate.t) (now : string)
    : Call (option ((Z * Z) * string)) :=
  get_conn (
    _ <- except_IntegrityError
           (execute (insert_Enrollments (EnrollmentCreate.user_id payload)
                                        (EnrollmentCreate.class_id payload) now))
           (conflict "Enrollment failed: ") ;;
    query (λ db,
      let key := (EnrollmentCreate.user_id payload,
                  EnrollmentCreate.class_id payload) in
      (λ enrolled_at, (key, enrolled_at)) <$> Enrollments db !! key)).

Definition unenroll (user_id class_id : Z) : Call unit :=
  get_conn (
    rowcount <- execute (delete_Enrollments user_id class_id) ;;
    deleted "Enrollment" rowcount).

(** *** TeacherClass *)

Definition teacherassigne (payload : TeacherClassCreate.t)
    : Call (option (Z * Z)) :=
  get_conn (
    _ <- except_IntegrityError
           (execute (insert_TeacherClass (TeacherClassCreate.teacher_id payload)
                                         (TeacherClassCreate.class_id payload)))
           (conflict "Teacher class assignment failed: ") ;;
    query (λ db,
      let key := (TeacherClassCreate.teacher_id payload,
                  TeacherClassCreate.class_id payload) in
      if bool_decide (key ∈ TeacherClass db) then Some key else None)).

(** The handler of DELETE /teacherassigned; the source names it [unenroll]
    a second time. *)
Definition unenroll_teacherassigned (teacher_id class_id : Z) : Call unit :=
  get_conn (
    rowcount <- execute (delete_TeacherClass teacher_id class_id) ;;
    deleted "Enrollment" rowcount).

(** *** Assignments *)

Definition create_assignment (payload : AssignmentCreate.t) (now : string)
    : Call (option (Z * Assignment)) :=
  get_conn (
    aid <- except_IntegrityError
             (execute (insert_Assignments (AssignmentCreate.class_id payload)
                                          (AssignmentCreate.title payload)
                                          (AssignmentCreate.description payload)
                                          (AssignmentCreate.due_at payload) now))
             (conflict "Assignment conflict: ") ;;
    query (λ db, select_by_id (Assignments db) aid)).

(** No try/except here: an IntegrityError leaves the handler as it is. *)
Definition update_assignment (assignment_id : Z) (patch : AssignmentUpdate.t)
    : Call (Z * Assignment) :=
  match AssignmentUpdate.title patch, AssignmentUpdate.description patch,
        AssignmentUpdate.due_at patch with
  | None, None, None => no_fields
  | title, description, due_at =>
      get_conn (
        _ <- execute (update_Assignments assignment_id title description due_at) ;;
        row <- query (λ db, select_by_id (Assignments db) assignment_id) ;;
        found "Assignment" row)
  end.

Definition delete_assignment (assignment_id : Z) : Call unit :=
  get_conn (
    rowcount <- execute (delete_Assignments assignment_id) ;;
    deleted "Assignment" rowcount).

(** *** Submissions *)

(** The second half of [create_submission]: the INSERT with the attempt
    number computed from the SELECT, its except clause, and the read-back.
    The computed number is bound inside the [try]; the OverflowError of a
    number that does not fit is not an IntegrityError and is not caught. *)
Definition insert_attempt (payload : SubmissionCreate.t) (now : string)
    (new_attempt : Z) : Tx (option (Z * Submission)) :=
  sid <- except_IntegrityError
           (n <- bind_int new_attempt ;;
            execute (insert_Submissions (SubmissionCreate.assignment_id payload)
                                        (SubmissionCreate.student_id payload)
                                        n
                                        (SubmissionCreate.grade payload)
                                        (SubmissionCreate.feedback payload) now))
           (conflict "Submission conflict: ") ;;
  query (λ db, select_by_id (Submissions db) sid).

(** [payload.attempt_number] is not read: the attempt number is the last
    attempt of the pair plus one. *)
Definition create_submission (payload : SubmissionCreate.t) (now : string)
    : Call (option (Z * Submission)) :=
  get_conn (
    last_attempt <- query (select_last_attempt
                             (SubmissionCreate.assignment_id payload)
                             (SubmissionCreate.student_id payload)) ;;
    let new_attempt := last_attempt + 1 in
    insert_attempt payload now new_attempt).

(** The same handler when other connections commit between its SELECT and
    its INSERT.  The SELECT runs before the connection has opened a
    transaction, so [others] (the effect of the commits made meanwhile) is
    applied to the database before the INSERT sees it. *)
Definition create_submission_interleaved (others : DB → DB)
    (payload : SubmissionCreate.t) (now : string)
    : Call (option (Z * Submission)) := λ db,
  let last_attempt :=
    select_last_attempt (SubmissionCreate.assignment_id payload)
                        (SubmissionCreate.student_id payload) db in
  let new_attempt := last_attempt + 1 in
  get_conn (insert_attempt payload now new_attempt) (others db).

Definition update_submission (submission_id : Z) (patch : SubmissionUpdate.t)
    : Call (Z * Submission) :=
  match SubmissionUpdate.grade patch, SubmissionUpdate.feedback patch with
  | None, None => no_fields
  | grade, feedback =>
      get_conn (
        _ <- execute (update_Submissions submission_id grade feedback) ;;
        row <- query (λ db, select_by_id (Submissions db) submission_id) ;;
        found "Submission" row)
  end.

Definition delete_submission (submission_id : Z) : Call unit :=
  get_conn (
    rowcount <- execute (delete_Submissions submission_id) ;;
    deleted "Submission" rowcount).

(** *** Attachments *)

Definition create_attachment (payload : AttachmentCreate.t) (now : string)
    : Call (option (Z * Attachment)) :=
  get_conn (
    aid <- except_IntegrityError
             (execute (insert_SubmissionAttachments
                         (AttachmentCreate.submission_id payload)
                         (AttachmentCreate.kind payload)
                         (AttachmentCreate.value payload) now))
             (conflict "Attachment conflict: ") ;;
    query (λ db, select_by_id (SubmissionAttachments db) aid)).

Definition delete_attachment (attachment_id : Z) : Call unit :=
  get_conn (
    rowcount <- execute (delete_SubmissionAttachments attachment_id) ;;
    deleted "Attachment" rowcount).

(** *** Announcements *)

Definition create_announcement (payload : AnnouncementCreate.t) (now : string)
    : Call (option (Z * Announcement)) :=
  get_conn (
    aid <- except_IntegrityError
             (execute (insert_Announcements
                         (AnnouncementCreate.class_id payload)
                         (AnnouncementCreate.author_id payload)
                         (AnnouncementCreate.title payload)
                         (AnnouncementCreate.body payload) now))
             (conflict "Announcement conflict: ") ;;
    query (λ db, select_by_id (Announcements db) aid)).

Definition delete_announcement (announcement_id : Z) : Call unit :=
  get_conn (
    rowcount <- execute (delete_Announcements announcement_id) ;;
    deleted "Announcement" rowcount).

(** *** All mutating routes *)

Inductive Request :=
  | POST_users (user : UserCreate.t) (now : string)
  | PATCH_users (user_id : Z) (patch : UserUpdate.t)
  | DELETE_users (user_id : Z)
  | POST_classes (payload : ClassCreate.t) (now : string)
  | PATCH_classes (class_id : Z) (patch : ClassUpdate.t)
  | DELETE_classes (class_id : Z)
  | POST_enrollments (payload : EnrollmentCreate.t) (now : string)
  | DELETE_enrollments (user_id class_id : Z)
  | POST_teacherassigned (payload : TeacherClassCreate.t)
  | DELETE_teacherassigned (teacher_id class_id : Z)
  | POST_assignments (payload : AssignmentCreate.t) (now : string)
  | PATCH_assignments (assignment_id : Z) (patch : AssignmentUpdate.t)
  | DELETE_assignments (assignment_id : Z)
  | POST_submissions (payload : SubmissionCreate.t) (now : string)
  | PATCH_submissions (submission_id : Z) (patch : SubmissionUpdate.t)
  | DELETE_submissions (submission_id : Z)
  | POST_attachments (payload : AttachmentCreate.t) (now : string)
  | DELETE_attachments (attachment_id : Z)
  | POST_announcements (payload : AnnouncementCreate.t) (now : string)
  | DELETE_announcements (announcement_id : Z).

(** Route a request to its handler and keep what the store and the caller
    see of it: the database afterwards and the exception, if any. *)
Definition handle (r : Request) (db : DB) : DB * option Exc :=
  match r with
  | POST_users user now => outcome (create_user user now db)
  | PATCH_users user_id patch => outcome (update_user user_id patch db)
  | DELETE_users user_id => outcome (delete_user user_id db)
  | POST_classes payload now => outcome (create_class payload now db)
  | PATCH_classes class_id patch => outcome (update_class class_id patch db)
  | DELETE_classes class_id => outcome (delete_class class_id db)
  | POST_enrollments payload now => outcome (enroll payload now db)
  | DELETE_enrollments user_id class_id => outcome (unenroll user_id class_id db)
  | POST_teacherassigned payload => outcome (teacherassigne payload db)
  | DELETE_teacherassigned teacher_id class_id =>
      outcome (unenroll_teacherassigned teacher_id class_id db)
  | POST_assignments payload now => outcome (create_assignment payload now db)
  | PATCH_assignments assignment_id patch =>
      outcome (update_assignment assignment_id patch db)
  | DELETE_assignments assignment_id => outcome (delete_assignment assignment_id db)
  | POST_submissions payload now => outcome (create_submission payload now db)
  | PATCH_submissions submission_id patch =>
      outcome (update_submission submission_id patch db)
  | DELETE_submissions submission_id => outcome (delete_submission submission_id db)
  | POST_attachments payload now => outcome (create_attachment payload now db)
  | DELETE_attachments attachment_id => outcome (delete_attachment attachment_id db)
  | POST_announcements payload now => outcome (create_announcement payload now db)
  | DELETE_announcements announcement_id =>
      outcome (delete_announcement announcement_id db)
  end.

End Main.

(** ** managementCrud.py *)

Module Crud.
Import Schema Conn.

Definition connect {A} (body : Tx A) : Call A := commit_or_discard body.

(** A keyword argument left at None stays out of the SET list. *)
Definition set_if_given {A} (x : option A) : option (option A) := Some <$> x.

(** *** Users *)

Definition create_user (email full_name : string) (role : Role) (now : string)
    : Call Z :=
  connect (execute (insert_Users email full_name role now)).

Definition update_user (user_id : Z) (email full_name : option string)
    (role : option Role) : Call Z :=
  match email, full_name, role with
  | None, None, None => λ db, (db, inr 0)
  | _, _, _ => connect (execute (update_Users user_id email full_name role))
  end.

Definition delete_user (user_id : Z) : Call Z :=
  connect (execute (delete_Users user_id)).

(** *** Classes *)

Definition create_class (code title description now : string) : Call Z :=
  connect (execute (insert_Classes code title (Some description) now)).

Definition update_class (class_id : Z) (code title description : option string)
    : Call Z :=
  match code, title, description with
  | None, None, None => λ db, (db, inr 0)
  | _, _, _ =>
      connect (execute (update_Classes class_id (set_if_given code)
                                       (set_if_given title)
                                       (set_if_given description)))
  end.

Definition delete_class (class_id : Z) : Call Z :=
  connect (execute (delete_Classes class_id)).

(** *** Enrollments *)

Definition enroll_student (user_id class_id : Z) (now : string) : Call unit :=
  connect (execute (insert_Enrollments user_id class_id now)).

Definition unenroll_student (user_id class_id : Z) : Call Z :=
  connect (execute (delete_Enrollments user_id class_id)).

(** *** TeacherClass

    Both statements name a table [TeacherClasses], which the DDL does not
    create (the table is [TeacherClass]). *)

Definition assign_teacher_to_class (teacher_id class_id : Z) : Call unit :=
  connect (execute (no_such_table "TeacherClasses")).

Definition remove_teacher_from_class (teacher_id class_id : Z) : Call Z :=
  connect (execute (no_such_table "TeacherClasses")).

(** *** Assignments *)

Definition create_assignment (class_id : Z) (title description due_at now : string)
    : Call Z :=
  connect (execute (insert_Assignments class_id title (Some description)
                                       due_at now)).

Definition update_assignment (assignment_id : Z)
    (title description due_at : option string) : Call Z :=
  match title, description, due_at with
  | None, None, None => λ db, (db, inr 0)
  | _, _, _ =>
      connect (execute (update_Assignments assignment_id (set_if_given title)
                                           (set_if_given description)
                                           (set_if_given due_at)))
  end.

Definition delete_assignment (assignment_id : Z) : Call Z :=
  connect (execute (delete_Assignments assignment_id)).

(** *** Submissions and attachments *)

(** The default of the keyword argument [attempt_number: int=1]. *)
Definition attempt_number_default : Z := 1.

Definition create_submission (assignment_id student_id attempt_number : Z)
    (grade : option float) (feedback : option string) (now : string) : Call Z :=
  connect (execute (insert_Submissions assignment_id student_id attempt_number
                                       grade feedback now)).

Definition add_attachment (submission_id : Z) (kind : Kind) (value now : string)
    : Call Z :=
  connect (execute (insert_SubmissionAttachments submission_id kind value now)).

Definition grade_submission (submission_id : Z) (grade : float)
    (feedback : option string) : Call Z :=
  connect (execute (update_Submissions submission_id (Some (Some grade))
                                       (Some feedback))).

Definition delete_submission (submission_id : Z) : Call Z :=
  connect (execute (delete_Submissions submission_id)).

(** *** Announcements *)

Definition create_announcement (class_id author_id : Z) (title body now : string)
    : Call Z :=
  connect (execute (insert_Announcements class_id author_id title body now)).

Definition delete_announcement (announcement_id : Z) : Call Z :=
  connect (execute (delete_Announcements announcement_id)).

(** *** All mutating functions *)

Inductive Invocation :=
  | Create_user (email full_name : string) (role : Role) (now : string)
  | Update_user (user_id : Z) (email full_name : option string)
                (role : option Role)
  | Delete_user (user_id : Z)
  | Create_class (code title description now : string)
  | Update_class (class_id : Z) (code title description : option string)
  | Delete_class (class_id : Z)
  | Enroll_student (user_id class_id : Z) (now : string)
  | Unenroll_student (user_id class_id : Z)
  | Assign_teacher_to_class (teacher_id class_id : Z)
  | Remove_teacher_from_class (teacher_id class_id : Z)
  | Create_assignment (class_id : Z) (title description due_at now : string)
  | Update_assignment (assignment_id : Z)
                      (title description due_at : option string)
  | Delete_assignment (assignment_id : Z)
  | Create_submission (assignment_id student_id attempt_number : Z)
                      (grade : option float) (feedback : option string)
                      (now : string)
  | Add_attachment (submission_id : Z) (kind : Kind) (value now : string)
  | Grade_submission (submission_id : Z) (grade : float)
                     (feedback : option string)
  | Delete_submission (submission_id : Z)
  | Create_announcement (class_id author_id : Z) (title body now : string)
  | Delete_announcement (announcement_id : Z).

Definition invoke (i : Invocation) (db : DB) : DB * option Exc :=
  match i with
  | Create_user email full_name role now =>
      outcome (create_user email full_name role now db)
  | Update_user user_id email full_name role =>
      outcome (update_user user_id email full_name role db)
  | Delete_user user_id => outcome (delete_user user_id db)
  | Create_class code title description now =>
      outcome (create_class code title description now db)
  | Update_class class_id code title description =>
      outcome (update_class class_id code title description db)
  | Delete_class class_id => outcome (delete_class class_id db)
  | Enroll_student user_id class_id now =>
      outcome (enroll_student user_id class_id now db)
  | Unenroll_student user_id class_id =>
      outcome (unenroll_student user_id class_id db)
  | Assign_teacher_to_class teacher_id class_id =>
      outcome (assign_teacher_to_class teacher_id class_id db)
  | Remove_teacher_from_class teacher_id class_id =>
      outcome (remove_teacher_from_class teacher_id class_id db)
  | Create_assignment class_id title description due_at now =>
      outcome (create_assignment class_id title description due_at now db)
  | Update_assignment assignment_id title description due_at =>
      outcome (update_assignment assignment_id title description due_at db)
  | Delete_assignment assignment_id => outcome (delete_assignment assignment_id db)
  | Create_submission assignment_id student_id attempt_number grade feedback now =>
      outcome (create_submission assignment_id student_id attempt_number
                                 grade feedback now db)
  | Add_attachment submission_id kind value now =>
      outcome (add_attachment submission_id kind value now db)
  | Grade_submission submission_id grade feedback =>
      outcome (grade_submission submission_id grade feedback db)
  | Delete_submission submission_id => outcome (delete_submission submission_id db)
  | Create_announcement class_id author_id title body now =>
      outcome (create_announcement class_id author_id title body now db)
  | Delete_announcement announcement_id =>
      outcome (delete_announcement announcement_id db)
  end.

End Crud.

(** ** A populated database and repeated calls *)

Module Scenario.
Import Schema Conn.

Definition now : string := "2025-09-01 00:00:00".

(** Run calls one after the other, keeping only the database. *)
Definition and_then {A} (c : Call A) (db : DB) : DB := (c db).1.

Definition run_all (calls : list (DB → DB)) (db : DB) : DB :=
  foldl (λ d c, c d) db calls.

(** The rows of datapopulate.py, loaded through the functions above on a
    fresh database (teacher assignments through the FastAPI handler, since
    the CRUD function names a missing table). *)
Definition seeded : DB :=
  run_all
    [ and_then (Crud.create_user "teacher1@example.com" "Alice Teacher" teacher now);
      and_then (Crud.create_user "teacher2@example.com" "Bob Instructor" teacher now);
      and_then (Crud.create_user "student1@example.com" "Charlie Student" student now);
      and_then (Crud.create_user "student2@example.com" "Diana Learner" student now);
      and_then (Crud.create_user "student3@example.com" "Ethan Pupil" student now);
      and_then (Crud.create_user "admin1@example.com" "Admin One" admin now);
      and_then (Crud.create_class "CS101" "Intro to Computer Science"
                  "Basics of programming and algorithms" now);
      and_then (Crud.create_class "MATH201" "Discrete Mathematics"
                  "Logic, sets, combinatorics, and graphs" now);
      and_then (Main.teacherassigne {| Main.TeacherClassCreate.teacher_id := 1;
                                       Main.TeacherClassCreate.class_id := 1 |});
      and_then (Main.teacherassigne {| Main.TeacherClassCreate.teacher_id := 2;
                                       Main.TeacherClassCreate.class_id := 2 |});
      and_then (Main.teacherassigne {| Main.TeacherClassCreate.teacher_id := 1;
                                       Main.TeacherClassCreate.class_id := 2 |});
      and_then (Main.teacherassigne {| Main.TeacherClassCreate.teacher_id := 2;
                                       Main.TeacherClassCreate.class_id := 1 |});
      and_then (Crud.enroll_student 3 1 now);
      and_then (Crud.enroll_student 4 1 now);
      and_then (Crud.enroll_student 5 2 now);
      and_then (Crud.enroll_student 3 2 now);
      and_then (Crud.create_assignment 1 "Assignment 1"
                  "Write a Python program for Fibonacci numbers"
                  "2025-09-01 23:59:00" now);
      and_then (Crud.create_assignment 1 "Assignment 2"
                  "Implement bubble sort in any language"
                  "2025-09-10 23:59:00" now);
      and_then (Crud.create_assignment 2 "Homework 1"
                  "Solve 10 problems on set theory" "2025-09-05 23:59:00" now);
      and_then (Crud.create_submission 1 3 1 (Some 90%float)
                  (Some "Excellent work") now);
      and_then (Crud.create_submission 1 4 1 (Some 75%float)
                  (Some "Good effort, optimize your code") now);
      and_then (Crud.create_submission 2 3 1 (Some 88%float)
                  (Some "Well done") now);
      and_then (Crud.create_submission 3 5 1 None (Some "Pending grading") now);
      and_then (Crud.add_attachment 1 file "/uploads/charlie_fib.py" now);
      and_then (Crud.add_attachment 2 file "/uploads/diana_fib.py" now);
      and_then (Crud.add_attachment 3 url "https://github.com/charlie/bubblesort" now);
      and_then (Crud.add_attachment 4 file "/uploads/ethan_sets.pdf" now);
      and_then (Crud.create_announcement 1 1 "Welcome to CS101"
                  "Please install Python before the next class." now);
      and_then (Crud.create_announcement 2 2 "Welcome to Math201"
                  "Bring your discrete math textbook. Homework will be weekly." now) ]
    empty_db.

(** POST /submissions for student [student_id] and assignment
    [assignment_id], nothing else set. *)
Definition submit (assignment_id student_id : Z) : Main.SubmissionCreate.t :=
  {| Main.SubmissionCreate.assignment_id := assignment_id;
     Main.SubmissionCreate.student_id := student_id;
     Main.SubmissionCreate.attempt_number := 1;
     Main.SubmissionCreate.grade := None;
     Main.SubmissionCreate.feedback := None |}.

(** The same POST /submissions request sent once per timestamp of [nows],
    each call starting from the database the previous one committed. *)
Fixpoint create_submissions (payload : Main.SubmissionCreate.t)
    (nows : list string) (db : DB)
    : DB * list (Exc + option (Z * Submission)) :=
  match nows with
  | [] => (db, [])
  | now :: nows' =>
      let r := Main.create_submission payload now db in
      let rs := create_submissions payload nows' r.1 in
      (rs.1, r.2 :: rs.2)
  end.

(** A rival request for the same pair: its whole call commits between the
    SELECT and the INSERT of the request under study. *)
Definition rival (payload : Main.SubmissionCreate.t) (db : DB) : DB :=
  and_then (Main.create_submission payload now) db.

(** The seeded database after DELETE /enrollments?user_id=3&class_id=1:
    student 3 keeps the submissions made while enrolled in class 1. *)
Definition unenrolled : DB := and_then (Main.unenroll 3 1) seeded.

(** The attempt number a call handed out, if it returned a row. *)
Definition attempt_of (r : Exc + option (Z * Submission)) : option Z :=
  match r with
  | inr (Some (_, s)) => Some (s_attempt_number s)
  | _ => None
  end.

Definition succeeded {A} (r : Exc + A) : Prop :=
  match r with inr _ => True | inl _ => False end.

End Scenario.

(** ** The store as a whole: statements, reachable states, invariants *)

Module Store.
Import Schema Conn.

(** Every data-changing statement that main.py and managementCrud.py send
    to a table of the DDL. *)
Inductive Sql :=
  | INSERT_Users (email full_name : string) (role : Role) (now : string)
  | INSERT_Classes (code title : string) (description : option string)
                   (now : string)
  | INSERT_TeacherClass (teacher_id class_id : Z)
  | INSERT_Enrollments (user_id class_id : Z) (now : string)
  | INSERT_Assignments (class_id : Z) (title : string)
                       (description : option string) (due_at now : string)
  | INSERT_Submissions (assignment_id student_id attempt_number : Z)
                       (grade : option float) (feedback : option string)
                       (now : string)
  | INSERT_SubmissionAttachments (submission_id : Z) (kind : Kind)
                                 (value now : string)
  | INSERT_Announcements (class_id author_id : Z) (title body now : string)
  | UPDATE_Users (id : Z) (email full_name : option string)
                 (role : option Role)
  | UPDATE_Classes (id : Z) (code title description : option (option string))
  | UPDATE_Assignments (id : Z)
                       (title description due_at : option (option string))
  | UPDATE_Submissions (id : Z) (grade : option (option float))
                       (feedback : option (option string))
  | DELETE_Users (id : Z)
  | DELETE_Classes (id : Z)
  | DELETE_Assignments (id : Z)
  | DELETE_Submissions (id : Z)
  | DELETE_Enrollments (user_id class_id : Z)
  | DELETE_TeacherClass (teacher_id class_id : Z)
  | DELETE_SubmissionAttachments (id : Z)
  | DELETE_Announcements (id : Z).

Definition changed {A} (r : Exc + A * DB) : option DB :=
  match r with
  | inr (_, db') => Some db'
  | inl _ => None
  end.

(** The database a statement leaves when it succeeds. *)
Definition effect (q : Sql) (db : DB) : option DB :=
  match q with
  | INSERT_Users email full_name role now =>
      changed (insert_Users email full_name role now db)
  | INSERT_Classes code title description now =>
      changed (insert_Classes code title description now db)
  | INSERT_TeacherClass teacher_id class_id =>
      changed (insert_TeacherClass teacher_id class_id db)
  | INSERT_Enrollments user_id class_id now =>
      changed (insert_Enrollments user_id class_id now db)
  | INSERT_Assignments class_id title description due_at now =>
      changed (insert_Assignments class_id title description due_at now db)
  | INSERT_Submissions assignment_id student_id attempt_number grade feedback now =>
      changed (insert_Submissions assignment_id student_id attempt_number
                                  grade feedback now db)
  | INSERT_SubmissionAttachments submission_id kind value now =>
      changed (insert_SubmissionAttachments submission_id kind value now db)
  | INSERT_Announcements class_id author_id title body now =>
      changed (insert_Announcements class_id author_id title body now db)
  | UPDATE_Users id email full_name role =>
      changed (update_Users id email full_name role db)
  | UPDATE_Classes id code title description =>
      changed (update_Classes id code title description db)
  | UPDATE_Assignments id title description due_at =>
      changed (update_Assignments id title description due_at db)
  | UPDATE_Submissions id grade feedback =>
      changed (update_Submissions id grade feedback db)
  | DELETE_Users id => changed (delete_Users id db)
  | DELETE_Classes id => changed (delete_Classes id db)
  | DELETE_Assignments id => changed (delete_Assignments id db)
  | DELETE_Submissions id => changed (delete_Submissions id db)
  | DELETE_Enrollments user_id class_id =>
      changed (delete_Enrollments user_id class_id db)
  | DELETE_TeacherClass teacher_id class_id =>
      changed (delete_TeacherClass teacher_id class_id db)
  | DELETE_SubmissionAttachments id =>
      changed (delete_SubmissionAttachments id db)
  | DELETE_Announcements id => changed (delete_Announcements id db)
  end.

(** The databases the two layers can produce from a fresh schema. *)
Inductive reachable : DB → Prop :=
  | reachable_empty : reachable empty_db
  | reachable_handle r db : reachable db → reachable (Main.handle r db).1
  | reachable_invoke i db : reachable db → reachable (Crud.invoke i db).1.

(** Every foreign key of the DDL points at an existing row. *)
Record fk_consistent (db : DB) : Prop := {
  fk_teacherclass : ∀ t c, (t, c) ∈ TeacherClass db →
    is_Some (Users db !! t) ∧ is_Some (Classes db !! c);
  fk_enrollments : ∀ u c, is_Some (Enrollments db !! (u, c)) →
    is_Some (Users db !! u) ∧ is_Some (Classes db !! c);
  fk_assignments : ∀ k a, Assignments db !! k = Some a →
    is_Some (Classes db !! a_class_id a);
  fk_submissions : ∀ k s, Submissions db !! k = Some s →
    is_Some (Assignments db !! s_assignment_id s)
    ∧ is_Some (Users db !! s_student_id s);
  fk_attachments : ∀ k att, SubmissionAttachments db !! k = Some att →
    is_Some (Submissions db !! at_submission_id att);
  fk_announcements : ∀ k an, Announcements db !! k = Some an →
    is_Some (Classes db !! an_class_id an)
    ∧ is_Some (Users db !! an_author_id an) }.

(** "TeacherClass.teacher_id must reference a user with role=teacher" *)
Definition teacherclass_teacher_role (db : DB) : Prop :=
  set_Forall (λ tc, u_role <$> Users db !! tc.1 = Some teacher)
             (TeacherClass db).

(** The statement rewrites the role of a user. *)
Definition sets_role (q : Sql) : Prop :=
  match q with
  | UPDATE_Users _ _ _ (Some _) => True
  | _ => False
  end.

(** The calls that send such a statement: PATCH /users/{id} and
    [managementCrud.update_user] with a role. *)
Definition patches_role (r : Main.Request) : Prop :=
  match r with
  | Main.PATCH_users _ patch => is_Some (Main.UserUpdate.role patch)
  | _ => False
  end.

Definition updates_role (i : Crud.Invocation) : Prop :=
  match i with
  | Crud.Update_user _ _ _ role => is_Some role
  | _ => False
  end.

(** PATCH /users/{id} with only [role] set. *)
Definition set_role (role : Role) : Main.UserUpdate.t :=
  {| Main.UserUpdate.email := None; Main.UserUpdate.full_name := None;
     Main.UserUpdate.role := Some role |}.

(** The announcements a user authored, and their removal one DELETE
    /announcements/{id} at a time. *)
Definition authored_by (user_id : Z) (db : DB) : list Z :=
  (map_to_list (filter (λ kr, an_author_id kr.2 = user_id)
                       (Announcements db))).*1.

Definition delete_announcements (ids : list Z) (db : DB) : DB :=
  foldl (λ d id, (Main.delete_announcement id d).1) db ids.

End Store.

(** ** Read-only queries of main.py and managementCrud.py *)

Module Query.
Import Schema Conn.






(** Column lists of the ORDER BY clauses. *)
Definition by_id {A} : relation (Z * A) := λ x y, x.1 ≤ y.1.
Definition by_teacher_id : relation (Z * Z) := λ x y, x.1 ≤ y.1.
Definition by_class_id : relation (Z * Z) := λ x y, x.2 ≤ y.2.
Definition by_teacher_id_class_id : relation (Z * Z) :=
  λ x y, x.1 < y.1 ∨ (x.1 = y.1 ∧ x.2 ≤ y.2).
Definition by_attempt_number : relation (Z * Submission) :=
  λ x y, s_attempt_number x.2 ≤ s_attempt_number y.2.
Definition by_student_id_attempt_number : relation (Z * Submission) :=
  λ x y, s_student_id x.2 < s_student_id y.2
         ∨ (s_student_id x.2 = s_student_id y.2
            ∧ s_attempt_number x.2 ≤ s_attempt_number y.2).
Definition by_assignment_id_attempt_number : relation (Z * Submission) :=
  λ x y, s_assignment_id x.2 < s_assignment_id y.2
         ∨ (s_assignment_id x.2 = s_assignment_id y.2
            ∧ s_attempt_number x.2 ≤ s_attempt_number y.2).

#[global] Instance by_id_dec {A} (x y : Z * A) : Decision (by_id x y).
Proof. unfold by_id. apply _. Defined.
#[global] Instance by_teacher_id_dec x y : Decision (by_teacher_id x y).
Proof. unfold by_teacher_id. apply _. Defined.
#[global] Instance by_class_id_dec x y : Decision (by_class_id x y).
Proof. unfold by_class_id. apply _. Defined.
#[global] Instance by_teacher_id_class_id_dec x y :
  Decision (by_teacher_id_class_id x y).
Proof. unfold by_teacher_id_class_id. apply _. Defined.
#[global] Instance by_attempt_number_dec x y :
  Decision (by_attempt_number x y).
Proof. unfold by_attempt_number. apply _. Defined.
#[global] Instance by_student_id_attempt_number_dec x y :
  Decision (by_student_id_attempt_number x y).
Proof. unfold by_student_id_attempt_number. apply _. Defined.
#[global] Instance by_assignment_id_attempt_number_dec x y :
  Decision (by_assignment_id_attempt_number x y).
Proof. unfold by_assignment_id_attempt_number. apply _. Defined.

End Query.

Module MainRead.
Import Schema Conn Query.

Definition get_user (user_id : Z) : Call (Z * User) :=
  Main.get_conn (
    row <- query (λ db, select_by_id (Users db) user_id) ;;
    Main.found "User" row).





End MainRead.

Module CrudRead.
Import Schema Conn Query.


End CrudRead.

(** ** Further invariants of the store *)

Module Invariant.
Import Schema Conn.

(** The UNIQUE constraints of the DDL that are not primary keys. *)
Record unique_keys (db : DB) : Prop := {
  unique_email : ∀ k1 k2 u1 u2,
    Users db !! k1 = Some u1 → Users db !! k2 = Some u2 →
    u_email u1 = u_email u2 → k1 = k2;
  unique_code : ∀ k1 k2 c1 c2,
    Classes db !! k1 = Some c1 → Classes db !! k2 = Some c2 →
    c_code c1 = c_code c2 → k1 = k2;
  unique_attempt : ∀ k1 k2 s1 s2,
    Submissions db !! k1 = Some s1 → Submissions db !! k2 = Some s2 →
    s_assignment_id s1 = s_assignment_id s2 →
    s_student_id s1 = s_student_id s2 →
    s_attempt_number s1 = s_attempt_number s2 → k1 = k2 }.

(** "Enrollments.user_id / Submissions.student_id must reference a user
    with role=student" *)
Definition student_rows (db : DB) : Prop :=
  (∀ u c, is_Some (Enrollments db !! (u, c)) →
          u_role <$> Users db !! u = Some student)
  ∧ (∀ k s, Submissions db !! k = Some s →
            u_role <$> Users db !! s_student_id s = Some student).

End Invariant.

(** * Properties *)

Import Schema Conn Store.

Example seeded_sizes :
  (size (Users Scenario.seeded), size (Classes Scenario.seeded),
   size (TeacherClass Scenario.seeded), size (Enrollments Scenario.seeded),
   size (Assignments Scenario.seeded), size (Submissions Scenario.seeded),
   size (SubmissionAttachments Scenario.seeded),
   size (Announcements Scenario.seeded))
  = (6, 2, 4, 4, 3, 4, 4, 2)%nat.
Proof. vm_compute. reflexivity. Qed.

(** ** Aggregates and rowids *)

Section fold_max.
Context {K A : Type} `{Countable K}.
Implicit Types (col : K → A → Z) (t : gmap K A).

Lemma fold_max_spec col t :
  match fold_max col t with
  | None => t = ∅
  | Some m => (∃ k r, t !! k = Some r ∧ col k r = m)
              ∧ ∀ k r, t !! k = Some r → col k r ≤ m
  end.
Proof.
  unfold fold_max.
  apply (map_fold_weak_ind (λ acc t,
    match acc with
    | None => t = ∅
    | Some m => (∃ k r, t !! k = Some r ∧ col k r = m)
                ∧ ∀ k r, t !! k = Some r → col k r ≤ m
    end)); [done|].
  intros i x m acc Hi IH. split.
  - destruct acc as [a|]; simpl.
    + destruct IH as [(k & r & Hk & Hr) Hle].
      destruct (Z.max_spec (col i x) a) as [[_ ->]|[_ ->]].
      * exists k, r. split; [|done].
        rewrite lookup_insert_ne; [done|congruence].
      * exists i, x. by rewrite lookup_insert_eq.
    + exists i, x. by rewrite lookup_insert_eq.
  - intros k r. rewrite lookup_insert. case_decide as Hk.
    + intros [= <-]. subst k. destruct acc; simpl; lia.
    + intros Hr. destruct acc as [a|]; simpl.
      * destruct IH as [_ Hle]. specialize (Hle _ _ Hr). lia.
      * subst m. by rewrite lookup_empty in Hr.
Qed.

Lemma fold_max_Some col t m :
  fold_max col t = Some m ↔
  (∃ k r, t !! k = Some r ∧ col k r = m)
  ∧ ∀ k r, t !! k = Some r → col k r ≤ m.
Proof.
  pose proof (fold_max_spec col t) as Hs. split.
  - intros Heq. by rewrite Heq in Hs.
  - intros [(k & r & Hk & Hr) Hle]. destruct (fold_max col t) as [m'|].
    + destruct Hs as [(k' & r' & Hk' & Hr') Hle']. f_equal.
      specialize (Hle _ _ Hk'). specialize (Hle' _ _ Hk). lia.
    + subst t. by rewrite lookup_empty in Hk.
Qed.

Lemma fold_max_None col t : fold_max col t = None ↔ t = ∅.
Proof.
  pose proof (fold_max_spec col t) as Hs. split.
  - intros Heq. by rewrite Heq in Hs.
  - intros ->. destruct (fold_max col ∅) as [m|]; [|done].
    destruct Hs as [(k & r & Hk & _) _]. by rewrite lookup_empty in Hk.
Qed.
End fold_max.

Lemma new_rowid_fresh {A} (t : gmap Z A) : t !! new_rowid t = None.
Proof.
  unfold new_rowid. pose proof (fold_max_spec (λ k _, k) t) as Hs.
  destruct (fold_max _ t) as [m|].
  - destruct Hs as [_ Hle]. destruct (t !! (m + 1)) as [r|] eqn:Hr; [|done].
    specialize (Hle _ _ Hr). simpl in Hle. lia.
  - subst t. apply lookup_empty.
Qed.

(** ** Shapes of successful and failed statements *)

Lemma insert_Submissions_inr a s n g f now db sid db' :
  insert_Submissions a s n g f now db = inr (sid, db') →
  trg_submissions_student_enrolled db a s = false
  ∧ trg_submissions_student_role db s = false
  ∧ ¬ map_Exists (λ _ r, s_assignment_id r = a ∧ s_student_id r = s
                          ∧ s_attempt_number r = n) (Submissions db)
  ∧ is_Some (Assignments db !! a) ∧ is_Some (Users db !! s)
  ∧ sid = new_rowid (Submissions db)
  ∧ db' = with_Submissions
            (<[sid := {| s_assignment_id := a; s_student_id := s;
                         s_attempt_number := n; s_submitted_at := now;
                         s_grade := g ≫= REAL; s_feedback := f |}]>
              (Submissions db)) db.
Proof.
  unfold insert_Submissions, parent_exists.
  destruct (trg_submissions_student_enrolled db a s); [done|].
  destruct (trg_submissions_student_role db s); [done|].
  case_bool_decide as Hu; [done|].
  do 2 case_bool_decide; simpl; try done.
  intros [= <- <-]. done.
Qed.

(** ** The attempt sequencer of main.py *)

Section last_attempt.
Implicit Types (a s : Z) (db : DB).

Lemma select_last_attempt_ge a s db k r :
  Submissions db !! k = Some r → of_pair a s r →
  s_attempt_number r ≤ select_last_attempt a s db.
Proof.
  intros Hk Hp. unfold select_last_attempt, COALESCE, sql_max.
  pose proof (fold_max_spec (λ _ r, s_attempt_number r)
    (filter (λ kr, of_pair a s kr.2) (Submissions db))) as Hs.
  assert (Hf : filter (λ kr : Z * Submission, of_pair a s kr.2)
                 (Submissions db) !! k = Some r)
    by (by apply map_lookup_filter_Some).
  destruct (fold_max _ _) as [m|]; simpl.
  - destruct Hs as [_ Hle]. by apply (Hle k r).
  - rewrite Hs in Hf. by rewrite lookup_empty in Hf.
Qed.

Lemma select_last_attempt_cases a s db :
  (∃ k r, Submissions db !! k = Some r ∧ of_pair a s r
          ∧ s_attempt_number r = select_last_attempt a s db)
  ∨ (select_last_attempt a s db = 0
     ∧ ∀ k r, Submissions db !! k = Some r → ¬ of_pair a s r).
Proof.
  unfold select_last_attempt, COALESCE, sql_max.
  pose proof (fold_max_spec (λ _ r, s_attempt_number r)
    (filter (λ kr, of_pair a s kr.2) (Submissions db))) as Hs.
  destruct (fold_max _ _) as [m|]; simpl.
  - left. destruct Hs as [(k & r & Hk & Hr) _].
    apply map_lookup_filter_Some in Hk as [Hk Hp]. by exists k, r.
  - right. split; [done|]. intros k r Hk Hp.
    by eapply (map_filter_empty_not_lookup _ _ k r Hs).
Qed.

Lemma select_last_attempt_insert a s db sid r :
  Submissions db !! sid = None → of_pair a s r →
  s_attempt_number r = select_last_attempt a s db + 1 →
  select_last_attempt a s
    (with_Submissions (<[sid := r]> (Submissions db)) db)
  = select_last_attempt a s db + 1.
Proof.
  intros Hfresh Hp Hn.
  pose proof (select_last_attempt_ge a s db) as Hge.
  rewrite <- Hn.
  unfold select_last_attempt at 1. unfold COALESCE, sql_max. simpl.
  rewrite map_filter_insert_True by done.
  replace (fold_max _ _) with (Some (s_attempt_number r)); [done|].
  symmetry. apply fold_max_Some. split.
  - exists sid, r. by rewrite lookup_insert_eq.
  - intros k r'. rewrite lookup_insert. case_decide.
    + by intros [= <-].
    + intros [Hk Hr']%map_lookup_filter_Some.
      specialize (Hge _ _ Hk Hr'). lia.
Qed.
End last_attempt.

(** Project a table out of a database rebuilt by the statements. *)
Tactic Notation "db_simpl" :=
  cbn [Users Classes TeacherClass Enrollments Assignments Submissions
       SubmissionAttachments Announcements with_Users with_Classes
       with_TeacherClass with_Enrollments with_Assignments with_Submissions
       with_SubmissionAttachments with_Announcements cascade_Submissions
       cascade_Assignments fst snd].

Tactic Notation "db_simpl" "in" hyp(H) :=
  cbn [Users Classes TeacherClass Enrollments Assignments Submissions
       SubmissionAttachments Announcements with_Users with_Classes
       with_TeacherClass with_Enrollments with_Assignments with_Submissions
       with_SubmissionAttachments with_Announcements cascade_Submissions
       cascade_Assignments fst snd] in H.

(** Unfold the connection layer down to the statement it runs. *)
Ltac tx_unfold :=
  unfold Main.get_conn, Crud.connect, commit_or_discard, Main.insert_attempt,
    Main.conflict, Main.found, Main.deleted, Main.no_fields, bind_int;
  unfold except_IntegrityError, bind, execute, query, raise, ret.

(** The INSERT half of the handler, committed or discarded. *)
Lemma get_conn_insert_attempt payload now n db :
  Main.get_conn (Main.insert_attempt payload now n) db =
  if bool_decide (int64 n)
  then
    match insert_Submissions (Main.SubmissionCreate.assignment_id payload)
                             (Main.SubmissionCreate.student_id payload) n
                             (Main.SubmissionCreate.grade payload)
                             (Main.SubmissionCreate.feedback payload) now db with
    | inr (sid, db') => (db', inr (select_by_id (Submissions db') sid))
    | inl (IntegrityError c) =>
        (db, inl (HTTPException 409 ("Submission conflict: " +:+ str c)))
    | inl e => (db, inl e)
    end
  else (db, inl (OverflowError
                   "Python int too large to convert to SQLite INTEGER")).
Proof.
  tx_unfold. case_bool_decide; [|done].
  destruct (insert_Submissions _ _ _ _ _ _ _) as [[]|[]]; done.
Qed.

Lemma create_submission_interleaved_eq others payload now db :
  Main.create_submission_interleaved others payload now db =
  Main.get_conn
    (Main.insert_attempt payload now
       (select_last_attempt (Main.SubmissionCreate.assignment_id payload)
                            (Main.SubmissionCreate.student_id payload) db + 1))
    (others db).
Proof. done. Qed.

(** Without interference the interleaved handler is the handler. *)
Lemma create_submission_alone payload now db :
  Main.create_submission payload now db =
  Main.create_submission_interleaved id payload now db.
Proof.
  rewrite create_submission_interleaved_eq, get_conn_insert_attempt.
  unfold Main.create_submission. tx_unfold.
  simpl. case_bool_decide; [|done].
  destruct (insert_Submissions _ _ _ _ _ _ _) as [[]|[]]; done.
Qed.

Lemma create_submission_inr payload now db db' out :
  Main.create_submission payload now db = (db', inr out) →
  let a := Main.SubmissionCreate.assignment_id payload in
  let s := Main.SubmissionCreate.student_id payload in
  let row := {| s_assignment_id := a; s_student_id := s;
                s_attempt_number := select_last_attempt a s db + 1;
                s_submitted_at := now;
                s_grade := Main.SubmissionCreate.grade payload ≫= REAL;
                s_feedback := Main.SubmissionCreate.feedback payload |} in
  ∃ sid, out = Some (sid, row) ∧ Submissions db !! sid = None
         ∧ db' = with_Submissions (<[sid := row]> (Submissions db)) db.
Proof.
  rewrite create_submission_alone, create_submission_interleaved_eq,
    get_conn_insert_attempt. simpl.
  case_bool_decide; [|done].
  destruct (insert_Submissions _ _ _ _ _ _ _) as [[]|[sid db1]] eqn:Hins;
    try done.
  intros [= <- <-].
  apply insert_Submissions_inr in Hins as (_ & _ & _ & _ & _ & -> & ->).
  eexists. split; [|split; [apply new_rowid_fresh|done]].
  unfold select_by_id. simpl. by rewrite lookup_insert_eq.
Qed.

Lemma create_submissions_attempts payload nows db :
  Forall Scenario.succeeded (Scenario.create_submissions payload nows db).2 →
  Scenario.attempt_of <$> (Scenario.create_submissions payload nows db).2
  = Some <$> seqZ (select_last_attempt
                     (Main.SubmissionCreate.assignment_id payload)
                     (Main.SubmissionCreate.student_id payload) db + 1)
                  (Z.of_nat (length nows)).
Proof.
  revert db. induction nows as [|now nows IH]; intros db; [done|].
  cbn [Scenario.create_submissions fst snd length].
  destruct (Main.create_submission payload now db) as [db1 r] eqn:Hc.
  cbn [fst snd]. intros [Hr Hrs]%Forall_cons.
  destruct r as [e|out]; [done|].
  apply create_submission_inr in Hc as (sid & -> & Hfresh & ->).
  rewrite fmap_cons, (IH _ Hrs).
  rewrite select_last_attempt_insert; [|done|by split|done].
  rewrite (seqZ_cons _ (Z.of_nat (S (length nows)))) by lia.
  rewrite fmap_cons. cbn [Scenario.attempt_of s_attempt_number].
  do 3 f_equal; lia.
Qed.

(** C1: [create_submission] reads the largest attempt number stored for the
    (assignment_id, student_id) pair (0 when the pair has no row), and a
    call that succeeds inserts exactly one row, numbered that maximum plus
    one.  Hence N calls in a row for the same pair that all succeed hand out
    the consecutive numbers last+1, ..., last+N, which is 1, ..., N for a
    pair without earlier submissions. *)
Theorem create_submission_attempt_sequence :
  (∀ a s db,
      (∀ k r, Submissions db !! k = Some r → of_pair a s r →
              s_attempt_number r ≤ select_last_attempt a s db)
      ∧ ((∃ k r, Submissions db !! k = Some r ∧ of_pair a s r
                 ∧ s_attempt_number r = select_last_attempt a s db)
         ∨ (select_last_attempt a s db = 0
            ∧ ∀ k r, Submissions db !! k = Some r → ¬ of_pair a s r)))
  ∧ (∀ payload now db db' out,
      Main.create_submission payload now db = (db', inr out) →
      let a := Main.SubmissionCreate.assignment_id payload in
      let s := Main.SubmissionCreate.student_id payload in
      let row := {| s_assignment_id := a; s_student_id := s;
                    s_attempt_number := select_last_attempt a s db + 1;
                    s_submitted_at := now;
                    s_grade := Main.SubmissionCreate.grade payload ≫= REAL;
                    s_feedback := Main.SubmissionCreate.feedback payload |} in
      ∃ sid, out = Some (sid, row) ∧ Submissions db !! sid = None
             ∧ db' = with_Submissions (<[sid := row]> (Submissions db)) db)
  ∧ (∀ payload nows db,
      let a := Main.SubmissionCreate.assignment_id payload in
      let s := Main.SubmissionCreate.student_id payload in
      let results := (Scenario.create_submissions payload nows db).2 in
      Forall Scenario.succeeded results →
      Scenario.attempt_of <$> results
      = Some <$> seqZ (select_last_attempt a s db + 1) (Z.of_nat (length nows)))
  ∧ (∀ payload nows db,
      let a := Main.SubmissionCreate.assignment_id payload in
      let s := Main.SubmissionCreate.student_id payload in
      let results := (Scenario.create_submissions payload nows db).2 in
      (∀ k r, Submissions db !! k = Some r → ¬ of_pair a s r) →
      Forall Scenario.succeeded results →
      Scenario.attempt_of <$> results
      = Some <$> seqZ 1 (Z.of_nat (length nows))).
Proof.
  split; [|split; [|split]].
  - intros a s db. split.
    + apply select_last_attempt_ge.
    + apply select_last_attempt_cases.
  - apply create_submission_inr.
  - intros payload nows db a s results. apply create_submissions_attempts.
  - intros payload nows db a s results Hnone Hok.
    unfold results. rewrite create_submissions_attempts by done.
    destruct (select_last_attempt_cases a s db)
      as [(k & r & Hk & Hp & _)|[Hzero _]].
    + by destruct (Hnone k r).
    + fold a s. by rewrite Hzero.
Qed.

(** Three calls in a row for student 4 and assignment 2 of the seeded
    database, a pair without earlier submissions. *)
Lemma create_submission_attempt_sequence_witness :
  let results :=
    (Scenario.create_submissions (Scenario.submit 2 4)
       [Scenario.now; Scenario.now; Scenario.now] Scenario.seeded).2 in
  Forall Scenario.succeeded results
  ∧ Scenario.attempt_of <$> results = [Some 1; Some 2; Some 3].
Proof.
  assert (Hok : Forall Scenario.succeeded
            (Scenario.create_submissions (Scenario.submit 2 4)
               [Scenario.now; Scenario.now; Scenario.now] Scenario.seeded).2)
    by (vm_compute; repeat constructor).
  split; [exact Hok|].
  rewrite (proj1 (proj2 (proj2 create_submission_attempt_sequence))
             (Scenario.submit 2 4)
             [Scenario.now; Scenario.now; Scenario.now] Scenario.seeded Hok).
  vm_compute. reflexivity.
Defined.

(** ** No retry: a lost race surfaces as 409 *)

(** Whatever constraint the INSERT of [create_submission] violates, the
    handler stops there. *)
Lemma create_submission_interleaved_inl others payload now db c :
  int64 (select_last_attempt (Main.SubmissionCreate.assignment_id payload)
                             (Main.SubmissionCreate.student_id payload) db + 1) →
  insert_Submissions (Main.SubmissionCreate.assignment_id payload)
    (Main.SubmissionCreate.student_id payload)
    (select_last_attempt (Main.SubmissionCreate.assignment_id payload)
                         (Main.SubmissionCreate.student_id payload) db + 1)
    (Main.SubmissionCreate.grade payload)
    (Main.SubmissionCreate.feedback payload) now (others db)
  = inl (IntegrityError c) →
  Main.create_submission_interleaved others payload now db
  = (others db, inl (HTTPException 409 ("Submission conflict: " +:+ str c))).
Proof.
  intros Hn Hins.
  rewrite create_submission_interleaved_eq, get_conn_insert_attempt.
  by rewrite (bool_decide_eq_true_2 _ Hn), Hins.
Qed.

(** The INSERT of a student whom no trigger stops, at an attempt number the
    pair already has. *)
Lemma insert_Submissions_taken db a s n g f now :
  trg_submissions_student_enrolled db a s = false →
  trg_submissions_student_role db s = false →
  map_Exists (λ _ r, s_assignment_id r = a ∧ s_student_id r = s
                     ∧ s_attempt_number r = n) (Submissions db) →
  insert_Submissions a s n g f now db
  = inl (IntegrityError (UniqueFailed uq_submissions)).
Proof.
  intros He Hr Hdup. unfold insert_Submissions. rewrite He, Hr.
  by rewrite (bool_decide_eq_true_2 _ Hdup).
Qed.

(** C2, as the code has it: [create_submission] runs its INSERT once (it
    runs whenever the attempt number it computed fits an SQLite INTEGER).
    When that INSERT violates a constraint, the handler answers 409 with
    the constraint's message at once and stores nothing: the database is as
    the other connections committed it.  In particular, when another
    connection has taken the attempt number since the SELECT, the answer is
    the 409 of the uniqueness constraint; the maximum is not read again. *)
Theorem create_submission_surfaces_conflict :
  ∀ others payload now db,
    let a := Main.SubmissionCreate.assignment_id payload in
    let s := Main.SubmissionCreate.student_id payload in
    let n := select_last_attempt a s db + 1 in
    int64 n →
    (∀ c,
       insert_Submissions a s n (Main.SubmissionCreate.grade payload)
         (Main.SubmissionCreate.feedback payload) now (others db)
       = inl (IntegrityError c) →
       Main.create_submission_interleaved others payload now db
       = (others db,
          inl (HTTPException 409 ("Submission conflict: " +:+ str c))))
    ∧ (trg_submissions_student_enrolled (others db) a s = false →
       trg_submissions_student_role (others db) s = false →
       (∃ k r, Submissions (others db) !! k = Some r ∧ of_pair a s r
               ∧ s_attempt_number r = n) →
       Main.create_submission_interleaved others payload now db
       = (others db,
          inl (HTTPException 409
                 ("Submission conflict: "
                  +:+ "UNIQUE constraint failed: "
                  +:+ "Submissions.assignment_id, Submissions.student_id, Submissions.attempt_number")))).
Proof.
  intros others payload now db a s n Hn. split.
  - intros c. by apply create_submission_interleaved_inl.
  - intros He Hr (k & r & Hk & [Ha Hs] & Hnum).
    apply (create_submission_interleaved_inl others payload now db
             (UniqueFailed uq_submissions) Hn).
    apply insert_Submissions_taken; [done|done|].
    apply map_Exists_lookup. by exists k, r.
Qed.

(** Student 4 and a rival request both read "no attempt yet" for
    assignment 2; the rival inserts first. *)
Lemma create_submission_surfaces_conflict_witness :
  Main.create_submission_interleaved (Scenario.rival (Scenario.submit 2 4))
    (Scenario.submit 2 4) Scenario.now Scenario.seeded
  = (Scenario.rival (Scenario.submit 2 4) Scenario.seeded,
     inl (HTTPException 409
            ("Submission conflict: " +:+ str (UniqueFailed uq_submissions)))).
Proof.
  assert (Hn : int64 (select_last_attempt 2 4 Scenario.seeded + 1)).
  { apply (bool_decide_eq_true_1 _). vm_compute. reflexivity. }
  refine (proj1 (create_submission_surfaces_conflict
                   (Scenario.rival (Scenario.submit 2 4)) (Scenario.submit 2 4)
                   Scenario.now Scenario.seeded Hn)
            (UniqueFailed uq_submissions) _).
  vm_compute. reflexivity.
Defined.

(** C2 as claimed fails on that race: the INSERT violates the uniqueness
    constraint and the conflict reaches the caller, although running the
    read-compute-insert cycle once more would have stored attempt 2. *)
Lemma create_submission_retry_counterexample :
  let payload := Scenario.submit 2 4 in
  let committed := Scenario.rival payload Scenario.seeded in
  insert_Submissions 2 4 (select_last_attempt 2 4 Scenario.seeded + 1)
    None None Scenario.now committed
  = inl (IntegrityError (UniqueFailed uq_submissions))
  ∧ Main.create_submission_interleaved (Scenario.rival payload) payload
      Scenario.now Scenario.seeded
    = (committed,
       inl (HTTPException 409
              "Submission conflict: UNIQUE constraint failed: Submissions.assignment_id, Submissions.student_id, Submissions.attempt_number"))
  ∧ Scenario.attempt_of (Main.create_submission payload Scenario.now committed).2
    = Some 2.
Proof. vm_compute. repeat split; reflexivity. Qed.

(** ** Every call commits at most one statement *)

Lemma commit_or_discard_inl {A} (body : Tx A) db db' e :
  commit_or_discard body db = (db', inl e) → db' = db.
Proof.
  unfold commit_or_discard. destruct (body db) as [db1 [e1|a]]; congruence.
Qed.

(** Split on the result of the one statement a handler executes. *)
Ltac split_statement :=
  match goal with
  | |- context [insert_Users ?a ?b ?c ?d ?db] =>
      destruct (insert_Users a b c d db) as [[]|[]] eqn:?
  | |- context [insert_Classes ?a ?b ?c ?d ?db] =>
      destruct (insert_Classes a b c d db) as [[]|[]] eqn:?
  | |- context [insert_TeacherClass ?a ?b ?db] =>
      destruct (insert_TeacherClass a b db) as [[]|[]] eqn:?
  | |- context [insert_Enrollments ?a ?b ?c ?db] =>
      destruct (insert_Enrollments a b c db) as [[]|[]] eqn:?
  | |- context [insert_Assignments ?a ?b ?c ?d ?e ?db] =>
      destruct (insert_Assignments a b c d e db) as [[]|[]] eqn:?
  | |- context [insert_Submissions ?a ?b ?c ?d ?e ?f ?db] =>
      destruct (insert_Submissions a b c d e f db) as [[]|[]] eqn:?
  | |- context [insert_SubmissionAttachments ?a ?b ?c ?d ?db] =>
      destruct (insert_SubmissionAttachments a b c d db) as [[]|[]] eqn:?
  | |- context [insert_Announcements ?a ?b ?c ?d ?e ?db] =>
      destruct (insert_Announcements a b c d e db) as [[]|[]] eqn:?
  | |- context [update_Users ?a ?b ?c ?d ?db] =>
      destruct (update_Users a b c d db) as [[]|[]] eqn:?
  | |- context [update_Classes ?a ?b ?c ?d ?db] =>
      destruct (update_Classes a b c d db) as [[]|[]] eqn:?
  | |- context [update_Assignments ?a ?b ?c ?d ?db] =>
      destruct (update_Assignments a b c d db) as [[]|[]] eqn:?
  | |- context [update_Submissions ?a ?b ?c ?db] =>
      destruct (update_Submissions a b c db) as [[]|[]] eqn:?
  | |- context [delete_Users ?a ?db] =>
      destruct (delete_Users a db) as [[]|[]] eqn:?
  | |- context [delete_Classes ?a ?db] =>
      destruct (delete_Classes a db) as [[]|[]] eqn:?
  | |- context [delete_Assignments ?a ?db] =>
      destruct (delete_Assignments a db) as [[]|[]] eqn:?
  | |- context [delete_Submissions ?a ?db] =>
      destruct (delete_Submissions a db) as [[]|[]] eqn:?
  | |- context [delete_Enrollments ?a ?b ?db] =>
      destruct (delete_Enrollments a b db) as [[]|[]] eqn:?
  | |- context [delete_TeacherClass ?a ?b ?db] =>
      destruct (delete_TeacherClass a b db) as [[]|[]] eqn:?
  | |- context [delete_SubmissionAttachments ?a ?db] =>
      destruct (delete_SubmissionAttachments a db) as [[]|[]] eqn:?
  | |- context [delete_Announcements ?a ?db] =>
      destruct (delete_Announcements a db) as [[]|[]] eqn:?
  end.

Ltac effect_is q H :=
  exists q; simpl; split; [by rewrite H|simpl; intuition eauto].

(** Name the statement whose success is recorded in the context. *)
Ltac by_effect :=
  right;
  match goal with
  | H : insert_Users ?a ?b ?c ?d _ = inr _ |- _ =>
      effect_is (INSERT_Users a b c d) H
  | H : insert_Classes ?a ?b ?c ?d _ = inr _ |- _ =>
      effect_is (INSERT_Classes a b c d) H
  | H : insert_TeacherClass ?a ?b _ = inr _ |- _ =>
      effect_is (INSERT_TeacherClass a b) H
  | H : insert_Enrollments ?a ?b ?c _ = inr _ |- _ =>
      effect_is (INSERT_Enrollments a b c) H
  | H : insert_Assignments ?a ?b ?c ?d ?e _ = inr _ |- _ =>
      effect_is (INSERT_Assignments a b c d e) H
  | H : insert_Submissions ?a ?b ?c ?d ?e ?f _ = inr _ |- _ =>
      effect_is (INSERT_Submissions a b c d e f) H
  | H : insert_SubmissionAttachments ?a ?b ?c ?d _ = inr _ |- _ =>
      effect_is (INSERT_SubmissionAttachments a b c d) H
  | H : insert_Announcements ?a ?b ?c ?d ?e _ = inr _ |- _ =>
      effect_is (INSERT_Announcements a b c d e) H
  | H : update_Users ?a ?b ?c ?d _ = inr _ |- _ =>
      effect_is (UPDATE_Users a b c d) H
  | H : update_Classes ?a ?b ?c ?d _ = inr _ |- _ =>
      effect_is (UPDATE_Classes a b c d) H
  | H : update_Assignments ?a ?b ?c ?d _ = inr _ |- _ =>
      effect_is (UPDATE_Assignments a b c d) H
  | H : update_Submissions ?a ?b ?c _ = inr _ |- _ =>
      effect_is (UPDATE_Submissions a b c) H
  | H : delete_Users ?a _ = inr _ |- _ =>
      effect_is (DELETE_Users a) H
  | H : delete_Classes ?a _ = inr _ |- _ =>
      effect_is (DELETE_Classes a) H
  | H : delete_Assignments ?a _ = inr _ |- _ =>
      effect_is (DELETE_Assignments a) H
  | H : delete_Submissions ?a _ = inr _ |- _ =>
      effect_is (DELETE_Submissions a) H
  | H : delete_Enrollments ?a ?b _ = inr _ |- _ =>
      effect_is (DELETE_Enrollments a b) H
  | H : delete_TeacherClass ?a ?b _ = inr _ |- _ =>
      effect_is (DELETE_TeacherClass a b) H
  | H : delete_SubmissionAttachments ?a _ = inr _ |- _ =>
      effect_is (DELETE_SubmissionAttachments a) H
  | H : delete_Announcements ?a _ = inr _ |- _ =>
      effect_is (DELETE_Announcements a) H
  end.

Ltac handler_unfold :=
  unfold Main.create_user, Main.update_user, Main.delete_user,
    Main.create_class, Main.update_class, Main.delete_class, Main.enroll,
    Main.unenroll, Main.teacherassigne, Main.unenroll_teacherassigned,
    Main.create_assignment, Main.update_assignment, Main.delete_assignment,
    Main.create_submission, Main.update_submission, Main.delete_submission,
    Main.create_attachment, Main.delete_attachment, Main.create_announcement,
    Main.delete_announcement,
    Crud.create_user, Crud.update_user, Crud.delete_user, Crud.create_class,
    Crud.update_class, Crud.delete_class, Crud.enroll_student,
    Crud.unenroll_student, Crud.assign_teacher_to_class,
    Crud.remove_teacher_from_class, Crud.create_assignment,
    Crud.update_assignment, Crud.delete_assignment, Crud.create_submission,
    Crud.add_attachment, Crud.grade_submission, Crud.delete_submission,
    Crud.create_announcement, Crud.delete_announcement, no_such_table;
  tx_unfold.

Ltac split_patch :=
  try match goal with p : Main.UserUpdate.t |- _ => destruct p as [[] [] []] end;
  try match goal with p : Main.ClassUpdate.t |- _ => destruct p as [[] [] []] end;
  try match goal with p : Main.AssignmentUpdate.t |- _ =>
        destruct p as [[] [] []] end;
  try match goal with p : Main.SubmissionUpdate.t |- _ => destruct p as [[] []] end.

Ltac split_reads :=
  repeat match goal with
         | |- context [select_by_id ?t ?k] => destruct (select_by_id t k)
         | |- context [bool_decide ?P] => destruct (bool_decide P)
         end.

Lemma handle_statement r db :
  (Main.handle r db).1 = db
  ∨ ∃ q, effect q db = Some (Main.handle r db).1
         ∧ (sets_role q → patches_role r).
Proof.
  destruct r; simpl; handler_unfold; split_patch; simpl;
    try (by left);
    try match goal with
        | |- context [bool_decide (int64 ?n)] =>
            destruct (bool_decide (int64 n)); simpl
        end;
    try (by left); split_statement; simpl; try (by left);
    split_reads; simpl; try (by left); by_effect.
Qed.

Lemma invoke_statement i db :
  (Crud.invoke i db).1 = db
  ∨ ∃ q, effect q db = Some (Crud.invoke i db).1
         ∧ (sets_role q → updates_role i).
Proof.
  destruct i; simpl; handler_unfold;
    repeat match goal with o : option _ |- _ => destruct o end; simpl;
    try (by left); split_statement; simpl; try (by left); by_effect.
Qed.

(** ** Rejected calls leave the store alone *)

Lemma outcome_commit_or_discard {A} (body : Tx A) db e :
  (outcome (commit_or_discard body db)).2 = Some e →
  (outcome (commit_or_discard body db)).1 = db.
Proof.
  unfold outcome, commit_or_discard.
  destruct (body db) as [db1 [e1|a]]; simpl; congruence.
Qed.

(** C8: a call that ends in an exception commits nothing.  This holds for
    every mutating route of main.py, for every mutating function of
    managementCrud.py, and for [create_submission] racing other
    connections, where the store stays as those connections left it. *)
Theorem rejected_call_commits_nothing :
  (∀ r db e, (Main.handle r db).2 = Some e → (Main.handle r db).1 = db)
  ∧ (∀ i db e, (Crud.invoke i db).2 = Some e → (Crud.invoke i db).1 = db)
  ∧ (∀ others payload now db e,
       (Main.create_submission_interleaved others payload now db).2 = inl e →
       (Main.create_submission_interleaved others payload now db).1 = others db).
Proof.
  split; [|split].
  - intros r db e. destruct r; simpl;
      unfold Main.create_user, Main.update_user, Main.delete_user,
        Main.create_class, Main.update_class, Main.delete_class, Main.enroll,
        Main.unenroll, Main.teacherassigne, Main.unenroll_teacherassigned,
        Main.create_assignment, Main.update_assignment,
        Main.delete_assignment, Main.create_submission,
        Main.update_submission, Main.delete_submission,
        Main.create_attachment, Main.delete_attachment,
        Main.create_announcement, Main.delete_announcement, Main.get_conn;
      split_patch; simpl; try done; apply outcome_commit_or_discard.
  - intros i db e. destruct i; simpl;
      unfold Crud.create_user, Crud.update_user, Crud.delete_user,
        Crud.create_class, Crud.update_class, Crud.delete_class,
        Crud.enroll_student, Crud.unenroll_student,
        Crud.assign_teacher_to_class, Crud.remove_teacher_from_class,
        Crud.create_assignment, Crud.update_assignment,
        Crud.delete_assignment, Crud.create_submission, Crud.add_attachment,
        Crud.grade_submission, Crud.delete_submission,
        Crud.create_announcement, Crud.delete_announcement, Crud.connect;
      repeat match goal with o : option _ |- _ => destruct o end;
      simpl; try done; apply outcome_commit_or_discard.
  - intros others payload now db e He.
    rewrite create_submission_interleaved_eq in *.
    unfold Main.get_conn in *. eapply commit_or_discard_inl.
    apply injective_projections; [reflexivity|exact He].
Qed.

(** DELETE /users/1 on the seeded database: teacher 1 authored an
    announcement, the DELETE fails and nothing changes. *)
Lemma rejected_call_commits_nothing_witness :
  (Main.handle (Main.DELETE_users 1) Scenario.seeded).2
  = Some (IntegrityError ForeignKeyFailed)
  ∧ (Main.handle (Main.DELETE_users 1) Scenario.seeded).1 = Scenario.seeded.
Proof.
  assert (He : (Main.handle (Main.DELETE_users 1) Scenario.seeded).2
               = Some (IntegrityError ForeignKeyFailed))
    by (vm_compute; reflexivity).
  split; [exact He|].
  exact (proj1 rejected_call_commits_nothing _ _ _ He).
Defined.

(** ** Eligibility of a submission *)

Lemma trg_submissions_student_role_student db s u :
  Users db !! s = Some u → u_role u = student →
  trg_submissions_student_role db s = false.
Proof.
  intros Hu Hr. unfold trg_submissions_student_role, sql_ne, when_true.
  rewrite Hu. simpl. rewrite Hr. by rewrite bool_decide_eq_false_2 by auto.
Qed.

Lemma trg_submissions_student_enrolled_false db a s ar :
  Assignments db !! a = Some ar →
  is_Some (Enrollments db !! (s, a_class_id ar)) →
  trg_submissions_student_enrolled db a s = false.
Proof.
  intros Ha He. unfold trg_submissions_student_enrolled. rewrite Ha.
  by rewrite bool_decide_eq_true_2.
Qed.

Lemma trg_submissions_student_enrolled_true db a s :
  (∀ ar, Assignments db !! a = Some ar →
         Enrollments db !! (s, a_class_id ar) = None) →
  trg_submissions_student_enrolled db a s = true.
Proof.
  intros Hno. unfold trg_submissions_student_enrolled.
  destruct (Assignments db !! a) as [ar|]; [|done].
  rewrite bool_decide_eq_false_2; [done|].
  rewrite (Hno ar eq_refl). by intros [? ?].
Qed.

(** The INSERT of an eligible student at an attempt number the pair does
    not have passes every check. *)
Lemma insert_Submissions_ok db a s n g f now u ar :
  Users db !! s = Some u → u_role u = student →
  Assignments db !! a = Some ar →
  is_Some (Enrollments db !! (s, a_class_id ar)) →
  ¬ map_Exists (λ _ r, s_assignment_id r = a ∧ s_student_id r = s
                       ∧ s_attempt_number r = n) (Submissions db) →
  insert_Submissions a s n g f now db
  = inr (new_rowid (Submissions db),
         with_Submissions
           (<[new_rowid (Submissions db) :=
                {| s_assignment_id := a; s_student_id := s;
                   s_attempt_number := n; s_submitted_at := now;
                   s_grade := g ≫= REAL; s_feedback := f |}]>
              (Submissions db)) db).
Proof.
  intros Hu Hr Ha He Hfree. unfold insert_Submissions, parent_exists.
  rewrite (trg_submissions_student_enrolled_false _ _ _ _ Ha He).
  rewrite (trg_submissions_student_role_student _ _ _ Hu Hr).
  rewrite (bool_decide_eq_false_2 _ Hfree).
  rewrite Ha, Hu. by rewrite !bool_decide_eq_true_2 by eauto.
Qed.

(** The handler racing other connections, for a student who is eligible
    when the INSERT runs and whose attempt number is still free. *)
Lemma create_submission_interleaved_ok others payload now db u ar :
  let a := Main.SubmissionCreate.assignment_id payload in
  let s := Main.SubmissionCreate.student_id payload in
  let n := select_last_attempt a s db + 1 in
  int64 n →
  Users (others db) !! s = Some u → u_role u = student →
  Assignments (others db) !! a = Some ar →
  is_Some (Enrollments (others db) !! (s, a_class_id ar)) →
  (∀ k r, Submissions (others db) !! k = Some r → of_pair a s r →
          s_attempt_number r ≠ n) →
  ∃ sid row,
    Main.create_submission_interleaved others payload now db
    = (with_Submissions (<[sid := row]> (Submissions (others db))) (others db),
       inr (Some (sid, row)))
    ∧ Submissions (others db) !! sid = None
    ∧ of_pair a s row ∧ s_attempt_number row = n.
Proof.
  intros a s n Hn Hu Hr Ha He Hfree.
  rewrite create_submission_interleaved_eq, get_conn_insert_attempt.
  fold a s n. rewrite (bool_decide_eq_true_2 _ Hn).
  rewrite (insert_Submissions_ok (others db) a s n _ _ now u ar);
    [|done|done|done|done|].
  - eexists _, _. split.
    { unfold select_by_id. db_simpl. by rewrite lookup_insert_eq. }
    split; [apply new_rowid_fresh|]. by split.
  - intros (k & r & Hk & Hra & Hrs & Hnum)%map_Exists_lookup.
    by apply (Hfree k r Hk (conj Hra Hrs)).
Qed.

Lemma create_submission_interleaved_refused others payload now db :
  let a := Main.SubmissionCreate.assignment_id payload in
  let s := Main.SubmissionCreate.student_id payload in
  int64 (select_last_attempt a s db + 1) →
  (∀ ar, Assignments (others db) !! a = Some ar →
         Enrollments (others db) !! (s, a_class_id ar) = None) →
  Main.create_submission_interleaved others payload now db
  = (others db,
     inl (HTTPException 409
            ("Submission conflict: "
             +:+ "Student must be enrolled in the class for this assignment"))).
Proof.
  intros a s Hn Hno. subst a s.
  apply (create_submission_interleaved_inl others payload now db
           (TriggerAbort msg_submissions_student_enrolled) Hn).
  unfold insert_Submissions.
  by rewrite (trg_submissions_student_enrolled_true _ _ _ Hno).
Qed.

(** C4, as the code has it.  A user with role student who is enrolled in
    the class of the assignment gets a new submission, numbered one more
    than the last attempt the handler read, provided that this number fits
    an SQLite INTEGER and that no other connection has committed the same
    number for the pair between the handler's SELECT and its INSERT; a call
    that runs alone meets the second condition.  A student who is not
    enrolled in the class of the assignment when the INSERT runs is refused
    with the message of [trg_submissions_student_enrolled] (HTTP 409) and
    no row is stored.  A number that does not fit ends the call with
    OverflowError before the INSERT runs. *)
Theorem create_submission_eligibility :
  (∀ others payload now db u ar,
      let a := Main.SubmissionCreate.assignment_id payload in
      let s := Main.SubmissionCreate.student_id payload in
      let n := select_last_attempt a s db + 1 in
      int64 n →
      Users (others db) !! s = Some u → u_role u = student →
      Assignments (others db) !! a = Some ar →
      is_Some (Enrollments (others db) !! (s, a_class_id ar)) →
      (∀ k r, Submissions (others db) !! k = Some r → of_pair a s r →
              s_attempt_number r ≠ n) →
      ∃ sid row,
        Main.create_submission_interleaved others payload now db
        = (with_Submissions (<[sid := row]> (Submissions (others db)))
             (others db),
           inr (Some (sid, row)))
        ∧ Submissions (others db) !! sid = None
        ∧ of_pair a s row ∧ s_attempt_number row = n)
  ∧ (∀ payload now db u ar,
      let a := Main.SubmissionCreate.assignment_id payload in
      let s := Main.SubmissionCreate.student_id payload in
      int64 (select_last_attempt a s db + 1) →
      Users db !! s = Some u → u_role u = student →
      Assignments db !! a = Some ar →
      is_Some (Enrollments db !! (s, a_class_id ar)) →
      ∃ sid row,
        Main.create_submission payload now db
        = (with_Submissions (<[sid := row]> (Submissions db)) db,
           inr (Some (sid, row)))
        ∧ Submissions db !! sid = None
        ∧ of_pair a s row
        ∧ s_attempt_number row = select_last_attempt a s db + 1)
  ∧ (∀ others payload now db,
      let a := Main.SubmissionCreate.assignment_id payload in
      let s := Main.SubmissionCreate.student_id payload in
      int64 (select_last_attempt a s db + 1) →
      (∀ ar, Assignments (others db) !! a = Some ar →
             Enrollments (others db) !! (s, a_class_id ar) = None) →
      Main.create_submission_interleaved others payload now db
      = (others db,
         inl (HTTPException 409
                ("Submission conflict: "
                 +:+ "Student must be enrolled in the class for this assignment"))))
  ∧ (∀ payload now db,
      let a := Main.SubmissionCreate.assignment_id payload in
      let s := Main.SubmissionCreate.student_id payload in
      int64 (select_last_attempt a s db + 1) →
      (∀ ar, Assignments db !! a = Some ar →
             Enrollments db !! (s, a_class_id ar) = None) →
      Main.create_submission payload now db
      = (db, inl (HTTPException 409
                    ("Submission conflict: "
                     +:+ "Student must be enrolled in the class for this assignment"))))
  ∧ (∀ others payload now db,
      let a := Main.SubmissionCreate.assignment_id payload in
      let s := Main.SubmissionCreate.student_id payload in
      ¬ int64 (select_last_attempt a s db + 1) →
      Main.create_submission_interleaved others payload now db
      = (others db,
         inl (OverflowError
                "Python int too large to convert to SQLite INTEGER"))).
Proof.
  split; [|split; [|split; [|split]]].
  - apply create_submission_interleaved_ok.
  - intros payload now db u ar a s Hn Hu Hr Ha He. subst a s.
    rewrite create_submission_alone.
    apply (create_submission_interleaved_ok id payload now db u ar);
      try done.
    intros k r Hk Hp Hnum. unfold id in Hk.
    pose proof (select_last_attempt_ge _ _ db k r Hk Hp) as Hge. lia.
  - apply create_submission_interleaved_refused.
  - intros payload now db a s Hn Hno. rewrite create_submission_alone.
    by apply (create_submission_interleaved_refused id).
  - intros others payload now db a s Hn.
    rewrite create_submission_interleaved_eq, get_conn_insert_attempt.
    by rewrite (bool_decide_eq_false_2 _ Hn).
Qed.

(** On the seeded database: student 4 is enrolled in class 1, which owns
    assignment 2; student 5 is enrolled in class 2 only. *)
Lemma create_submission_eligibility_witness :
  (∃ sid row,
      Main.create_submission (Scenario.submit 2 4) Scenario.now Scenario.seeded
      = (with_Submissions (<[sid := row]> (Submissions Scenario.seeded))
           Scenario.seeded, inr (Some (sid, row)))
      ∧ Submissions Scenario.seeded !! sid = None
      ∧ of_pair 2 4 row
      ∧ s_attempt_number row = select_last_attempt 2 4 Scenario.seeded + 1)
  ∧ Main.create_submission (Scenario.submit 1 5) Scenario.now Scenario.seeded
    = (Scenario.seeded,
       inl (HTTPException 409
              ("Submission conflict: "
               +:+ "Student must be enrolled in the class for this assignment"))).
Proof.
  split.
  - apply (proj1 (proj2 create_submission_eligibility) (Scenario.submit 2 4)
             Scenario.now Scenario.seeded
             {| u_email := "student2@example.com";
                u_full_name := "Diana Learner"; u_role := student;
                u_created_at := Scenario.now |}
             {| a_class_id := 1; a_title := "Assignment 2";
                a_description := Some "Implement bubble sort in any language";
                a_due_at := "2025-09-10 23:59:00";
                a_created_at := Scenario.now |}).
    + apply (bool_decide_eq_true_1 _). vm_compute. reflexivity.
    + vm_compute. reflexivity.
    + reflexivity.
    + vm_compute. reflexivity.
    + vm_compute. eauto.
  - apply (proj1 (proj2 (proj2 (proj2 create_submission_eligibility)))
             (Scenario.submit 1 5) Scenario.now Scenario.seeded).
    + apply (bool_decide_eq_true_1 _). vm_compute. reflexivity.
    + intros ar Har. vm_compute in Har. injection Har as <-.
      vm_compute. reflexivity.
Defined.

(** C4 as claimed fails under concurrency: student 4 has role student and
    is enrolled in class 1, which owns assignment 2, before and after a
    rival request for the same pair commits; the request that read the
    maximum before that commit is refused. *)
Lemma create_submission_enrolled_refused_counterexample :
  let payload := Scenario.submit 2 4 in
  let committed := Scenario.rival payload Scenario.seeded in
  u_role <$> Users Scenario.seeded !! 4 = Some student
  ∧ a_class_id <$> Assignments Scenario.seeded !! 2 = Some 1
  ∧ Enrollments Scenario.seeded !! (4, 1) = Some Scenario.now
  ∧ u_role <$> Users committed !! 4 = Some student
  ∧ a_class_id <$> Assignments committed !! 2 = Some 1
  ∧ Enrollments committed !! (4, 1) = Some Scenario.now
  ∧ Main.create_submission_interleaved (Scenario.rival payload) payload
      Scenario.now Scenario.seeded
    = (committed,
       inl (HTTPException 409
              "Submission conflict: UNIQUE constraint failed: Submissions.assignment_id, Submissions.student_id, Submissions.attempt_number"))
  ∧ Submissions committed = Submissions
      (Main.create_submission_interleaved (Scenario.rival payload) payload
         Scenario.now Scenario.seeded).1.
Proof. vm_compute. repeat split; reflexivity. Qed.

(** ** Deleting a user: RESTRICT on authored announcements, CASCADE elsewhere *)

Lemma delete_Users_restricted db uid :
  is_Some (Users db !! uid) →
  (∃ k an, Announcements db !! k = Some an ∧ an_author_id an = uid) →
  delete_Users uid db = inl (IntegrityError ForeignKeyFailed).
Proof.
  intros [u Hu] Han. unfold delete_Users. rewrite Hu.
  rewrite bool_decide_eq_true_2; [done|]. by apply map_Exists_lookup.
Qed.

Lemma delete_Users_cascades db uid :
  is_Some (Users db !! uid) →
  (∀ k an, Announcements db !! k = Some an → an_author_id an ≠ uid) →
  delete_Users uid db
  = inr (1,
      cascade_Submissions (λ _ s, bool_decide (s_student_id s = uid))
        (with_Enrollments (filter (λ kr, kr.1.1 ≠ uid) (Enrollments db))
        (with_TeacherClass (filter (λ p, p.1 ≠ uid) (TeacherClass db))
        (with_Users (delete uid (Users db)) db)))).
Proof.
  intros [u Hu] Hno. unfold delete_Users. rewrite Hu.
  rewrite bool_decide_eq_false_2; [done|].
  intros (k & an & Hk & Ha)%map_Exists_lookup. by apply (Hno k an).
Qed.

Lemma delete_announcement_db id db :
  (Main.delete_announcement id db).1
  = with_Announcements (delete id (Announcements db)) db.
Proof.
  unfold Main.delete_announcement, delete_Announcements. tx_unfold.
  destruct (Announcements db !! id) as [an|] eqn:Hid; simpl.
  - done.
  - rewrite delete_id by done. by destruct db.
Qed.

Lemma delete_announcements_db ids db :
  delete_announcements ids db
  = with_Announcements (foldl (λ m id, delete id m) (Announcements db) ids) db.
Proof.
  unfold delete_announcements. revert db.
  induction ids as [|id ids IH]; intros db; simpl.
  - by destruct db.
  - by rewrite IH, delete_announcement_db.
Qed.

Lemma foldl_delete_lookup {A} (ids : list Z) (m : gmap Z A) k :
  foldl (λ m id, delete id m) m ids !! k
  = if decide (k ∈ ids) then None else m !! k.
Proof.
  revert m. induction ids as [|id ids IH]; intros m.
  - case_decide as Hin; [|done]. by apply elem_of_nil in Hin.
  - cbn [foldl]. rewrite IH.
    destruct (decide (k ∈ ids)) as [Hin|Hnin];
      destruct (decide (k ∈ id :: ids)) as [Hin'|Hnin']; try done.
    + destruct Hnin'. by apply list_elem_of_further.
    + apply elem_of_cons in Hin' as [->|?]; [|done]. apply lookup_delete_eq.
    + apply lookup_delete_ne. intros ->. apply Hnin', list_elem_of_here.
Qed.

Lemma elem_of_authored_by uid db k :
  k ∈ authored_by uid db ↔
  ∃ an, Announcements db !! k = Some an ∧ an_author_id an = uid.
Proof.
  unfold authored_by. rewrite list_elem_of_fmap. split.
  - intros ([k' an] & -> & Hin). exists an.
    by apply elem_of_map_to_list, map_lookup_filter_Some in Hin.
  - intros (an & Hk & Ha). exists (k, an). split; [done|].
    by apply elem_of_map_to_list, map_lookup_filter_Some.
Qed.

(** C5: DELETE /users/{id} for an existing user who authored an
    announcement fails with the foreign-key error of ON DELETE RESTRICT and
    changes nothing.  For an existing user without authored announcements
    (in particular once those announcements have been deleted one by one)
    it succeeds: the user row is gone, and so are exactly the Enrollments
    and TeacherClass rows of that user. *)
Theorem delete_user_restrict_then_cascade :
  (∀ db uid,
      is_Some (Users db !! uid) →
      (∃ k an, Announcements db !! k = Some an ∧ an_author_id an = uid) →
      Main.delete_user uid db = (db, inl (IntegrityError ForeignKeyFailed))
      ∧ Crud.delete_user uid db = (db, inl (IntegrityError ForeignKeyFailed)))
  ∧ (∀ db uid,
      is_Some (Users db !! uid) →
      (∀ k an, Announcements db !! k = Some an → an_author_id an ≠ uid) →
      ∃ db',
        Main.delete_user uid db = (db', inr tt)
        ∧ Crud.delete_user uid db = (db', inr 1)
        ∧ Users db' = delete uid (Users db)
        ∧ (∀ u c, Enrollments db' !! (u, c)
                  = if decide (u = uid) then None else Enrollments db !! (u, c))
        ∧ (∀ u c, (u, c) ∈ TeacherClass db' ↔
                  (u, c) ∈ TeacherClass db ∧ u ≠ uid))
  ∧ (∀ db uid,
      is_Some (Users db !! uid) →
      let db1 := delete_announcements (authored_by uid db) db in
      is_Some (Users db1 !! uid)
      ∧ (∀ k an, Announcements db1 !! k = Some an → an_author_id an ≠ uid)
      ∧ ∃ db', Main.delete_user uid db1 = (db', inr tt)).
Proof.
  split; [|split].
  - intros db uid Hu Han.
    unfold Main.delete_user, Crud.delete_user. tx_unfold.
    by rewrite (delete_Users_restricted _ _ Hu Han).
  - intros db uid Hu Hno. eexists.
    unfold Main.delete_user, Crud.delete_user. tx_unfold.
    rewrite (delete_Users_cascades _ _ Hu Hno). db_simpl.
    split; [done|]. split; [done|]. split; [done|]. split.
    + intros u c. db_simpl. destruct (decide (u = uid)) as [->|Hne].
      * apply map_lookup_filter_None. right. intros x _. simpl. tauto.
      * destruct (Enrollments db !! (u, c)) as [x|] eqn:He.
        -- by apply map_lookup_filter_Some.
        -- apply map_lookup_filter_None. left. done.
    + intros u c. db_simpl. rewrite elem_of_filter. simpl. tauto.
  - intros db uid Hu db1.
    assert (Husers : Users db1 = Users db)
      by (unfold db1; by rewrite delete_announcements_db).
    assert (Hno : ∀ k an, Announcements db1 !! k = Some an →
                          an_author_id an ≠ uid).
    { intros k an. unfold db1. rewrite delete_announcements_db. db_simpl.
      rewrite foldl_delete_lookup. case_decide as Hin; [done|].
      intros Hk Ha. apply Hin, elem_of_authored_by. eauto. }
    rewrite Husers. split; [done|]. split; [done|]. eexists.
    unfold Main.delete_user. tx_unfold.
    rewrite (delete_Users_cascades db1 uid); [done| |done].
    by rewrite Husers.
Qed.

(** On the seeded database: teacher 1 authored announcement 1 and cannot be
    deleted until it is removed; student 3 authored nothing. *)
Lemma delete_user_restrict_then_cascade_witness :
  Main.delete_user 1 Scenario.seeded
  = (Scenario.seeded, inl (IntegrityError ForeignKeyFailed))
  ∧ (∃ db', Main.delete_user 3 Scenario.seeded = (db', inr tt)
            ∧ Users db' !! 3 = None
            ∧ Enrollments db' !! (3, 1) = None
            ∧ Enrollments db' !! (4, 1) = Some Scenario.now)
  ∧ (∃ db', Main.delete_user 1
              (delete_announcements (authored_by 1 Scenario.seeded)
                                    Scenario.seeded)
            = (db', inr tt)).
Proof.
  split; [|split].
  - assert (Hu : is_Some (Users Scenario.seeded !! 1)) by (vm_compute; eauto).
    assert (Han : ∃ k an, Announcements Scenario.seeded !! k = Some an
                          ∧ an_author_id an = 1).
    { exists 1, {| an_class_id := 1; an_author_id := 1;
                   an_title := "Welcome to CS101";
                   an_body := "Please install Python before the next class.";
                   an_posted_at := Scenario.now |}.
      vm_compute. done. }
    exact (proj1 (proj1 delete_user_restrict_then_cascade
                    Scenario.seeded 1 Hu Han)).
  - assert (Hu : is_Some (Users Scenario.seeded !! 3)) by (vm_compute; eauto).
    assert (Hno : ∀ k an, Announcements Scenario.seeded !! k = Some an →
                          an_author_id an ≠ 3).
    { apply (bool_decide_eq_true_1
               (map_Forall (λ _ an, an_author_id an ≠ 3)
                           (Announcements Scenario.seeded))).
      vm_compute. reflexivity. }
    pose proof (proj1 (proj2 delete_user_restrict_then_cascade)
                  Scenario.seeded 3 Hu Hno) as (db' & Hd & _ & Hus & He & _).
    exists db'. split; [exact Hd|]. rewrite Hus, (He 3 1), (He 4 1).
    clear. vm_compute. repeat split; reflexivity.
  - assert (Hu : is_Some (Users Scenario.seeded !! 1)) by (vm_compute; eauto).
    exact (proj2 (proj2 (proj2 (proj2 delete_user_restrict_then_cascade)
                                Scenario.seeded 1 Hu))).
Defined.

(** ** Cascades *)

Lemma cascade_Submissions_lookup gone db k s :
  Submissions (cascade_Submissions gone db) !! k = Some s ↔
  Submissions db !! k = Some s ∧ gone k s = false.
Proof.
  db_simpl. rewrite map_lookup_filter_Some. simpl.
  by rewrite Is_true_false.
Qed.

Lemma cascade_Submissions_attachments gone db k att :
  SubmissionAttachments (cascade_Submissions gone db) !! k = Some att ↔
  SubmissionAttachments db !! k = Some att
  ∧ ¬ ∃ s, Submissions db !! at_submission_id att = Some s
           ∧ gone (at_submission_id att) s = true.
Proof.
  db_simpl. rewrite map_lookup_filter_Some. simpl.
  apply and_iff_compat_l, not_iff_compat. unfold is_Some.
  setoid_rewrite map_lookup_filter_Some. simpl.
  by setoid_rewrite Is_true_true.
Qed.

Lemma cascade_Assignments_lookup gone db k a :
  Assignments (cascade_Assignments gone db) !! k = Some a ↔
  Assignments db !! k = Some a ∧ gone k a = false.
Proof.
  db_simpl. rewrite map_lookup_filter_Some. simpl.
  by rewrite Is_true_false.
Qed.

Lemma cascade_Assignments_submissions gone db k s :
  Submissions (cascade_Assignments gone db) !! k = Some s ↔
  Submissions db !! k = Some s
  ∧ ¬ ∃ a, Assignments db !! s_assignment_id s = Some a
           ∧ gone (s_assignment_id s) a = true.
Proof.
  unfold cascade_Assignments. rewrite cascade_Submissions_lookup. db_simpl.
  apply and_iff_compat_l. rewrite bool_decide_eq_false.
  apply not_iff_compat. unfold is_Some.
  setoid_rewrite map_lookup_filter_Some. simpl.
  by setoid_rewrite Is_true_true.
Qed.

Lemma cascade_Assignments_attachments gone db k att :
  SubmissionAttachments (cascade_Assignments gone db) !! k = Some att ↔
  SubmissionAttachments db !! k = Some att
  ∧ ¬ ∃ s a, Submissions db !! at_submission_id att = Some s
             ∧ Assignments db !! s_assignment_id s = Some a
             ∧ gone (s_assignment_id s) a = true.
Proof.
  unfold cascade_Assignments. rewrite cascade_Submissions_attachments.
  db_simpl. apply and_iff_compat_l, not_iff_compat. split.
  - intros (s & Hs & Hg). exists s.
    apply bool_decide_eq_true in Hg as [a Ha].
    apply map_lookup_filter_Some in Ha as [Ha Hgone]. simpl in Hgone.
    exists a. by rewrite <- Is_true_true.
  - intros (s & a & Hs & Ha & Hg). exists s. split; [done|].
    apply bool_decide_eq_true. exists a.
    apply map_lookup_filter_Some. split; [done|]. simpl.
    by apply Is_true_true.
Qed.

Lemma delete_Classes_existing db cid :
  is_Some (Classes db !! cid) →
  delete_Classes cid db
  = inr (1,
      with_Announcements
        (filter (λ kr, an_class_id kr.2 ≠ cid) (Announcements db))
        (cascade_Assignments (λ _ a, bool_decide (a_class_id a = cid))
        (with_Enrollments (filter (λ kr, kr.1.2 ≠ cid) (Enrollments db))
        (with_TeacherClass (filter (λ p, p.2 ≠ cid) (TeacherClass db))
        (with_Classes (delete cid (Classes db)) db))))).
Proof. intros [c Hc]. unfold delete_Classes. by rewrite Hc. Qed.

(** C6: DELETE /classes/{id} on an existing class removes, in the one
    statement it commits, the class, its assignments, the submissions of
    those assignments, the attachments of those submissions, and the
    Enrollments, TeacherClass and Announcements rows of the class; every
    other row of every table is kept as it was. *)
Theorem delete_class_cascade :
  ∀ db cid,
    is_Some (Classes db !! cid) →
    ∃ db',
      Main.delete_class cid db = (db', inr tt)
      ∧ Classes db' = delete cid (Classes db)
      ∧ Users db' = Users db
      ∧ (∀ k a, Assignments db' !! k = Some a ↔
                Assignments db !! k = Some a ∧ a_class_id a ≠ cid)
      ∧ (∀ k s, Submissions db' !! k = Some s ↔
                Submissions db !! k = Some s
                ∧ ¬ ∃ a, Assignments db !! s_assignment_id s = Some a
                         ∧ a_class_id a = cid)
      ∧ (∀ k att, SubmissionAttachments db' !! k = Some att ↔
                  SubmissionAttachments db !! k = Some att
                  ∧ ¬ ∃ s a, Submissions db !! at_submission_id att = Some s
                             ∧ Assignments db !! s_assignment_id s = Some a
                             ∧ a_class_id a = cid)
      ∧ (∀ u c, Enrollments db' !! (u, c)
                = if decide (c = cid) then None else Enrollments db !! (u, c))
      ∧ (∀ t c, (t, c) ∈ TeacherClass db' ↔
                (t, c) ∈ TeacherClass db ∧ c ≠ cid)
      ∧ (∀ k an, Announcements db' !! k = Some an ↔
                 Announcements db !! k = Some an ∧ an_class_id an ≠ cid).
Proof.
  intros db cid Hc. eexists.
  split.
  { unfold Main.delete_class. tx_unfold.
    rewrite (delete_Classes_existing _ _ Hc). simpl. reflexivity. }
  split; [done|]. split; [done|].
  split; [|split; [|split; [|split; [|split]]]].
  - intros k a.
    change (Assignments (with_Announcements ?t ?d)) with (Assignments d).
    rewrite cascade_Assignments_lookup. by rewrite bool_decide_eq_false.
  - intros k s.
    change (Submissions (with_Announcements ?t ?d)) with (Submissions d).
    rewrite cascade_Assignments_submissions. db_simpl.
    by setoid_rewrite bool_decide_eq_true.
  - intros k att.
    change (SubmissionAttachments (with_Announcements ?t ?d))
      with (SubmissionAttachments d).
    rewrite cascade_Assignments_attachments. db_simpl.
    by setoid_rewrite bool_decide_eq_true.
  - intros u c. db_simpl. destruct (decide (c = cid)) as [->|Hne].
    + apply map_lookup_filter_None. right. intros x _. simpl. tauto.
    + destruct (Enrollments db !! (u, c)) as [x|] eqn:He.
      * by apply map_lookup_filter_Some.
      * apply map_lookup_filter_None. by left.
  - intros t c. db_simpl. rewrite elem_of_filter. simpl. tauto.
  - intros k an. db_simpl. by rewrite map_lookup_filter_Some.
Qed.

(** Class 1 of the seeded database: assignments 1 and 2, their submissions
    1 to 3 with attachments 1 to 3 go; assignment 3 of class 2, submission 4
    and attachment 4 stay. *)
Lemma delete_class_cascade_witness :
  ∃ db',
    Main.delete_class 1 Scenario.seeded = (db', inr tt)
    ∧ Classes db' !! 1 = None
    ∧ dom (Assignments db') = {[ 3 ]}
    ∧ dom (Submissions db') = {[ 4 ]}
    ∧ dom (SubmissionAttachments db') = {[ 4 ]}
    ∧ dom (Enrollments db') = {[ (5, 2); (3, 2) ]}
    ∧ TeacherClass db' = {[ (2, 2); (1, 2) ]}.
Proof.
  assert (Hc : is_Some (Classes Scenario.seeded !! 1))
    by (vm_compute; eauto).
  pose proof (delete_class_cascade Scenario.seeded 1 Hc)
    as (db' & Hd & _).
  exists db'. split; [exact Hd|].
  assert (Hdb : db' = (Main.delete_class 1 Scenario.seeded).1)
    by (by rewrite Hd).
  rewrite Hdb. clear. vm_compute. repeat split; reflexivity.
Defined.

(** ** What the delete functions return *)




(** ** managementCrud.create_submission: the caller's attempt number *)

Lemma crud_create_submission_eq a s n g f now db :
  Crud.create_submission a s n g f now db =
  match insert_Submissions a s n g f now db with
  | inr (sid, db') => (db', inr sid)
  | inl e => (db, inl e)
  end.
Proof.
  unfold Crud.create_submission. tx_unfold.
  by destruct (insert_Submissions _ _ _ _ _ _ _) as [|[]].
Qed.

(** C9, as the code has it.  [managementCrud.create_submission] inserts the
    attempt number it is given and does no sequencing.  When the pair
    already has a submission with attempt number 1 and the function is
    called with its default, the call fails with an IntegrityError and
    inserts nothing.  Triggers run before the constraint checks, so the
    error is the ABORT of [trg_submissions_student_enrolled] when that
    trigger fires, else the ABORT of [trg_submissions_student_role] when
    that one fires, and the uniqueness violation when neither fires (the
    student still has role student and is still enrolled in the class of
    the assignment). *)
Theorem crud_create_submission_duplicate :
  (∀ db a s n g f now sid db',
      Crud.create_submission a s n g f now db = (db', inr sid) →
      Submissions db' !! sid
      = Some {| s_assignment_id := a; s_student_id := s;
                s_attempt_number := n; s_submitted_at := now;
                s_grade := g ≫= REAL; s_feedback := f |})
  ∧ (∀ db a s g f now,
      (∃ k r, Submissions db !! k = Some r ∧ of_pair a s r
              ∧ s_attempt_number r = Crud.attempt_number_default) →
      let failure c :=
        Crud.create_submission a s Crud.attempt_number_default g f now db
        = (db, inl (IntegrityError c)) in
      (trg_submissions_student_enrolled db a s = true →
       failure (TriggerAbort
                  "Student must be enrolled in the class for this assignment"))
      ∧ (trg_submissions_student_enrolled db a s = false →
         trg_submissions_student_role db s = true →
         failure (TriggerAbort
                    "Submissions.student_id must reference a user with role=student"))
      ∧ (trg_submissions_student_enrolled db a s = false →
         trg_submissions_student_role db s = false →
         failure (UniqueFailed
                    "Submissions.assignment_id, Submissions.student_id, Submissions.attempt_number"))).
Proof.
  split.
  - intros db a s n g f now sid db'. rewrite crud_create_submission_eq.
    destruct (insert_Submissions _ _ _ _ _ _ _) as [e|[sid1 db1]] eqn:Hins;
      [done|].
    intros [= <- <-].
    apply insert_Submissions_inr in Hins as (_ & _ & _ & _ & _ & -> & ->).
    db_simpl. apply lookup_insert_eq.
  - intros db a s g f now (k & r & Hk & [Ha Hs] & Hn) failure.
    subst failure. cbv beta.
    rewrite crud_create_submission_eq. unfold insert_Submissions.
    split; [|split].
    + by intros ->.
    + by intros -> ->.
    + intros -> ->. rewrite bool_decide_eq_true_2; [done|].
      apply map_Exists_lookup. by exists k, r.
Qed.

(** Student 3 of the seeded database already has attempt 1 for
    assignment 1 and is enrolled in its class. *)
Lemma crud_create_submission_duplicate_witness :
  Crud.create_submission 1 3 Crud.attempt_number_default None None
    Scenario.now Scenario.seeded
  = (Scenario.seeded, inl (IntegrityError (UniqueFailed uq_submissions))).
Proof.
  assert (Hex : ∃ k r, Submissions Scenario.seeded !! k = Some r
                       ∧ of_pair 1 3 r
                       ∧ s_attempt_number r = Crud.attempt_number_default).
  { exists 1, {| s_assignment_id := 1; s_student_id := 3;
                 s_attempt_number := 1; s_submitted_at := Scenario.now;
                 s_grade := Some 90%float;
                 s_feedback := Some "Excellent work" |}.
    vm_compute. repeat split; reflexivity. }
  apply (proj2 (proj2 (proj2 crud_create_submission_duplicate
                         Scenario.seeded 1 3 None None Scenario.now Hex))).
  - vm_compute. reflexivity.
  - vm_compute. reflexivity.
Defined.

(** C9 as claimed fails once student 3 has been unenrolled from class 1:
    attempt 1 for assignment 1 is still stored, and the call is refused by
    [trg_submissions_student_enrolled], not by the uniqueness constraint. *)
Lemma crud_create_submission_duplicate_counterexample :
  (∃ r, Submissions Scenario.unenrolled !! 1 = Some r ∧ of_pair 1 3 r
        ∧ s_attempt_number r = 1)
  ∧ Crud.create_submission 1 3 Crud.attempt_number_default None None
      Scenario.now Scenario.unenrolled
    = (Scenario.unenrolled,
       inl (IntegrityError
              (TriggerAbort
                 "Student must be enrolled in the class for this assignment")))
  ∧ Crud.create_submission 1 3 Crud.attempt_number_default None None
      Scenario.now Scenario.unenrolled
    ≠ (Scenario.unenrolled,
       inl (IntegrityError (UniqueFailed uq_submissions))).
Proof.
  split; [|split].
  - eexists. vm_compute. repeat split; reflexivity.
  - vm_compute. reflexivity.
  - vm_compute. discriminate.
Qed.

(** ** The role of a teacher after assignment *)

(** Case analysis on a statement that succeeded. *)
Ltac effect_cases H :=
  unfold changed in H; repeat case_match; simplify_eq.

Lemma trg_teacherclass_teacher_role_false db t :
  trg_teacherclass_teacher_role db t = false →
  is_Some (Users db !! t) →
  u_role <$> Users db !! t = Some teacher.
Proof.
  unfold trg_teacherclass_teacher_role, sql_ne, when_true.
  intros Htrg [u Hu]. rewrite Hu in *. simpl in *.
  apply bool_decide_eq_false in Htrg. f_equal.
  by destruct (decide (u_role u = teacher)).
Qed.

(** The invariant is established by the trigger on TeacherClass and kept by
    every statement except an UPDATE of Users that sets the role. *)
Lemma teacherclass_teacher_role_kept q db db' :
  effect q db = Some db' → ¬ sets_role q →
  teacherclass_teacher_role db → teacherclass_teacher_role db'.
Proof.
  unfold teacherclass_teacher_role.
  intros Hq Hnot Hinv [t c] Hin; simpl.
  destruct q; simpl in Hq.
  - unfold insert_Users in Hq. effect_cases Hq. db_simpl. db_simpl in Hin.
    specialize (Hinv _ Hin). simpl in Hinv.
    rewrite lookup_insert_ne; [done|]. intros <-.
    by rewrite new_rowid_fresh in Hinv.
  - unfold insert_Classes in Hq. effect_cases Hq. by apply (Hinv (t, c)).
  - unfold insert_TeacherClass, parent_exists in Hq. effect_cases Hq.
    db_simpl. db_simpl in Hin.
    apply elem_of_union in Hin as [Hnew%elem_of_singleton|Hold].
    + simplify_eq. apply trg_teacherclass_teacher_role_false; [done|].
      match goal with H : negb _ = false |- _ =>
        apply negb_false_iff, andb_true_iff in H as [H _];
        by apply bool_decide_eq_true in H end.
    + by apply (Hinv (t, c)).
  - unfold insert_Enrollments in Hq. effect_cases Hq. by apply (Hinv (t, c)).
  - unfold insert_Assignments in Hq. effect_cases Hq. by apply (Hinv (t, c)).
  - unfold insert_Submissions in Hq. effect_cases Hq. by apply (Hinv (t, c)).
  - unfold insert_SubmissionAttachments in Hq. effect_cases Hq.
    by apply (Hinv (t, c)).
  - unfold insert_Announcements in Hq. effect_cases Hq.
    by apply (Hinv (t, c)).
  - destruct role as [role|]; [by destruct Hnot|].
    unfold update_Users in Hq. effect_cases Hq; try by apply (Hinv (t, c)).
    all: db_simpl; db_simpl in Hin; specialize (Hinv _ Hin); simpl in Hinv.
    all: destruct (decide (t = id)) as [->|Hne];
      [|by rewrite lookup_insert_ne].
    all: rewrite lookup_insert_eq;
      match goal with H : Users _ !! _ = Some _ |- _ => rewrite H in Hinv end;
      unfold assigned; simpl in *; congruence.
  - unfold update_Classes in Hq. effect_cases Hq; by apply (Hinv (t, c)).
  - unfold update_Assignments in Hq. effect_cases Hq; by apply (Hinv (t, c)).
  - unfold update_Submissions in Hq. effect_cases Hq; by apply (Hinv (t, c)).
  - unfold delete_Users in Hq. effect_cases Hq; try by apply (Hinv (t, c)).
    db_simpl. db_simpl in Hin. apply elem_of_filter in Hin as [Hne Hin].
    simpl in Hne. rewrite lookup_delete_ne by done. by apply (Hinv (t, c)).
  - unfold delete_Classes in Hq. effect_cases Hq; try by apply (Hinv (t, c)).
    db_simpl. db_simpl in Hin. apply elem_of_filter in Hin as [_ Hin].
    by apply (Hinv (t, c)).
  - unfold delete_Assignments in Hq. effect_cases Hq; by apply (Hinv (t, c)).
  - unfold delete_Submissions in Hq. effect_cases Hq; by apply (Hinv (t, c)).
  - unfold delete_Enrollments in Hq. effect_cases Hq; by apply (Hinv (t, c)).
  - unfold delete_TeacherClass in Hq. effect_cases Hq;
      try by apply (Hinv (t, c)).
    db_simpl. db_simpl in Hin. apply elem_of_difference in Hin as [Hin _].
    by apply (Hinv (t, c)).
  - unfold delete_SubmissionAttachments in Hq. effect_cases Hq;
      by apply (Hinv (t, c)).
  - unfold delete_Announcements in Hq. effect_cases Hq; by apply (Hinv (t, c)).
Qed.

(** Only a role update can break the invariant: every other route of
    main.py and every other function of managementCrud.py keeps it. *)
Lemma teacherclass_teacher_role_calls db :
  teacherclass_teacher_role db →
  (∀ r, ¬ patches_role r → teacherclass_teacher_role (Main.handle r db).1)
  ∧ (∀ i, ¬ updates_role i → teacherclass_teacher_role (Crud.invoke i db).1).
Proof.
  intros Hinv. split.
  - intros r Hr. destruct (handle_statement r db) as [->|(q & Hq & Hrole)];
      [done|].
    apply (teacherclass_teacher_role_kept q db); tauto.
  - intros i Hi. destruct (invoke_statement i db) as [->|(q & Hq & Hrole)];
      [done|].
    apply (teacherclass_teacher_role_kept q db); tauto.
Qed.

Lemma teacherassigne_inr payload db db' row :
  Main.teacherassigne payload db = (db', inr row) →
  u_role <$> Users db !! Main.TeacherClassCreate.teacher_id payload
  = Some teacher.
Proof.
  unfold Main.teacherassigne. tx_unfold.
  destruct (insert_TeacherClass _ _ db) as [[]|[[] db1]] eqn:Hins;
    try done.
  intros _. unfold insert_TeacherClass, parent_exists in Hins.
  repeat case_match; simplify_eq.
  apply trg_teacherclass_teacher_role_false; [done|].
  match goal with H : negb _ = false |- _ =>
    apply negb_false_iff, andb_true_iff in H as [H _];
    by apply bool_decide_eq_true in H end.
Qed.

(** C3, as the code has it.  POST /teacherassigned stores a row only for a
    user whose role is teacher, and once every TeacherClass row references
    a teacher this stays so under every route of main.py and every function
    of managementCrud.py other than an update of a user that sets [role]
    (the trigger guards the INSERT on TeacherClass only). *)
Theorem teacherclass_teacher_role_preserved :
  (∀ payload db db' row,
      Main.teacherassigne payload db = (db', inr row) →
      u_role <$> Users db !! Main.TeacherClassCreate.teacher_id payload
      = Some teacher)
  ∧ (∀ db,
      teacherclass_teacher_role db →
      (∀ r, ¬ patches_role r → teacherclass_teacher_role (Main.handle r db).1)
      ∧ (∀ i, ¬ updates_role i →
              teacherclass_teacher_role (Crud.invoke i db).1)).
Proof.
  split.
  - apply teacherassigne_inr.
  - apply teacherclass_teacher_role_calls.
Qed.

(** Deleting student 3 of the seeded database keeps every TeacherClass row
    on a teacher. *)
Lemma teacherclass_teacher_role_preserved_witness :
  teacherclass_teacher_role Scenario.seeded
  ∧ teacherclass_teacher_role
      (Main.handle (Main.DELETE_users 3) Scenario.seeded).1.
Proof.
  assert (Hinv : teacherclass_teacher_role Scenario.seeded).
  { apply (bool_decide_eq_true_1 _). vm_compute. reflexivity. }
  split; [exact Hinv|].
  apply (proj1 (proj2 teacherclass_teacher_role_preserved
                  Scenario.seeded Hinv) (Main.DELETE_users 3)).
  simpl. tauto.
Defined.

(** C3 as claimed fails: on the seeded database every TeacherClass row
    references a teacher; PATCH /users/1 with role = student succeeds (the
    UPDATE of Users runs no trigger), TeacherClass still holds (1, 1), and
    user 1 is now a student, so the invariant is lost. *)
Lemma update_user_role_counterexample :
  let r := Main.update_user 1 (set_role student) Scenario.seeded in
  teacherclass_teacher_role Scenario.seeded
  ∧ Scenario.succeeded r.2
  ∧ (1, 1) ∈ TeacherClass r.1
  ∧ u_role <$> Users r.1 !! 1 = Some student
  ∧ ¬ teacherclass_teacher_role r.1.
Proof.
  assert (Hin : (1, 1) ∈ TeacherClass
                  (Main.update_user 1 (set_role student) Scenario.seeded).1).
  { apply (bool_decide_eq_true_1 _). vm_compute. reflexivity. }
  assert (Hrole : u_role <$> Users
                    (Main.update_user 1 (set_role student) Scenario.seeded).1
                    !! 1 = Some student)
    by (vm_compute; reflexivity).
  cbv zeta. split; [|split; [|split; [|split]]].
  - apply (bool_decide_eq_true_1 _). vm_compute. reflexivity.
  - vm_compute. exact I.
  - exact Hin.
  - exact Hrole.
  - intros Hinv. specialize (Hinv _ Hin). cbn [fst] in Hinv.
    rewrite Hrole in Hinv. discriminate Hinv.
Qed.

(** ** Foreign keys hold in every reachable database *)

#[local] Set Warnings "-clear-no-such-hyp".

(** Take apart the facts about rows of the new tables. *)
Ltac fk_hyps :=
  repeat match goal with
  | H : <[_ := _]> _ !! _ = Some _ |- _ =>
      apply lookup_insert_Some in H as [[? ?]|[? H]]; simplify_eq
  | H : filter _ _ !! _ = Some _ |- _ =>
      apply map_lookup_filter_Some in H as [H ?]
  | H : delete _ _ !! _ = Some _ |- _ =>
      apply lookup_delete_Some in H as [? H]
  | H : is_Some (_ !! _) |- _ => destruct H as [? H]
  | H : _ ∈ filter _ _ |- _ => apply elem_of_filter in H as [? H]
  | H : _ ∈ _ ∪ _ |- _ => apply elem_of_union in H as [H|H]
  | H : _ ∈ {[ _ ]} |- _ => apply elem_of_singleton in H; simplify_eq
  | H : _ ∈ _ ∖ _ |- _ => apply elem_of_difference in H as [H ?]
  | H : negb _ = false |- _ => apply negb_false_iff in H
  | H : _ && _ = true |- _ => apply andb_true_iff in H as [? ?]
  | H : parent_exists _ _ = true |- _ => apply bool_decide_eq_true in H
  | H : bool_decide _ = true |- _ => apply bool_decide_eq_true in H
  | H : bool_decide _ = false |- _ => apply bool_decide_eq_false in H
  end.

(** Record that a row found by a lookup exists. *)
Ltac fk_wrap :=
  repeat match goal with
  | H : ?m !! ?k = Some ?x |- _ =>
      lazymatch goal with
      | _ : is_Some (m !! k) |- _ => fail
      | _ => pose proof (mk_is_Some _ _ H)
      end
  end.

Ltac fk_goal :=
  rewrite ?lookup_insert_is_Some', ?lookup_delete_is_Some,
    ?lookup_insert_is_Some;
  naive_solver.

(** Statements without a cascade: each foreign key follows from the one
    before the statement and from the checks the statement passed. *)
Ltac fk_step := split; db_simpl; intros; fk_hyps; fk_wrap; fk_goal.

(** A child row that survives a cascade still has its parent: the parent
    existed before, and had it been deleted the child would be gone. *)
Ltac parent_kept x Hx Hkeep :=
  exists x; apply map_lookup_filter_Some; split; [exact Hx|];
  simpl; intros ?; apply Hkeep;
  try apply bool_decide_pack; exists x;
  apply map_lookup_filter_Some; by split.

Lemma fk_consistent_kept q db db' :
  effect q db = Some db' → fk_consistent db → fk_consistent db'.
Proof.
  intros Hq [H1 H2 H3 H4 H5 H6].
  destruct q; simpl in Hq.
  - unfold insert_Users in Hq. effect_cases Hq. fk_step.
  - unfold insert_Classes in Hq. effect_cases Hq. fk_step.
  - unfold insert_TeacherClass in Hq. effect_cases Hq. fk_step.
  - unfold insert_Enrollments in Hq. effect_cases Hq. fk_step.
  - unfold insert_Assignments in Hq. effect_cases Hq. fk_step.
  - unfold insert_Submissions in Hq. effect_cases Hq. fk_step.
  - unfold insert_SubmissionAttachments in Hq. effect_cases Hq. fk_step.
  - unfold insert_Announcements in Hq. effect_cases Hq. fk_step.
  - unfold update_Users in Hq. effect_cases Hq; fk_step.
  - unfold update_Classes in Hq. effect_cases Hq; fk_step.
  - unfold update_Assignments in Hq. effect_cases Hq; fk_step.
  - unfold update_Submissions in Hq. effect_cases Hq; fk_step.
  - unfold delete_Users in Hq. effect_cases Hq; [|done].
    split; db_simpl.
    + intros t c [Hne Hin]%elem_of_filter. simpl in Hne.
      rewrite lookup_delete_is_Some. naive_solver.
    + intros u1 c [x [Hx Hne]%map_lookup_filter_Some]. simpl in Hne.
      rewrite lookup_delete_is_Some. naive_solver.
    + done.
    + intros k s [Hs Hkeep]%map_lookup_filter_Some. simpl in Hkeep.
      rewrite lookup_delete_is_Some.
      apply Is_true_false, bool_decide_eq_false in Hkeep. naive_solver.
    + intros k att [Hatt Hkeep]%map_lookup_filter_Some. simpl in Hkeep.
      destruct (H5 _ _ Hatt) as [s Hs]. parent_kept s Hs Hkeep.
    + intros k an Han. rewrite lookup_delete_is_Some.
      destruct (H6 _ _ Han) as [? ?]. repeat split; [done| |done].
      intros ->. match goal with H : bool_decide _ = false |- _ =>
        apply bool_decide_eq_false in H; apply H end.
      apply map_Exists_lookup. eauto.
  - unfold delete_Classes in Hq. effect_cases Hq; [|done].
    split; db_simpl.
    + intros t c1 [Hne Hin]%elem_of_filter. simpl in Hne.
      rewrite lookup_delete_is_Some. naive_solver.
    + intros u1 c1 [x [Hx Hne]%map_lookup_filter_Some]. simpl in Hne.
      rewrite lookup_delete_is_Some. naive_solver.
    + intros k a [Ha Hkeep]%map_lookup_filter_Some. simpl in Hkeep.
      rewrite lookup_delete_is_Some.
      apply Is_true_false, bool_decide_eq_false in Hkeep. naive_solver.
    + intros k s [Hs Hkeep]%map_lookup_filter_Some. simpl in Hkeep.
      destruct (H4 _ _ Hs) as [[a Ha] Hu]. split; [|done].
      parent_kept a Ha Hkeep.
    + intros k att [Hatt Hkeep]%map_lookup_filter_Some. simpl in Hkeep.
      destruct (H5 _ _ Hatt) as [s Hs]. parent_kept s Hs Hkeep.
    + intros k an [Han Hne]%map_lookup_filter_Some. simpl in Hne.
      rewrite lookup_delete_is_Some. naive_solver.
  - unfold delete_Assignments in Hq. effect_cases Hq; [|done].
    split; db_simpl; try done.
    + intros k a1 [Ha _]%map_lookup_filter_Some. eauto.
    + intros k s [Hs Hkeep]%map_lookup_filter_Some. simpl in Hkeep.
      destruct (H4 _ _ Hs) as [[a' Ha] Hu]. split; [|done].
      parent_kept a' Ha Hkeep.
    + intros k att [Hatt Hkeep]%map_lookup_filter_Some. simpl in Hkeep.
      destruct (H5 _ _ Hatt) as [s Hs]. parent_kept s Hs Hkeep.
  - unfold delete_Submissions in Hq. effect_cases Hq; [|done].
    split; db_simpl; try done.
    + intros k s1 [Hs _]%map_lookup_filter_Some. eauto.
    + intros k att [Hatt Hkeep]%map_lookup_filter_Some. simpl in Hkeep.
      destruct (H5 _ _ Hatt) as [s' Hs]. parent_kept s' Hs Hkeep.
  - unfold delete_Enrollments in Hq. effect_cases Hq; fk_step.
  - unfold delete_TeacherClass in Hq. effect_cases Hq; fk_step.
  - unfold delete_SubmissionAttachments in Hq. effect_cases Hq; fk_step.
  - unfold delete_Announcements in Hq. effect_cases Hq; fk_step.
Qed.

Lemma fk_consistent_empty : fk_consistent empty_db.
Proof.
  split; simpl; intros *; rewrite ?lookup_empty; done.
Qed.

Lemma reachable_fk_consistent db : reachable db → fk_consistent db.
Proof.
  induction 1 as [|r db _ IH|i db _ IH].
  - apply fk_consistent_empty.
  - destruct (handle_statement r db) as [->|(q & Hq & _)]; [done|].
    by apply (fk_consistent_kept q db).
  - destruct (invoke_statement i db) as [->|(q & Hq & _)]; [done|].
    by apply (fk_consistent_kept q db).
Qed.

(** The loading steps of the seeded database are calls of the two layers. *)
Lemma reachable_create_user a b c d db :
  reachable db → reachable (Scenario.and_then (Crud.create_user a b c d) db).
Proof. exact (reachable_invoke (Crud.Create_user a b c d) db). Qed.

Lemma reachable_create_class a b c d db :
  reachable db → reachable (Scenario.and_then (Crud.create_class a b c d) db).
Proof. exact (reachable_invoke (Crud.Create_class a b c d) db). Qed.

Lemma reachable_teacherassigne p db :
  reachable db → reachable (Scenario.and_then (Main.teacherassigne p) db).
Proof. exact (reachable_handle (Main.POST_teacherassigned p) db). Qed.

Lemma reachable_enroll_student a b c db :
  reachable db → reachable (Scenario.and_then (Crud.enroll_student a b c) db).
Proof. exact (reachable_invoke (Crud.Enroll_student a b c) db). Qed.

Lemma reachable_create_assignment a b c d e db :
  reachable db → reachable (Scenario.and_then (Crud.create_assignment a b c d e) db).
Proof. exact (reachable_invoke (Crud.Create_assignment a b c d e) db). Qed.

Lemma reachable_create_submission a b c d e f db :
  reachable db → reachable (Scenario.and_then (Crud.create_submission a b c d e f) db).
Proof. exact (reachable_invoke (Crud.Create_submission a b c d e f) db). Qed.

Lemma reachable_add_attachment a b c d db :
  reachable db → reachable (Scenario.and_then (Crud.add_attachment a b c d) db).
Proof. exact (reachable_invoke (Crud.Add_attachment a b c d) db). Qed.

Lemma reachable_create_announcement a b c d e db :
  reachable db → reachable (Scenario.and_then (Crud.create_announcement a b c d e) db).
Proof. exact (reachable_invoke (Crud.Create_announcement a b c d e) db). Qed.

Lemma reachable_seeded : reachable Scenario.seeded.
Proof.
  unfold Scenario.seeded, Scenario.run_all. cbn [foldl].
  repeat match goal with
  | |- reachable empty_db => apply reachable_empty
  | |- reachable (Scenario.and_then (Crud.create_user _ _ _ _) _) =>
      apply reachable_create_user
  | |- reachable (Scenario.and_then (Crud.create_class _ _ _ _) _) =>
      apply reachable_create_class
  | |- reachable (Scenario.and_then (Main.teacherassigne _) _) =>
      apply reachable_teacherassigne
  | |- reachable (Scenario.and_then (Crud.enroll_student _ _ _) _) =>
      apply reachable_enroll_student
  | |- reachable (Scenario.and_then (Crud.create_assignment _ _ _ _ _) _) =>
      apply reachable_create_assignment
  | |- reachable (Scenario.and_then (Crud.create_submission _ _ _ _ _ _) _) =>
      apply reachable_create_submission
  | |- reachable (Scenario.and_then (Crud.add_attachment _ _ _ _) _) =>
      apply reachable_add_attachment
  | |- reachable (Scenario.and_then (Crud.create_announcement _ _ _ _ _) _) =>
      apply reachable_create_announcement
  end.
Qed.

(** ** Enrolling a user that does not exist *)




Import Invariant Query.

(** * Further properties of the handlers *)

(** ** POST /enrollments and DELETE /enrollments *)





Lemma enroll_inr payload now db db' row :
  Main.enroll payload now db = (db', inr row) →
  Enrollments db !! (Main.EnrollmentCreate.user_id payload,
                     Main.EnrollmentCreate.class_id payload) = None
  ∧ db' = with_Enrollments
            (<[(Main.EnrollmentCreate.user_id payload,
                Main.EnrollmentCreate.class_id payload) := now]>
               (Enrollments db)) db
  ∧ row = Some ((Main.EnrollmentCreate.user_id payload,
                 Main.EnrollmentCreate.class_id payload), now).
Proof.
  unfold Main.enroll. tx_unfold.
  destruct (insert_Enrollments _ _ _ db) as [[]|[[] db1]] eqn:Hins; try done.
  intros [= <- <-]. unfold insert_Enrollments in Hins.
  repeat case_match; simplify_eq. db_simpl.
  rewrite lookup_insert_eq. split; [|done].
  match goal with H : bool_decide (is_Some _) = false |- _ =>
    apply bool_decide_eq_false in H; by apply eq_None_not_Some end.
Qed.

(** X2: after a successful POST /enrollments, DELETE /enrollments for the
    same pair gives back exactly the database from before the enrollment,
    where the same DELETE answers 404; repeating the POST instead is
    refused with the UNIQUE message. *)
Theorem enroll_then_unenroll :
  ∀ payload now db db' row,
    Main.enroll payload now db = (db', inr row) →
    let u := Main.EnrollmentCreate.user_id payload in
    let c := Main.EnrollmentCreate.class_id payload in
    Main.unenroll u c db = (db, inl (HTTPException 404 "Enrollment not found"))
    ∧ Main.unenroll u c db' = (db, inr tt)
    ∧ ∀ later,
        Main.enroll payload later db'
        = (db', inl (HTTPException 409
                       ("Enrollment failed: "
                        +:+ "UNIQUE constraint failed: "
                        +:+ "Enrollments.user_id, Enrollments.class_id"))).
Proof.
  intros payload now db db' row Hen u c.
  pose proof Hen as Hok.
  apply enroll_inr in Hen as (Hnone & -> & ->). fold u c in Hnone |- *.
  split; [|split].
  - unfold Main.unenroll. tx_unfold. unfold delete_Enrollments.
    by rewrite Hnone.
  - unfold Main.unenroll. tx_unfold. unfold delete_Enrollments. db_simpl.
    rewrite lookup_insert_eq. db_simpl. simpl.
    rewrite delete_insert_id by done. by destruct db.
  - intros later. unfold Main.enroll. tx_unfold. fold u c.
    unfold insert_Enrollments. db_simpl.
    unfold Main.enroll in Hok. revert Hok. tx_unfold. fold u c.
    unfold insert_Enrollments, trg_enrollments_student_role. db_simpl.
    destruct (when_true _); [done|]. intros _.
    rewrite bool_decide_eq_true_2; [done|].
    rewrite lookup_insert_eq. by eexists.
Qed.

Lemma enroll_then_unenroll_witness :
  let payload := {| Main.EnrollmentCreate.user_id := 4;
                    Main.EnrollmentCreate.class_id := 2 |} in
  let db' := (Main.enroll payload Scenario.now Scenario.seeded).1 in
  Main.unenroll 4 2 Scenario.seeded
  = (Scenario.seeded, inl (HTTPException 404 "Enrollment not found"))
  ∧ Main.unenroll 4 2 db' = (Scenario.seeded, inr tt).
Proof.
  intros payload db'.
  assert (Hen : Main.enroll payload Scenario.now Scenario.seeded
                = (db', inr (Some ((4, 2), Scenario.now))))
    by (vm_compute; reflexivity).
  split.
  - exact (proj1 (enroll_then_unenroll payload Scenario.now Scenario.seeded
                    db' _ Hen)).
  - exact (proj1 (proj2 (enroll_then_unenroll payload Scenario.now
                           Scenario.seeded db' _ Hen))).
Defined.

Lemma unenroll_inr u c db db' :
  Main.unenroll u c db = (db', inr tt) →
  is_Some (Enrollments db !! (u, c))
  ∧ db' = with_Enrollments (delete (u, c) (Enrollments db)) db.
Proof.
  unfold Main.unenroll. tx_unfold. unfold delete_Enrollments.
  destruct (Enrollments db !! (u, c)) as [x|]; simpl; [|done].
  intros [= <-]. eauto.
Qed.

(** X3: a successful DELETE /enrollments keeps the submissions and
    attachments the student made while enrolled, and from then on POST
    /submissions by that student for any assignment of that class fails and
    stores nothing: it is refused with the message of
    [trg_submissions_student_enrolled] (HTTP 409), or, when the next attempt
    number of the pair does not fit an SQLite INTEGER, ends with
    OverflowError before the INSERT runs. *)
Theorem unenroll_ends_eligibility :
  ∀ u c db db',
    Main.unenroll u c db = (db', inr tt) →
    Submissions db' = Submissions db
    ∧ SubmissionAttachments db' = SubmissionAttachments db
    ∧ ∀ payload now ar,
        Main.SubmissionCreate.student_id payload = u →
        Assignments db !! Main.SubmissionCreate.assignment_id payload = Some ar →
        a_class_id ar = c →
        Main.create_submission payload now db'
        = (db',
           inl (if bool_decide
                     (int64 (select_last_attempt
                               (Main.SubmissionCreate.assignment_id payload)
                               u db' + 1))
                then HTTPException 409
                       ("Submission conflict: "
                        +:+ "Student must be enrolled in the class for this assignment")
                else OverflowError
                       "Python int too large to convert to SQLite INTEGER")).
Proof.
  intros u c db db' [_ ->]%unenroll_inr. split; [done|]. split; [done|].
  intros payload now ar Hs Ha Hc.
  rewrite create_submission_alone, create_submission_interleaved_eq,
    get_conn_insert_attempt.
  unfold id. rewrite Hs. case_bool_decide; [|done].
  unfold insert_Submissions.
  rewrite trg_submissions_student_enrolled_true; [done|].
  db_simpl. intros ar'. rewrite Ha. intros [= <-].
  rewrite Hc. apply lookup_delete_eq.
Qed.

Lemma unenroll_ends_eligibility_witness :
  let db' := (Main.unenroll 3 1 Scenario.seeded).1 in
  Submissions db' = Submissions Scenario.seeded
  ∧ Main.create_submission (Scenario.submit 1 3) Scenario.now db'
    = (db', inl (HTTPException 409
                   ("Submission conflict: "
                    +:+ "Student must be enrolled in the class for this assignment"))).
Proof.
  intros db'.
  assert (Hun : Main.unenroll 3 1 Scenario.seeded = (db', inr tt))
    by (vm_compute; reflexivity).
  assert (Hn : bool_decide (int64 (select_last_attempt 1 3 db' + 1)) = true)
    by (vm_compute; reflexivity).
  split.
  - exact (proj1 (unenroll_ends_eligibility 3 1 Scenario.seeded db' Hun)).
  - rewrite (proj2 (proj2 (unenroll_ends_eligibility 3 1 Scenario.seeded db'
                             Hun))
               (Scenario.submit 1 3) Scenario.now
               {| a_class_id := 1; a_title := "Assignment 1";
                  a_description :=
                    Some "Write a Python program for Fibonacci numbers";
                  a_due_at := "2025-09-01 23:59:00";
                  a_created_at := Scenario.now |}
               eq_refl ltac:(vm_compute; reflexivity) eq_refl).
    cbn [Scenario.submit Main.SubmissionCreate.assignment_id].
    by rewrite Hn.
Defined.

(** ** POST /teacherassigned and DELETE /teacherassigned *)





(** ** POST /announcements *)



(** ** POST /users, GET /users/{id}, DELETE /users/{id} *)

Lemma new_rowid_gt {A} (t : gmap Z A) k :
  is_Some (t !! k) → k < new_rowid t.
Proof.
  intros [r Hr]. unfold new_rowid.
  pose proof (fold_max_spec (λ k _, k) t) as Hs.
  destruct (fold_max _ t) as [m|].
  - destruct Hs as [_ Hle]. specialize (Hle _ _ Hr). simpl in Hle. lia.
  - subst t. by rewrite lookup_empty in Hr.
Qed.

(** X6: POST /users with an email some user already has answers 409 and
    changes nothing.  With a free email it stores the row under an id
    larger than every id in use and returns it; GET /users/{id} then returns
    the same row, and a second POST with that email is refused. *)
Theorem create_user_outcomes :
  ∀ user now db,
    let row := {| u_email := Main.UserCreate.email user;
                  u_full_name := Main.UserCreate.full_name user;
                  u_role := Main.UserCreate.role user;
                  u_created_at := now |} in
    let conflict :=
      HTTPException 409
        ("User conflict: " +:+ "UNIQUE constraint failed: Users.email") in
    ((∃ k u, Users db !! k = Some u ∧ u_email u = Main.UserCreate.email user) →
     Main.create_user user now db = (db, inl conflict))
    ∧ ((∀ k u, Users db !! k = Some u →
               u_email u ≠ Main.UserCreate.email user) →
       ∃ id,
         let db' := with_Users (<[id := row]> (Users db)) db in
         (∀ k, is_Some (Users db !! k) → k < id)
         ∧ Main.create_user user now db = (db', inr (Some (id, row)))
         ∧ MainRead.get_user id db' = (db', inr (id, row))
         ∧ ∀ later, Main.create_user user later db' = (db', inl conflict)).
Proof.
  intros user now db row conflict. subst conflict.
  unfold Main.create_user, MainRead.get_user. tx_unfold.
  unfold insert_Users. split.
  - intros (k & u & Hk & Hu). rewrite bool_decide_eq_true_2; [done|].
    apply map_Exists_lookup. eauto.
  - intros Hfree. rewrite bool_decide_eq_false_2.
    2:{ intros (k & u & Hk & Hu)%map_Exists_lookup. by apply (Hfree k u). }
    exists (new_rowid (Users db)). cbv zeta.
    split; [apply new_rowid_gt|]. unfold select_by_id. db_simpl.
    rewrite !lookup_insert_eq. simpl. split; [done|]. split; [done|].
    intros later. rewrite bool_decide_eq_true_2; [done|].
    apply map_Exists_lookup. exists (new_rowid (Users db)), row.
    by rewrite lookup_insert_eq.
Qed.

Lemma create_user_outcomes_witness :
  Main.create_user {| Main.UserCreate.email := "student1@example.com";
                      Main.UserCreate.full_name := "Another Charlie";
                      Main.UserCreate.role := admin |}
    Scenario.now Scenario.seeded
  = (Scenario.seeded,
     inl (HTTPException 409
            ("User conflict: " +:+ "UNIQUE constraint failed: Users.email"))).
Proof.
  refine (proj1 (create_user_outcomes
    {| Main.UserCreate.email := "student1@example.com";
       Main.UserCreate.full_name := "Another Charlie";
       Main.UserCreate.role := admin |} Scenario.now Scenario.seeded) _).
  exists 3, {| u_email := "student1@example.com";
               u_full_name := "Charlie Student"; u_role := student;
               u_created_at := Scenario.now |}.
  split; [vm_compute; reflexivity|reflexivity].
Defined.

Lemma create_user_inr user now db db' id row :
  Main.create_user user now db = (db', inr (Some (id, row))) →
  Users db !! id = None
  ∧ db' = with_Users (<[id := row]> (Users db)) db.
Proof.
  unfold Main.create_user. tx_unfold. unfold insert_Users.
  case_bool_decide; [done|]. unfold select_by_id. db_simpl.
  rewrite lookup_insert_eq. simpl. intros [= <- <- <-].
  split; [apply new_rowid_fresh|done].
Qed.

(** X7: in every database the two layers can produce, creating a user and
    then deleting it gives back exactly the database from before (nothing
    references the new id, so the cascade removes nothing else), where GET
    /users/{id} for that id answers 404. *)
Theorem create_then_delete_user :
  ∀ user now db db' id row,
    reachable db →
    Main.create_user user now db = (db', inr (Some (id, row))) →
    Main.delete_user id db' = (db, inr tt)
    ∧ MainRead.get_user id db
      = (db, inl (HTTPException 404 "User not found")).
Proof.
  intros user now db db' id row Hreach [Hfresh ->]%create_user_inr.
  pose proof (reachable_fk_consistent db Hreach) as [H1 H2 _ H4 _ H6].
  split.
  2:{ unfold MainRead.get_user. tx_unfold. unfold select_by_id.
      by rewrite Hfresh. }
  unfold Main.delete_user. tx_unfold. unfold delete_Users. db_simpl.
  rewrite lookup_insert_eq.
  rewrite bool_decide_eq_false_2.
  2:{ intros (k & an & Hk & Ha)%map_Exists_lookup.
      destruct (H6 _ _ Hk) as [_ [u Hu]]. congruence. }
  unfold cascade_Submissions. db_simpl. simpl.
  rewrite delete_insert_id by done.
  assert (Htc : filter (λ p : Z * Z, p.1 ≠ id) (TeacherClass db)
                = TeacherClass db).
  { apply set_eq. intros [t c]. rewrite elem_of_filter. simpl.
    split; [tauto|]. intros Hin. split; [|done]. intros ->.
    destruct (H1 _ _ Hin) as [[u Hu] _]. congruence. }
  assert (Hen : filter (λ kr : Z * Z * string, kr.1.1 ≠ id) (Enrollments db)
                = Enrollments db).
  { apply map_filter_id. intros [u c] x Hx. simpl. intros ->.
    destruct (H2 id c) as [[u Hu] _]; [by eexists|]. congruence. }
  assert (Hsub : filter (λ kr : Z * Submission,
                           ¬ bool_decide (s_student_id kr.2 = id))
                        (Submissions db) = Submissions db).
  { apply map_filter_id. intros k s Hs. simpl.
    rewrite bool_decide_eq_false_2; [tauto|]. intros Heq.
    destruct (H4 _ _ Hs) as [_ [u Hu]]. congruence. }
  assert (Hatt : filter (λ kr : Z * Attachment,
                   ¬ is_Some (filter (λ kr : Z * Submission,
                                bool_decide (s_student_id kr.2 = id))
                                (Submissions db) !! at_submission_id kr.2))
                   (SubmissionAttachments db) = SubmissionAttachments db).
  { apply map_filter_id. intros k att _. simpl.
    intros [s [Hs Hgone]%map_lookup_filter_Some]. simpl in Hgone.
    apply bool_decide_unpack in Hgone.
    destruct (H4 _ _ Hs) as [_ [u Hu]]. congruence. }
  rewrite Htc, Hen, Hsub, Hatt. by destruct db.
Qed.

Lemma create_then_delete_user_witness :
  let user := {| Main.UserCreate.email := "new@example.com";
                 Main.UserCreate.full_name := "New User";
                 Main.UserCreate.role := student |} in
  let db' := (Main.create_user user Scenario.now Scenario.seeded).1 in
  Main.delete_user 7 db' = (Scenario.seeded, inr tt).
Proof.
  intros user db'.
  refine (proj1 (create_then_delete_user user Scenario.now Scenario.seeded db' 7
                   {| u_email := "new@example.com"; u_full_name := "New User";
                      u_role := student; u_created_at := Scenario.now |}
                   reachable_seeded _)).
  vm_compute. reflexivity.
Defined.

(** ** PATCH /users/{id} *)



(** ** PATCH /classes/{id} and PATCH /assignments/{id}: explicit nulls *)



Lemma update_Assignments_inr id title description due_at db n db' :
  update_Assignments id title description due_at db = inr (n, db') →
  (Assignments db !! id = None ∧ n = 0 ∧ db' = db)
  ∨ ∃ old new,
      Assignments db !! id = Some old ∧ n = 1
      ∧ db' = with_Assignments (<[id := new]> (Assignments db)) db
      ∧ a_class_id new = a_class_id old
      ∧ a_created_at new = a_created_at old.
Proof.
  unfold update_Assignments.
  destruct (Assignments db !! id) as [old|]; [|intros [= <- <-]; by left].
  intros Hup. repeat case_match; simplify_eq. right.
  eexists old, _. split; [done|]. split; [done|]. split; [reflexivity|].
  done.
Qed.

(** X10: PATCH /assignments/{id} has no except clause: an explicit null
    for [title] or [due_at] of an existing assignment leaves the handler as
    the raw IntegrityError (not a 409), with nothing changed.  A PATCH that
    returns a row changed only that assignment, and kept its [class_id] and
    [created_at]. *)
Theorem update_assignment_outcomes :
  ∀ assignment_id patch db,
    let title := Main.AssignmentUpdate.title patch in
    let due_at := Main.AssignmentUpdate.due_at patch in
    (title = Some None → is_Some (Assignments db !! assignment_id) →
     Main.update_assignment assignment_id patch db
     = (db, inl (IntegrityError (NotNullFailed "Assignments.title"))))
    ∧ (title ≠ Some None → due_at = Some None →
       is_Some (Assignments db !! assignment_id) →
       Main.update_assignment assignment_id patch db
       = (db, inl (IntegrityError (NotNullFailed "Assignments.due_at"))))
    ∧ (∀ db' row,
         Main.update_assignment assignment_id patch db = (db', inr row) →
         ∃ old,
           Assignments db !! assignment_id = Some old
           ∧ row.1 = assignment_id
           ∧ a_class_id row.2 = a_class_id old
           ∧ a_created_at row.2 = a_created_at old
           ∧ db' = with_Assignments
                     (<[assignment_id := row.2]> (Assignments db)) db).
Proof.
  intros assignment_id [title description due_at] db. simpl.
  split; [|split].
  - intros -> [a Ha].
    assert (Hup : update_Assignments assignment_id (Some None) description
                    due_at db
                  = inl (IntegrityError (NotNullFailed "Assignments.title")))
      by (unfold update_Assignments; by rewrite Ha).
    unfold Main.update_assignment. simpl. tx_unfold. by rewrite Hup.
  - intros Htitle -> [a Ha].
    assert (Hup : update_Assignments assignment_id title description
                    (Some None) db
                  = inl (IntegrityError (NotNullFailed "Assignments.due_at"))).
    { unfold update_Assignments. rewrite Ha. by destruct title as [[]|]. }
    unfold Main.update_assignment. simpl.
    destruct title, description; tx_unfold; by rewrite Hup.
  - intros db' [k row]. unfold Main.update_assignment. simpl.
    destruct title, description, due_at; try done; tx_unfold;
      match goal with |- context [update_Assignments ?i ?t ?d ?u db] =>
        destruct (update_Assignments i t d u db) as [e|[n db1]] eqn:Hup end;
      try done;
      apply update_Assignments_inr in Hup
        as [(Hnone & -> & ->)|(old & new & Hold & -> & -> & Hc & Ht)];
      unfold select_by_id; db_simpl;
      try (by rewrite Hnone);
      rewrite lookup_insert_eq; simpl; intros [= <- <- <-]; by exists old.
Qed.

Lemma update_assignment_outcomes_witness :
  Main.update_assignment 1 {| Main.AssignmentUpdate.title := Some None;
                              Main.AssignmentUpdate.description := None;
                              Main.AssignmentUpdate.due_at := None |}
    Scenario.seeded
  = (Scenario.seeded, inl (IntegrityError (NotNullFailed "Assignments.title"))).
Proof.
  refine (proj1 (update_assignment_outcomes 1
            {| Main.AssignmentUpdate.title := Some None;
               Main.AssignmentUpdate.description := None;
               Main.AssignmentUpdate.due_at := None |} Scenario.seeded)
            eq_refl _).
  apply (bool_decide_eq_true_1 _). vm_compute. reflexivity.
Defined.

(** ** Grading *)

(** The last attempt of a pair depends only on the attempt numbers stored
    for the pair. *)
Lemma select_last_attempt_ext a s db1 db2 :
  (∀ n, (∃ k r, Submissions db1 !! k = Some r ∧ of_pair a s r
                ∧ s_attempt_number r = n)
        ↔ (∃ k r, Submissions db2 !! k = Some r ∧ of_pair a s r
                  ∧ s_attempt_number r = n)) →
  select_last_attempt a s db1 = select_last_attempt a s db2.
Proof.
  intros Hsame.
  pose proof (select_last_attempt_ge a s db1) as Hge1.
  pose proof (select_last_attempt_ge a s db2) as Hge2.
  destruct (select_last_attempt_cases a s db1)
    as [(k1 & r1 & Hk1 & Hp1 & Hn1)|[Hz1 Hno1]];
  destruct (select_last_attempt_cases a s db2)
    as [(k2 & r2 & Hk2 & Hp2 & Hn2)|[Hz2 Hno2]].
  - destruct (proj1 (Hsame _) (ex_intro _ k1 (ex_intro _ r1
      (conj Hk1 (conj Hp1 eq_refl))))) as (k & r & Hk & Hp & Hn).
    destruct (proj2 (Hsame _) (ex_intro _ k2 (ex_intro _ r2
      (conj Hk2 (conj Hp2 eq_refl))))) as (k' & r' & Hk' & Hp' & Hn').
    specialize (Hge2 _ _ Hk Hp). specialize (Hge1 _ _ Hk' Hp'). lia.
  - destruct (proj1 (Hsame _) (ex_intro _ k1 (ex_intro _ r1
      (conj Hk1 (conj Hp1 eq_refl))))) as (k & r & Hk & Hp & Hn).
    by destruct (Hno2 _ _ Hk).
  - destruct (proj2 (Hsame _) (ex_intro _ k2 (ex_intro _ r2
      (conj Hk2 (conj Hp2 eq_refl))))) as (k & r & Hk & Hp & Hn).
    by destruct (Hno1 _ _ Hk).
  - congruence.
Qed.

Lemma update_Submissions_inr id grade feedback db n db' :
  update_Submissions id grade feedback db = inr (n, db') →
  (Submissions db !! id = None ∧ n = 0 ∧ db' = db)
  ∨ ∃ old,
      Submissions db !! id = Some old ∧ n = 1
      ∧ db' = with_Submissions
                (<[id := {| s_assignment_id := s_assignment_id old;
                            s_student_id := s_student_id old;
                            s_attempt_number := s_attempt_number old;
                            s_submitted_at := s_submitted_at old;
                            s_grade := default (s_grade old)
                                         ((.≫= REAL) <$> grade);
                            s_feedback := default (s_feedback old) feedback |}]>
                   (Submissions db)) db.
Proof.
  unfold update_Submissions.
  destruct (Submissions db !! id) as [old|]; intros [= <- <-]; [right|by left].
  by exists old.
Qed.

(** X11: a PATCH /submissions/{id} that returns a row rewrote only [grade]
    (to the value given, as a REAL column stores it) and [feedback] of that
    row; the assignment, student, attempt number and submission time stay,
    so for every pair the last attempt number, and with it the number the
    next POST /submissions hands out, is what it was before. *)
Theorem update_submission_keeps_attempts :
  ∀ submission_id patch db db' row,
    Main.update_submission submission_id patch db = (db', inr row) →
    ∃ old,
      Submissions db !! submission_id = Some old
      ∧ row = (submission_id,
               {| s_assignment_id := s_assignment_id old;
                  s_student_id := s_student_id old;
                  s_attempt_number := s_attempt_number old;
                  s_submitted_at := s_submitted_at old;
                  s_grade := default (s_grade old)
                               ((.≫= REAL)
                                <$> Main.SubmissionUpdate.grade patch);
                  s_feedback := default (s_feedback old)
                                  (Main.SubmissionUpdate.feedback patch) |})
      ∧ db' = with_Submissions (<[submission_id := row.2]> (Submissions db)) db
      ∧ ∀ a s, select_last_attempt a s db' = select_last_attempt a s db.
Proof.
  intros submission_id [grade feedback] db db' row.
  unfold Main.update_submission. simpl.
  destruct grade, feedback; try done; tx_unfold;
    match goal with |- context [update_Submissions ?i ?g ?f db] =>
      destruct (update_Submissions i g f db) as [e|[n db1]] eqn:Hup end;
    try done;
    apply update_Submissions_inr in Hup
      as [(Hnone & -> & ->)|(old & Hold & -> & ->)];
    unfold select_by_id; db_simpl;
    try (by rewrite Hnone);
    rewrite lookup_insert_eq; simpl; intros [= <- <-];
    exists old; (split; [done|]); (split; [done|]); (split; [done|]);
    intros a s; apply select_last_attempt_ext; intros n; db_simpl;
    (split; intros (k & r & Hk & Hp & Hn)).
  all: try (apply lookup_insert_Some in Hk as [[<- <-]|[Hne Hk]];
            [exists submission_id, old|exists k, r]; by simplify_eq/=).
  all: destruct (decide (k = submission_id)) as [->|Hne];
    [eexists submission_id, _; rewrite lookup_insert_eq;
       (split; [done|]); simplify_eq; done
    |exists k, r; by rewrite lookup_insert_ne].
Qed.

Lemma update_submission_keeps_attempts_witness :
  let patch := {| Main.SubmissionUpdate.grade := Some (Some 100%float);
                  Main.SubmissionUpdate.feedback := None |} in
  let db' := (Main.update_submission 1 patch Scenario.seeded).1 in
  select_last_attempt 1 3 db' = select_last_attempt 1 3 Scenario.seeded.
Proof.
  intros patch db'.
  assert (Hup : Main.update_submission 1 patch Scenario.seeded
                = (db', inr (1, {| s_assignment_id := 1; s_student_id := 3;
                                   s_attempt_number := 1;
                                   s_submitted_at := Scenario.now;
                                   s_grade := Some 100%float;
                                   s_feedback := Some "Excellent work" |})))
    by (vm_compute; reflexivity).
  destruct (update_submission_keeps_attempts 1 patch Scenario.seeded db' _ Hup)
    as (old & _ & _ & _ & Hlast).
  exact (Hlast 1 3).
Defined.



(** ** Cascades of the other DELETE routes *)

Lemma filter_key_ne_delete {A} (t : gmap Z A) id :
  filter (λ kr : Z * A, ¬ bool_decide (kr.1 = id)) t = delete id t.
Proof.
  apply map_eq. intros k. apply option_eq. intros x.
  rewrite map_lookup_filter_Some, lookup_delete_Some. simpl.
  rewrite Is_true_false, bool_decide_eq_false. naive_solver.
Qed.

(** X13: deleting an existing assignment (DELETE /assignments/{id} or
    [delete_assignment], which returns 1) removes the assignment, exactly
    the submissions made for it, and exactly the attachments of those
    submissions; the other five tables are untouched. *)
Theorem delete_assignment_cascade :
  ∀ db aid,
    is_Some (Assignments db !! aid) →
    ∃ db',
      Main.delete_assignment aid db = (db', inr tt)
      ∧ Crud.delete_assignment aid db = (db', inr 1)
      ∧ Assignments db' = delete aid (Assignments db)
      ∧ (∀ k s, Submissions db' !! k = Some s ↔
                Submissions db !! k = Some s ∧ s_assignment_id s ≠ aid)
      ∧ (∀ k att, SubmissionAttachments db' !! k = Some att ↔
                  SubmissionAttachments db !! k = Some att
                  ∧ ¬ ∃ s, Submissions db !! at_submission_id att = Some s
                           ∧ s_assignment_id s = aid)
      ∧ Users db' = Users db ∧ Classes db' = Classes db
      ∧ TeacherClass db' = TeacherClass db
      ∧ Enrollments db' = Enrollments db
      ∧ Announcements db' = Announcements db.
Proof.
  intros db aid [a Ha]. eexists.
  split; [|split].
  { unfold Main.delete_assignment. tx_unfold. unfold delete_Assignments.
    rewrite Ha. simpl. reflexivity. }
  { unfold Crud.delete_assignment. tx_unfold. unfold delete_Assignments.
    by rewrite Ha. }
  split; [|split; [|split]]; [| | |done].
  - db_simpl. apply filter_key_ne_delete.
  - intros k s. rewrite cascade_Assignments_submissions.
    apply and_iff_compat_l. split.
    + intros Hno Heq. apply Hno. exists a. rewrite Heq.
      split; [done|]. by apply bool_decide_eq_true.
    + intros Hne (a' & _ & Heq%bool_decide_eq_true). done.
  - intros k att. rewrite cascade_Assignments_attachments.
    apply and_iff_compat_l, not_iff_compat. split.
    + intros (s & a' & Hs & _ & Heq%bool_decide_eq_true). eauto.
    + intros (s & Hs & Heq). exists s, a. rewrite Heq.
      split; [done|]. split; [done|]. by apply bool_decide_eq_true.
Qed.

Lemma delete_assignment_cascade_witness :
  ∃ db',
    Main.delete_assignment 1 Scenario.seeded = (db', inr tt)
    ∧ Assignments db' !! 1 = None
    ∧ Submissions db' !! 1 = None ∧ Submissions db' !! 2 = None
    ∧ is_Some (Submissions db' !! 3)
    ∧ SubmissionAttachments db' !! 1 = None
    ∧ is_Some (SubmissionAttachments db' !! 3).
Proof.
  assert (Ha : is_Some (Assignments Scenario.seeded !! 1)).
  { apply (bool_decide_eq_true_1 _). vm_compute. reflexivity. }
  destruct (delete_assignment_cascade Scenario.seeded 1 Ha)
    as (db' & Hdel & _ & Hass & Hsub & Hatt & _).
  exists db'. split; [exact Hdel|]. clear Hdel Ha.
  rewrite Hass. clear Hass.
  split; [apply lookup_delete_eq|].
  assert (Hs1 : Submissions db' !! 1 = None).
  { destruct (Submissions db' !! 1) as [s|] eqn:Hs; [|done].
    apply Hsub in Hs as [Hs Hne]. vm_compute in Hs.
    injection Hs as <-. by destruct Hne. }
  assert (Hs2 : Submissions db' !! 2 = None).
  { destruct (Submissions db' !! 2) as [s|] eqn:Hs; [|done].
    apply Hsub in Hs as [Hs Hne]. vm_compute in Hs.
    injection Hs as <-. by destruct Hne. }
  assert (Hs3 : is_Some (Submissions db' !! 3)).
  { eexists. apply Hsub. split; [vm_compute; reflexivity|]. discriminate. }
  assert (Ha1 : SubmissionAttachments db' !! 1 = None).
  { destruct (SubmissionAttachments db' !! 1) as [att|] eqn:Hk; [|done].
    apply Hatt in Hk as [Hk Hne]. vm_compute in Hk. injection Hk as <-.
    destruct Hne. eexists. split; [vm_compute; reflexivity|reflexivity]. }
  assert (Ha3 : is_Some (SubmissionAttachments db' !! 3)).
  { eexists. apply Hatt. split; [vm_compute; reflexivity|].
    intros (s & Hs & Heq). vm_compute in Hs. injection Hs as <-.
    discriminate Heq. }
  clear Hsub Hatt. repeat split; assumption.
Defined.

(** X14: deleting an existing submission removes that row and exactly the
    attachments that reference it, nothing else; afterwards POST
    /attachments for that submission id is refused with the foreign-key
    message. *)
Theorem delete_submission_cascade :
  ∀ db sid,
    is_Some (Submissions db !! sid) →
    ∃ db',
      Main.delete_submission sid db = (db', inr tt)
      ∧ Crud.delete_submission sid db = (db', inr 1)
      ∧ Submissions db' = delete sid (Submissions db)
      ∧ (∀ k att, SubmissionAttachments db' !! k = Some att ↔
                  SubmissionAttachments db !! k = Some att
                  ∧ at_submission_id att ≠ sid)
      ∧ Users db' = Users db ∧ Classes db' = Classes db
      ∧ TeacherClass db' = TeacherClass db
      ∧ Enrollments db' = Enrollments db
      ∧ Assignments db' = Assignments db
      ∧ Announcements db' = Announcements db
      ∧ ∀ kind value now,
          Main.create_attachment
            {| Main.AttachmentCreate.submission_id := sid;
               Main.AttachmentCreate.kind := kind;
               Main.AttachmentCreate.value := value |} now db'
          = (db', inl (HTTPException 409
                         ("Attachment conflict: "
                          +:+ "FOREIGN KEY constraint failed"))).
Proof.
  intros db sid [s Hs]. eexists.
  split; [|split].
  { unfold Main.delete_submission. tx_unfold. unfold delete_Submissions.
    rewrite Hs. simpl. reflexivity. }
  { unfold Crud.delete_submission. tx_unfold. unfold delete_Submissions.
    by rewrite Hs. }
  assert (Hsub : Submissions (cascade_Submissions
                   (λ k _, bool_decide (k = sid)) db)
                 = delete sid (Submissions db)).
  { db_simpl. apply filter_key_ne_delete. }
  split; [exact Hsub|]. split; [|repeat (split; [done|])].
  - intros k att. rewrite cascade_Submissions_attachments.
    apply and_iff_compat_l. split.
    + intros Hno Heq. apply Hno. exists s. rewrite Heq.
      split; [done|]. by apply bool_decide_eq_true.
    + intros Hne (s' & _ & Heq%bool_decide_eq_true). done.
  - intros kind value now. unfold Main.create_attachment. tx_unfold.
    unfold insert_SubmissionAttachments, parent_exists.
    cbn [Main.AttachmentCreate.submission_id]. rewrite Hsub.
    rewrite lookup_delete_eq.
    by rewrite (bool_decide_eq_false_2 (is_Some None)) by (by intros [? ?]).
Qed.

Lemma delete_submission_cascade_witness :
  ∃ db',
    Main.delete_submission 1 Scenario.seeded = (db', inr tt)
    ∧ Submissions db' !! 1 = None
    ∧ Main.create_attachment
        {| Main.AttachmentCreate.submission_id := 1;
           Main.AttachmentCreate.kind := url;
           Main.AttachmentCreate.value := "https://example.com/late" |}
        Scenario.now db'
      = (db', inl (HTTPException 409
                     ("Attachment conflict: "
                      +:+ "FOREIGN KEY constraint failed"))).
Proof.
  assert (Hs : is_Some (Submissions Scenario.seeded !! 1)).
  { apply (bool_decide_eq_true_1 _). vm_compute. reflexivity. }
  destruct (delete_submission_cascade Scenario.seeded 1 Hs)
    as (db' & Hdel & _ & Hsub & _ & _ & _ & _ & _ & _ & _ & Hatt).
  exists db'. split; [exact Hdel|]. clear Hdel Hs.
  split; [rewrite Hsub; apply lookup_delete_eq|apply Hatt].
Defined.

(** X15: when DELETE /users/{id} succeeds, the cascade also removes
    exactly the submissions of that student and the attachments of those
    submissions; Classes, Assignments and Announcements are untouched. *)
Theorem delete_user_cascades_submissions :
  ∀ db uid,
    is_Some (Users db !! uid) →
    (∀ k an, Announcements db !! k = Some an → an_author_id an ≠ uid) →
    ∃ db',
      Main.delete_user uid db = (db', inr tt)
      ∧ (∀ k s, Submissions db' !! k = Some s ↔
                Submissions db !! k = Some s ∧ s_student_id s ≠ uid)
      ∧ (∀ k att, SubmissionAttachments db' !! k = Some att ↔
                  SubmissionAttachments db !! k = Some att
                  ∧ ¬ ∃ s, Submissions db !! at_submission_id att = Some s
                           ∧ s_student_id s = uid)
      ∧ Classes db' = Classes db
      ∧ Assignments db' = Assignments db
      ∧ Announcements db' = Announcements db.
Proof.
  intros db uid Hu Hno. eexists. split.
  { unfold Main.delete_user. tx_unfold.
    rewrite (delete_Users_cascades _ _ Hu Hno). simpl. reflexivity. }
  split; [|split; [|done]].
  - intros k s. rewrite cascade_Submissions_lookup. db_simpl.
    by rewrite bool_decide_eq_false.
  - intros k att. rewrite cascade_Submissions_attachments. db_simpl.
    by setoid_rewrite bool_decide_eq_true.
Qed.

Lemma delete_user_cascades_submissions_witness :
  ∃ db',
    Main.delete_user 3 Scenario.seeded = (db', inr tt)
    ∧ Submissions db' !! 1 = None
    ∧ is_Some (Submissions db' !! 2).
Proof.
  assert (Hu : is_Some (Users Scenario.seeded !! 3)).
  { apply (bool_decide_eq_true_1 _). vm_compute. reflexivity. }
  assert (Hno : ∀ k an, Announcements Scenario.seeded !! k = Some an →
                        an_author_id an ≠ 3).
  { apply (bool_decide_eq_true_1
             (map_Forall (λ _ an, an_author_id an ≠ 3)
                         (Announcements Scenario.seeded))).
    vm_compute. reflexivity. }
  destruct (delete_user_cascades_submissions Scenario.seeded 3 Hu Hno)
    as (db' & Hdel & Hsub & _).
  exists db'. split; [exact Hdel|]. clear Hdel Hu Hno.
  split.
  - destruct (Submissions db' !! 1) as [s|] eqn:Hs; [|done].
    apply Hsub in Hs as [Hs Hne]. vm_compute in Hs.
    injection Hs as <-. by destruct Hne.
  - eexists. apply Hsub. split; [vm_compute; reflexivity|]. discriminate.
Defined.

(** ** The UNIQUE constraints hold in every reachable database *)

Ltac uq_hyps :=
  repeat match goal with
  | H : <[_ := _]> _ !! _ = Some _ |- _ =>
      apply lookup_insert_Some in H as [[? ?]|[? H]]; simplify_eq
  | H : filter _ _ !! _ = Some _ |- _ =>
      apply map_lookup_filter_Some in H as [H ?]
  | H : delete _ _ !! _ = Some _ |- _ =>
      apply lookup_delete_Some in H as [? H]
  | H : bool_decide _ = false |- _ => apply bool_decide_eq_false in H
  | H : ¬ map_Exists _ _ |- _ => rewrite map_Exists_lookup in H
  end.

Ltac uq_step :=
  split; db_simpl; intros; uq_hyps; simpl in *;
  try done; try (unfold assigned in *); naive_solver.

Lemma unique_keys_kept q db db' :
  effect q db = Some db' → unique_keys db → unique_keys db'.
Proof.
  intros Hq [H1 H2 H3].
  destruct q; simpl in Hq.
  - unfold insert_Users in Hq. effect_cases Hq. uq_step.
  - unfold insert_Classes in Hq. effect_cases Hq. uq_step.
  - unfold insert_TeacherClass in Hq. effect_cases Hq. uq_step.
  - unfold insert_Enrollments in Hq. effect_cases Hq. uq_step.
  - unfold insert_Assignments in Hq. effect_cases Hq. uq_step.
  - unfold insert_Submissions in Hq. effect_cases Hq. uq_step.
  - unfold insert_SubmissionAttachments in Hq. effect_cases Hq. uq_step.
  - unfold insert_Announcements in Hq. effect_cases Hq. uq_step.
  - unfold update_Users in Hq. effect_cases Hq; uq_step.
  - unfold update_Classes in Hq. effect_cases Hq; uq_step.
  - unfold update_Assignments in Hq. effect_cases Hq; uq_step.
  - unfold update_Submissions in Hq. effect_cases Hq; uq_step.
  - unfold delete_Users in Hq. effect_cases Hq; uq_step.
  - unfold delete_Classes in Hq. effect_cases Hq; uq_step.
  - unfold delete_Assignments in Hq. effect_cases Hq; uq_step.
  - unfold delete_Submissions in Hq. effect_cases Hq; uq_step.
  - unfold delete_Enrollments in Hq. effect_cases Hq; uq_step.
  - unfold delete_TeacherClass in Hq. effect_cases Hq; uq_step.
  - unfold delete_SubmissionAttachments in Hq. effect_cases Hq; uq_step.
  - unfold delete_Announcements in Hq. effect_cases Hq; uq_step.
Qed.

Lemma unique_keys_empty : unique_keys empty_db.
Proof. split; simpl; intros *; rewrite ?lookup_empty; done. Qed.

Lemma reachable_unique_keys db : reachable db → unique_keys db.
Proof.
  induction 1 as [|r db _ IH|i db _ IH].
  - apply unique_keys_empty.
  - destruct (handle_statement r db) as [->|(q & Hq & _)]; [done|].
    by apply (unique_keys_kept q db).
  - destruct (invoke_statement i db) as [->|(q & Hq & _)]; [done|].
    by apply (unique_keys_kept q db).
Qed.

(** X16: every database the routes of main.py and the functions of
    managementCrud.py can produce from a fresh schema satisfies the foreign
    keys and the UNIQUE constraints of the DDL: no row references a missing
    parent, no two users share an email, no two classes a code, and no two
    submissions an (assignment, student, attempt number). *)
Theorem reachable_constraints_hold :
  ∀ db, reachable db → fk_consistent db ∧ unique_keys db.
Proof.
  intros db Hreach. split.
  - by apply reachable_fk_consistent.
  - by apply reachable_unique_keys.
Qed.

Lemma reachable_constraints_hold_witness :
  fk_consistent Scenario.seeded ∧ unique_keys Scenario.seeded.
Proof.
  exact (reachable_constraints_hold Scenario.seeded reachable_seeded).
Defined.

(** ** Rows that must reference a student *)

Lemma trg_student_role_false db u :
  when_true (sql_ne (u_role <$> Users db !! u) student) = false →
  is_Some (Users db !! u) →
  u_role <$> Users db !! u = Some student.
Proof.
  unfold sql_ne, when_true.
  intros Htrg [x Hx]. rewrite Hx in *. simpl in *.
  apply bool_decide_eq_false in Htrg. f_equal.
  by destruct (decide (u_role x = student)).
Qed.

Lemma student_rows_kept q db db' :
  effect q db = Some db' → ¬ sets_role q →
  student_rows db → student_rows db'.
Proof.
  unfold student_rows.
  intros Hq Hnot [He Hs].
  destruct q; simpl in Hq.
  - unfold insert_Users in Hq. effect_cases Hq. db_simpl.
    split.
    + intros uid cid Hin. specialize (He _ _ Hin).
      rewrite lookup_insert_ne; [done|]. intros <-.
      by rewrite new_rowid_fresh in He.
    + intros k sub Hk. specialize (Hs _ _ Hk).
      rewrite lookup_insert_ne; [done|]. intros Heq. rewrite <- Heq in Hs.
      by rewrite new_rowid_fresh in Hs.
  - unfold insert_Classes in Hq. effect_cases Hq. done.
  - unfold insert_TeacherClass in Hq. effect_cases Hq. done.
  - unfold insert_Enrollments, trg_enrollments_student_role, parent_exists
      in Hq. effect_cases Hq. db_simpl.
    split; [|done]. intros uid cid.
    rewrite lookup_insert_is_Some. intros [[= <- <-]|[_ Hin]]; [|by eauto].
    apply (trg_student_role_false db); [done|].
    match goal with H : negb _ = false |- _ =>
      apply negb_false_iff, andb_true_iff in H as [H _];
      by apply bool_decide_eq_true in H end.
  - unfold insert_Assignments in Hq. effect_cases Hq. done.
  - unfold insert_Submissions, trg_submissions_student_role, parent_exists
      in Hq. effect_cases Hq. db_simpl.
    split; [done|]. intros k sub.
    rewrite lookup_insert_Some. intros [[_ <-]|[_ Hk]]; [|by eauto].
    simpl. apply (trg_student_role_false db); [done|].
    match goal with H : negb _ = false |- _ =>
      apply negb_false_iff, andb_true_iff in H as [_ H];
      by apply bool_decide_eq_true in H end.
  - unfold insert_SubmissionAttachments in Hq. effect_cases Hq. done.
  - unfold insert_Announcements in Hq. effect_cases Hq. done.
  - destruct role as [role|]; [by destruct Hnot|].
    unfold update_Users in Hq. effect_cases Hq; try done.
    all: db_simpl; split.
    all: try (intros uid cid Hin; specialize (He _ _ Hin)).
    all: try (intros k sub Hk; specialize (Hs _ _ Hk);
              set (uid := s_student_id sub) in *; clearbody uid).
    all: destruct (decide (uid = id)) as [->|Hne];
      [|by rewrite lookup_insert_ne].
    all: rewrite lookup_insert_eq;
      match goal with
      | H : Users _ !! _ = Some _, H' : _ <$> Users _ !! _ = Some _ |- _ =>
          rewrite H in H' end;
      unfold assigned; simpl in *; congruence.
  - unfold update_Classes in Hq. effect_cases Hq; done.
  - unfold update_Assignments in Hq. effect_cases Hq; done.
  - unfold update_Submissions in Hq. effect_cases Hq; [|done].
    db_simpl. split; [done|]. intros k sub.
    rewrite lookup_insert_Some. intros [[_ <-]|[_ Hk]]; simpl; eauto.
  - unfold delete_Users in Hq. effect_cases Hq; [|done]. db_simpl. split.
    + intros uid cid [x [Hx Hne]%map_lookup_filter_Some]. simpl in Hne.
      rewrite lookup_delete_ne by done. apply (He uid cid). by eexists.
    + intros k sub [Hk Hkeep]%map_lookup_filter_Some. simpl in Hkeep.
      apply Is_true_false, bool_decide_eq_false in Hkeep.
      rewrite lookup_delete_ne by done. eauto.
  - unfold delete_Classes in Hq. effect_cases Hq; [|done]. db_simpl. split.
    + intros uid cid [x [Hx Hne]%map_lookup_filter_Some].
      apply (He uid cid). by eexists.
    + intros k sub [Hk _]%map_lookup_filter_Some. eauto.
  - unfold delete_Assignments in Hq. effect_cases Hq; [|done]. db_simpl.
    split; [done|].
    intros k sub [Hk _]%map_lookup_filter_Some. eauto.
  - unfold delete_Submissions in Hq. effect_cases Hq; [|done]. db_simpl.
    split; [done|].
    intros k sub [Hk _]%map_lookup_filter_Some. eauto.
  - unfold delete_Enrollments in Hq. effect_cases Hq; [|done]. db_simpl.
    split; [|done]. intros uid cid [x [_ Hx]%lookup_delete_Some].
    apply (He uid cid). by eexists.
  - unfold delete_TeacherClass in Hq. effect_cases Hq; done.
  - unfold delete_SubmissionAttachments in Hq. effect_cases Hq; done.
  - unfold delete_Announcements in Hq. effect_cases Hq; done.
Qed.

(** X17: "every Enrollments row and every Submissions row references a
    user with role student" holds on a fresh schema and is kept by every
    route of main.py and every function of managementCrud.py other than an
    update of a user that sets [role]. *)
Theorem student_rows_preserved :
  student_rows empty_db
  ∧ ∀ db,
      student_rows db →
      (∀ r, ¬ patches_role r → student_rows (Main.handle r db).1)
      ∧ (∀ i, ¬ updates_role i → student_rows (Crud.invoke i db).1).
Proof.
  split.
  { split; simpl; intros *; rewrite ?lookup_empty; [by intros [? ?]|done]. }
  intros db Hinv. split.
  - intros r Hr. destruct (handle_statement r db) as [->|(q & Hq & Hrole)];
      [done|].
    apply (student_rows_kept q db); tauto.
  - intros i Hi. destruct (invoke_statement i db) as [->|(q & Hq & Hrole)];
      [done|].
    apply (student_rows_kept q db); tauto.
Qed.

Lemma student_rows_preserved_witness :
  student_rows Scenario.seeded
  ∧ student_rows (Main.handle (Main.DELETE_enrollments 3 1) Scenario.seeded).1.
Proof.
  assert (He : map_Forall
                 (λ k _, u_role <$> Users Scenario.seeded !! k.1 = Some student)
                 (Enrollments Scenario.seeded)).
  { apply (bool_decide_eq_true_1 _). vm_compute. reflexivity. }
  assert (Hs : map_Forall
                 (λ _ s, u_role <$> Users Scenario.seeded !! s_student_id s
                         = Some student)
                 (Submissions Scenario.seeded)).
  { apply (bool_decide_eq_true_1 _). vm_compute. reflexivity. }
  assert (Hinv : student_rows Scenario.seeded).
  { split; [|exact Hs]. intros u c [x Hx]. exact (He (u, c) x Hx). }
  split; [exact Hinv|].
  refine (proj1 (proj2 student_rows_preserved Scenario.seeded Hinv)
            (Main.DELETE_enrollments 3 1) _).
  simpl. tauto.
Defined.

(** ** Listings *)

Section listings.
Context {A : Type}.
Implicit Types (rows : list A) (limit offset : Z).








End listings.





(** ** Listing teacher assignments *)




(** ** Listing the attempts of a pair *)



(** ** managementCrud.py cannot assign teachers *)

Ltac statement_unfold H :=
  unfold insert_Users, insert_Classes, insert_TeacherClass,
    insert_Enrollments, insert_Assignments, insert_Submissions,
    insert_SubmissionAttachments, insert_Announcements, update_Users,
    update_Classes, update_Assignments, update_Submissions, delete_Users,
    delete_Classes, delete_Assignments, delete_Submissions,
    delete_Enrollments, delete_TeacherClass, delete_SubmissionAttachments,
    delete_Announcements in H.



(** ** POST /assignments and GET /assignments/{id} *)



(** ** A rival request for another pair *)

(** The database a rival request leaves: the old one, or the old one with
    one more submission of the rival's pair. *)
Lemma rival_db payload db :
  Scenario.rival payload db = db
  ∨ ∃ sid row,
      of_pair (Main.SubmissionCreate.assignment_id payload)
              (Main.SubmissionCreate.student_id payload) row
      ∧ Scenario.rival payload db
        = with_Submissions (<[sid := row]> (Submissions db)) db.
Proof.
  unfold Scenario.rival, Scenario.and_then.
  destruct (Main.create_submission payload Scenario.now db)
    as [db1 [e|out]] eqn:Hres; simpl.
  - left. unfold Main.create_submission, Main.get_conn in Hres.
    by apply commit_or_discard_inl in Hres.
  - right. apply create_submission_inr in Hres as (sid & _ & _ & ->).
    eexists sid, _. split; [|reflexivity]. by split.
Qed.

(** X24: a rival POST /submissions for another (assignment, student)
    pair, committed between the SELECT and the INSERT of an eligible
    request, does no harm: the request succeeds with the attempt number it
    computed.  (When that number does not fit an SQLite INTEGER the request
    ends with OverflowError, rival or not.) *)
Theorem create_submission_rival_of_other_pair :
  ∀ payload other now db u ar,
    let a := Main.SubmissionCreate.assignment_id payload in
    let s := Main.SubmissionCreate.student_id payload in
    (Main.SubmissionCreate.assignment_id other,
     Main.SubmissionCreate.student_id other) ≠ (a, s) →
    Users db !! s = Some u → u_role u = student →
    Assignments db !! a = Some ar →
    is_Some (Enrollments db !! (s, a_class_id ar)) →
    if bool_decide (int64 (select_last_attempt a s db + 1))
    then
      ∃ sid row,
        Main.create_submission_interleaved (Scenario.rival other) payload now db
        = (with_Submissions
             (<[sid := row]> (Submissions (Scenario.rival other db)))
             (Scenario.rival other db),
           inr (Some (sid, row)))
        ∧ of_pair a s row
        ∧ s_attempt_number row = select_last_attempt a s db + 1
    else
      Main.create_submission_interleaved (Scenario.rival other) payload now db
      = (Scenario.rival other db,
         inl (OverflowError
                "Python int too large to convert to SQLite INTEGER")).
Proof.
  intros payload other now db u ar a s Hpair Hu Hr Ha He.
  case_bool_decide as Hn.
  2:{ rewrite create_submission_interleaved_eq, get_conn_insert_attempt.
      fold a s. by rewrite (bool_decide_eq_false_2 _ Hn). }
  set (db1 := Scenario.rival other db).
  assert (Hsame : Users db1 = Users db ∧ Assignments db1 = Assignments db
                  ∧ Enrollments db1 = Enrollments db).
  { subst db1. destruct (rival_db other db) as [->|(sid & row & _ & ->)];
      done. }
  destruct Hsame as (HU & HA & HE).
  destruct (create_submission_interleaved_ok (Scenario.rival other) payload
              now db u ar) as (sid & row & Hres & _ & Hp & Hnum);
    fold db1; rewrite ?HU, ?HA, ?HE; try done.
  - intros k r Hk Hp Hnum.
    subst db1. destruct (rival_db other db) as [Heq|(sid & row & Hq & Heq)];
      rewrite Heq in Hk.
    + pose proof (select_last_attempt_ge _ _ db k r Hk Hp). lia.
    + db_simpl in Hk. apply lookup_insert_Some in Hk as [[_ <-]|[_ Hk]].
      * destruct Hq as [Hq1 Hq2]. destruct Hp as [Hp1 Hp2].
        apply Hpair. subst a s. congruence.
      * pose proof (select_last_attempt_ge _ _ db k r Hk Hp). lia.
  - by exists sid, row.
Qed.

Lemma create_submission_rival_of_other_pair_witness :
  ∃ sid row,
    Main.create_submission_interleaved (Scenario.rival (Scenario.submit 1 4))
      (Scenario.submit 1 3) Scenario.now Scenario.seeded
    = (with_Submissions
         (<[sid := row]>
            (Submissions (Scenario.rival (Scenario.submit 1 4) Scenario.seeded)))
         (Scenario.rival (Scenario.submit 1 4) Scenario.seeded),
       inr (Some (sid, row)))
    ∧ of_pair 1 3 row
    ∧ s_attempt_number row = select_last_attempt 1 3 Scenario.seeded + 1.
Proof.
  assert (Hn : bool_decide (int64 (select_last_attempt 1 3 Scenario.seeded + 1))
               = true) by (vm_compute; reflexivity).
  assert (Hpair : (Main.SubmissionCreate.assignment_id (Scenario.submit 1 4),
                   Main.SubmissionCreate.student_id (Scenario.submit 1 4))
                  ≠ (1, 3)) by (vm_compute; discriminate).
  assert (Hu : Users Scenario.seeded !! 3
               = Some {| u_email := "student1@example.com";
                         u_full_name := "Charlie Student"; u_role := student;
                         u_created_at := Scenario.now |})
    by (vm_compute; reflexivity).
  assert (Ha : Assignments Scenario.seeded !! 1
               = Some {| a_class_id := 1; a_title := "Assignment 1";
                         a_description :=
                           Some "Write a Python program for Fibonacci numbers";
                         a_due_at := "2025-09-01 23:59:00";
                         a_created_at := Scenario.now |})
    by (vm_compute; reflexivity).
  assert (He : is_Some (Enrollments Scenario.seeded !! (3, 1))).
  { apply (bool_decide_eq_true_1 _). vm_compute. reflexivity. }
  pose proof (create_submission_rival_of_other_pair (Scenario.submit 1 3)
                (Scenario.submit 1 4) Scenario.now Scenario.seeded _ _
                Hpair Hu eq_refl Ha He) as Hres.
  clear Hpair Hu Ha He.
  cbn [Scenario.submit Main.SubmissionCreate.assignment_id
       Main.SubmissionCreate.student_id] in Hres.
  rewrite Hn in Hres. exact Hres.
Defined.

(** ** What the PATCH routes leave alone *)

Lemma dom_insert_existing {A} (t : gmap Z A) k x :
  is_Some (t !! k) → dom (<[k := x]> t) = dom t.
Proof. intros Hk. by apply dom_insert_lookup_L. Qed.

(** X25: a PATCH route creates and deletes nothing: the ids of Users,
    Classes, Assignments and Submissions are the same before and after, and
    TeacherClass, Enrollments, SubmissionAttachments and Announcements are
    unchanged: whatever the outcome. *)
Theorem patch_routes_frame :
  ∀ r db,
    match r with
    | Main.PATCH_users _ _ | Main.PATCH_classes _ _
    | Main.PATCH_assignments _ _ | Main.PATCH_submissions _ _ => True
    | _ => False
    end →
    let db' := (Main.handle r db).1 in
    dom (Users db') = dom (Users db)
    ∧ dom (Classes db') = dom (Classes db)
    ∧ dom (Assignments db') = dom (Assignments db)
    ∧ dom (Submissions db') = dom (Submissions db)
    ∧ TeacherClass db' = TeacherClass db
    ∧ Enrollments db' = Enrollments db
    ∧ SubmissionAttachments db' = SubmissionAttachments db
    ∧ Announcements db' = Announcements db.
Proof.
  intros r db Hr. destruct r; try done; clear Hr; cbv zeta; simpl;
    handler_unfold; split_patch; simpl; try done;
    split_statement; simpl; try done;
    match goal with H : _ = inr _ |- _ =>
      statement_unfold H; repeat case_match; simplify_eq end;
    split_reads; db_simpl; rewrite ?dom_insert_existing by eauto; done.
Qed.

Lemma patch_routes_frame_witness :
  let db' := (Main.handle (Main.PATCH_users 1 (set_role student))
                Scenario.seeded).1 in
  dom (Users db') = dom (Users Scenario.seeded)
  ∧ TeacherClass db' = TeacherClass Scenario.seeded.
Proof.
  intros db'.
  destruct (patch_routes_frame (Main.PATCH_users 1 (set_role student))
              Scenario.seeded I) as (Hu & _ & _ & _ & Htc & _).
  split; [exact Hu|exact Htc].
Defined.

(** ** The row counts of the update functions of managementCrud.py *)


